(** * pyueransim: a shallow embedding of the protocol engine

    The development follows the layout of the Python package:

    - [Py]          the Python primitives the code relies on (exceptions,
                    [bytes], [int.to_bytes], [bytes.fromhex], [str.split]...)
    - [Core]        [pyueransim/core/__init__.py]  (state enums, timers)
    - [Nas]         [pyueransim/core/nas.py]
    - [Rrc]         [pyueransim/core/rrc.py]
    - [Simulation]  [pyueransim/simulation/__init__.py]

    Methods that mutate [self] are functions from the object to the updated
    object; methods that may raise return a [Py.result]; methods that do both
    live in the monad [Py.M], which keeps the mutations performed before an
    exception was raised, as Python does. *)

From Stdlib Require Import ZArith Lia Bool Ascii String List.
From Stdlib.Strings Require Import Byte.
From stdpp Require Import base option list gmap strings fin_maps.
Import ListNotations.
Local Open Scope Z_scope.

(* ===================================================================== *)
(** * Python primitives *)
(* ===================================================================== *)

Module Py.

(** Exception classes.  The first four are the built-in classes that the
    modelled code can raise.  [ProtocolDecodeError] is the class named by
    the error taxonomy of the specification; the package defines no class
    of that name and no modelled function raises it. *)
Inductive exn : Set :=
| ValueError
| IndexError
| OverflowError
| UnicodeEncodeError
| ProtocolDecodeError.

Inductive result (A : Type) : Type :=
| Ok (a : A)
| Raise (e : exn).
Arguments Ok {A} a.
Arguments Raise {A} e.

Definition bind {A B} (r : result A) (k : A -> result B) : result B :=
  match r with
  | Ok a => k a
  | Raise e => Raise e
  end.

(** A method of a mutable object of class [S] that may raise: the state
    reached when the exception is raised is part of the outcome. *)
Definition M (S A : Type) : Type := S -> S * result A.

Definition ret {S A} (a : A) : M S A := fun s => (s, Ok a).
Definition lift {S A} (r : result A) : M S A := fun s => (s, r).
Definition get {S} : M S S := fun s => (s, Ok s).
Definition modify {S} (f : S -> S) : M S unit := fun s => (f s, Ok tt).
Definition mbind {S A B} (m : M S A) (k : A -> M S B) : M S B :=
  fun s =>
    match m s with
    | (s', Ok a) => k a s'
    | (s', Raise e) => (s', Raise e)
    end.

(** ** [bytes] *)

Definition bytes : Type := list byte.

Definition Z_of_byte (b : byte) : Z := Z.of_N (Byte.to_N b).

Definition byte_of_Z (z : Z) : option byte :=
  if (0 <=? z) && (z <? 256) then Byte.of_N (Z.to_N z) else None.

(** [bytes([z0, z1, ...])]: every item must be in [range(0, 256)]. *)
Fixpoint bytes_of_ints (l : list Z) : result bytes :=
  match l with
  | [] => Ok []
  | z :: l' =>
      match byte_of_Z z with
      | Some b => bind (bytes_of_ints l') (fun r => Ok (b :: r))
      | None => Raise ValueError
      end
  end.

(** [len(x)] *)
Definition len {A} (l : list A) : Z := Z.of_nat (length l).

(** [x[-n:]] for [n > 0] *)
Definition last_n {A} (n : nat) (l : list A) : list A :=
  drop (length l - n)%nat l.

(** Truth value of an [Optional[bytes]]: [None] and [b""] are false. *)
Definition truthy (o : option bytes) : bool :=
  match o with
  | Some (_ :: _) => true
  | _ => false
  end.

(** [int.from_bytes(b, 'big')] *)
Definition from_bytes_big (b : bytes) : Z :=
  fold_left (fun acc x => acc * 256 + Z_of_byte x) b 0.

(** [n.to_bytes(length, 'big')]: [OverflowError] when [n] is negative or
    does not fit. *)
Fixpoint be_digits (length : nat) (n : Z) : list Z :=
  match length with
  | O => []
  | S k => (n / 256 ^ Z.of_nat k) mod 256 :: be_digits k n
  end.

Definition to_bytes_big (n : Z) (length : nat) : result bytes :=
  if (0 <=? n) && (n <? 256 ^ Z.of_nat length)
  then bytes_of_ints (be_digits length n)
  else Raise OverflowError.

(** ** [str] *)

Definition code (c : ascii) : Z := Z.of_N (N_of_ascii c).

(** [s[:n]] *)
Fixpoint str_take (n : nat) (s : string) : string :=
  match n, s with
  | S k, String c r => String c (str_take k r)
  | _, _ => EmptyString
  end.

(** [s.split(sep)] for a one-character separator. *)
Fixpoint split (sep : ascii) (s : string) : list string :=
  match s with
  | EmptyString => [EmptyString]
  | String c r =>
      if Ascii.eqb c sep then EmptyString :: split sep r
      else match split sep r with
           | h :: t => String c h :: t
           | [] => [String c EmptyString]
           end
  end.

(** [l[i]] on a list: [IndexError] out of range (non-negative [i]). *)
Definition index {A} (l : list A) (i : nat) : result A :=
  match l !! i with
  | Some x => Ok x
  | None => Raise IndexError
  end.

(** [int(s)] on a string of ASCII decimal digits.  The signed, padded and
    underscore-separated literals that [int] also accepts are not modelled
    (they are [ValueError] here); the package only converts digit groups
    of an IMSI. *)
Definition digitval (c : ascii) : option Z :=
  let n := code c in
  if (48 <=? n) && (n <=? 57) then Some (n - 48) else None.

Fixpoint int_digits (acc : Z) (s : string) : result Z :=
  match s with
  | EmptyString => Ok acc
  | String c r =>
      match digitval c with
      | Some d => int_digits (10 * acc + d) r
      | None => Raise ValueError
      end
  end.

Definition int_of_str (s : string) : result Z :=
  match s with
  | EmptyString => Raise ValueError
  | _ => int_digits 0 s
  end.

(** [s.encode('ascii')] *)
Fixpoint encode_ascii (s : string) : result bytes :=
  match s with
  | EmptyString => Ok []
  | String c r =>
      if code c <? 128
      then bind (encode_ascii r) (fun t => Ok (byte_of_ascii c :: t))
      else Raise UnicodeEncodeError
  end.

(** [b.hex()] *)
Definition hexdigit (n : Z) : ascii :=
  ascii_of_N (Z.to_N (if n <? 10 then 48 + n else 87 + n)).

Fixpoint hex (b : bytes) : string :=
  match b with
  | [] => EmptyString
  | x :: r =>
      String (hexdigit (Z_of_byte x / 16))
        (String (hexdigit (Z_of_byte x mod 16)) (hex r))
  end.

(** [bytes.fromhex(s)]: pairs of hexadecimal digits, ASCII whitespace
    between the pairs is skipped. *)
Definition hexval (c : ascii) : option Z :=
  let n := code c in
  if (48 <=? n) && (n <=? 57) then Some (n - 48)
  else if (97 <=? n) && (n <=? 102) then Some (n - 87)
  else if (65 <=? n) && (n <=? 70) then Some (n - 55)
  else None.

Definition is_space (c : ascii) : bool :=
  let n := code c in
  (n =? 32) || ((9 <=? n) && (n <=? 13)).

Fixpoint fromhex (s : string) : result bytes :=
  match s with
  | EmptyString => Ok []
  | String c s' =>
      if is_space c then fromhex s'
      else
        match hexval c, s' with
        | Some h, String d s'' =>
            match hexval d with
            | Some l =>
                bind (bytes_of_ints [16 * h + l]) (fun b =>
                bind (fromhex s'') (fun r => Ok (b ++ r)))
            | None => Raise ValueError
            end
        | _, _ => Raise ValueError
        end
  end.

(** [bytes(n)]: [n] zero bytes, [ValueError] for a negative count. *)
Definition zeros (n : Z) : result bytes :=
  if n <? 0 then Raise ValueError
  else Ok (replicate (Z.to_nat n) "000"%byte).

End Py.

Notation "'let?' x ':=' e 'in' k" := (Py.bind e (fun x => k))
  (at level 10, x name, e at level 100, k at level 200, only parsing).
Notation "'let!' x ':=' e 'in' k" := (Py.mbind e (fun x => k))
  (at level 10, x name, e at level 100, k at level 200, only parsing).
Notation "'do!' e 'in' k" := (Py.mbind e (fun _ => k))
  (at level 10, e at level 100, k at level 200, only parsing).

Import Py.

(* ===================================================================== *)
(** * core/__init__.py *)
(* ===================================================================== *)

Module Core.

(** ** UE state enums ([auto()] members carry no payload) *)

Inductive EMmState : Set :=
| MM_NULL
| MM_DEREGISTERED
| MM_REGISTERED_INITIATED
| MM_REGISTERED
| MM_DEREGISTERED_INITIATED
| MM_SERVICE_REQUEST_INITIATED.

Inductive EMmSubState : Set :=
| MM_DEREGISTERED_NORMAL_SERVICE
| MM_DEREGISTERED_ATTACH_NEEDED
| MM_DEREGISTERED_ATTEMPTING_ATTACH
| MM_DEREGISTERED_PLMN_SEARCH
| MM_DEREGISTERED_NO_IMSI
| MM_DEREGISTERED_ONLY_IMSI
| MM_DEREGISTERED_UPDATE_NEEDED
| MM_DEREGISTERED_ATTACH_EXPIRED
| MM_REGISTERED_NORMAL_SERVICE
| MM_REGISTERED_ATTEMPTING_UPDATE
| MM_REGISTERED_PLMN_SEARCH
| MM_REGISTERED_UPDATE_NEEDED
| MM_REGISTERED_NO_CELL_AVAILABLE.

Inductive ECmState : Set := CM_IDLE | CM_CONNECTED.

Inductive ERrcState : Set := RRC_IDLE | RRC_CONNECTED | RRC_INACTIVE.

Inductive ESmState : Set := SM_NULL | SM_PENDING | SM_ACTIVE.

(** The [.name] attribute of the members. *)
Definition EMmState_name (s : EMmState) : string :=
  match s with
  | MM_NULL => "MM_NULL"
  | MM_DEREGISTERED => "MM_DEREGISTERED"
  | MM_REGISTERED_INITIATED => "MM_REGISTERED_INITIATED"
  | MM_REGISTERED => "MM_REGISTERED"
  | MM_DEREGISTERED_INITIATED => "MM_DEREGISTERED_INITIATED"
  | MM_SERVICE_REQUEST_INITIATED => "MM_SERVICE_REQUEST_INITIATED"
  end.

Definition ECmState_name (s : ECmState) : string :=
  match s with
  | CM_IDLE => "CM_IDLE"
  | CM_CONNECTED => "CM_CONNECTED"
  end.

Definition ERrcState_name (s : ERrcState) : string :=
  match s with
  | RRC_IDLE => "RRC_IDLE"
  | RRC_CONNECTED => "RRC_CONNECTED"
  | RRC_INACTIVE => "RRC_INACTIVE"
  end.

Definition ESmState_name (s : ESmState) : string :=
  match s with
  | SM_NULL => "SM_NULL"
  | SM_PENDING => "SM_PENDING"
  | SM_ACTIVE => "SM_ACTIVE"
  end.

#[export] Instance ERrcState_eq_dec : EqDecision ERrcState.
Proof. solve_decision. Defined.

(** ** Timers

    A [datetime] is a number of clock ticks since [datetime.min]; the
    float [timeout] of the source is a number of the same ticks.  The wall
    clock is an argument of every method that reads [datetime.now()]. *)

Definition datetime : Type := Z.
Definition datetime_min : datetime := 0.

(** The values of the opaque [Dict[str, Any]] attached to a timer. *)
Inductive Any : Type :=
| AnyNone
| AnyInt (z : Z)
| AnyStr (s : string)
| AnyBytes (b : bytes).

Module Timer.

Record t : Type := mk {
  id : Z;
  timeout : Z;
  started_at : option datetime;
  data : option (gmap string Any)
}.

Definition is_running (self : t) : bool :=
  match started_at self with
  | Some _ => true
  | None => false
  end.

Definition is_expired (now : datetime) (self : t) : bool :=
  match started_at self with
  | None => false
  | Some s => timeout self <=? now - s
  end.

Definition start (now : datetime) (self : t) : t :=
  mk (id self) (timeout self) (Some now) (data self).

Definition stop (self : t) : t :=
  mk (id self) (timeout self) None (data self).


(** [self.timers[timer_id].started_at = datetime.min] *)
Definition set_started_at (v : option datetime) (self : t) : t :=
  mk (id self) (timeout self) v (data self).

End Timer.

Module TimerManager.

Record t : Type := mk {
  timers : gmap Z Timer.t;
  next_id : Z
}.

(** [TimerManager()] *)
Definition new : t := mk ∅ 1.

Definition allocate (timeout : Z) (data : option (gmap string Any))
    (self : t) : t * Z :=
  let timer_id := next_id self in
  (mk (<[timer_id := Timer.mk timer_id timeout None data]> (timers self))
      (next_id self + 1),
   timer_id).

Definition start (now : datetime) (timer_id : Z) (self : t) : t * bool :=
  match timers self !! timer_id with
  | Some tm =>
      (mk (<[timer_id := Timer.start now tm]> (timers self)) (next_id self),
       true)
  | None => (self, false)
  end.

Definition stop (timer_id : Z) (self : t) : t * bool :=
  match timers self !! timer_id with
  | Some tm =>
      (mk (<[timer_id := Timer.stop tm]> (timers self)) (next_id self),
       true)
  | None => (self, false)
  end.

Definition get (timer_id : Z) (self : t) : option Timer.t :=
  timers self !! timer_id.

Definition expire (timer_id : Z) (self : t) : t * bool :=
  match timers self !! timer_id with
  | Some tm =>
      (mk (<[timer_id := Timer.set_started_at (Some datetime_min) tm]>
             (timers self)) (next_id self),
       true)
  | None => (self, false)
  end.

Definition running (self : t) : list Timer.t :=
  List.filter Timer.is_running (map_to_list (timers self)).*2.

(** [check_expired]: the first loop collects the expired timers and
    their keys, the second deletes the keys.  [clock k] is the reading
    of [datetime.now()] taken when the timer under key [k] is examined.
    The dictionary is traversed in the order of [map_to_list], not in
    insertion order. *)
Definition check_expired (clock : Z -> datetime) (self : t)
    : t * list Timer.t :=
  let hits :=
    List.filter (fun kt => Timer.is_expired (clock kt.1) kt.2)
                (map_to_list (timers self)) in
  let expired := hits.*2 in
  let expired_ids := hits.*1 in
  (mk (foldl (fun d k => delete k d) (timers self) expired_ids)
      (next_id self),
   expired).

Definition clear (self : t) : t := mk ∅ 1.

(** The invariant that [allocate] establishes and every method keeps:
    a timer is stored under its own [id]. *)
Definition wf (self : t) : Prop :=
  forall k tm, timers self !! k = Some tm -> Timer.id tm = k.

(** A second invariant of the same kind: every stored id is below
    [next_id], the id that [allocate] hands out next. *)
Definition ids_below_next (self : t) : Prop :=
  forall k tm, timers self !! k = Some tm -> k < next_id self.

(** The managers that the methods can produce from [TimerManager()]. *)
Inductive reachable : t -> Prop :=
| reach_new : reachable new
| reach_allocate m timeout data :
    reachable m -> reachable (allocate timeout data m).1
| reach_start m now timer_id :
    reachable m -> reachable (start now timer_id m).1
| reach_stop m timer_id :
    reachable m -> reachable (stop timer_id m).1
| reach_expire m timer_id :
    reachable m -> reachable (expire timer_id m).1
| reach_check_expired m clock :
    reachable m -> reachable (check_expired clock m).1
| reach_clear m :
    reachable m -> reachable (clear m).

End TimerManager.

(** ** NAS security context *)

Module NasSecurityContext.
Record t : Type := mk {
  k_nas_int : bytes;
  k_nas_enc : bytes;
  integrity_algorithm : Z;
  encryption_algorithm : Z;
  count : Z;
  bearer : Z;
  direction : Z
}.
End NasSecurityContext.

(** ** OctetString

    The buffer is the attribute [_data]; the methods that assign it return
    the updated object.  [__init__] with its untyped [data] argument and
    [random] are left out: [mk] builds the object from its bytes. *)

Module OctetString.

Record t : Type := mk { _data : bytes }.

Definition hex (self : t) : string := Py.hex (_data self).

Definition to_bytes (self : t) : bytes := _data self.

Definition from_hex (hex_str : string) (self : t) : result t :=
  let? d := fromhex hex_str in Ok (mk d).

(** [value.to_bytes(length, 'big')]; a negative [length] is a
    [ValueError]. *)
Definition from_number (value length : Z) (self : t) : result t :=
  if length <? 0 then Raise ValueError
  else let? d := to_bytes_big value (Z.to_nat length) in Ok (mk d).

Definition to_number (self : t) : Z := from_bytes_big (_data self).

Definition from_string (s : string) (self : t) : result t :=
  let? d := encode_ascii s in Ok (mk d).

Definition size (self : t) : Z := len (_data self).

Definition empty (self : t) : bool := len (_data self) =? 0.

Definition allocate (size : Z) (self : t) : result t :=
  let? d := zeros size in Ok (mk d).

Definition set (data : bytes) (self : t) : t := mk data.

Definition append (other : t) (self : t) : t := mk (_data self ++ _data other).

Definition prefix (other : t) (self : t) : t := mk (_data other ++ _data self).

Definition reserve (size : Z) (self : t) : result t :=
  if len (_data self) <? size
  then let? pad := zeros (size - len (_data self)) in
       Ok (mk (_data self ++ pad))
  else Ok self.

End OctetString.

End Core.

(* ===================================================================== *)
(** * core/nas.py *)
(* ===================================================================== *)

Module Nas.

Inductive ENasMessageType : Set :=
| REGISTRATION_REQUEST
| REGISTRATION_ACCEPT
| REGISTRATION_COMPLETE
| REGISTRATION_REJECT
| DEREGISTRATION_REQUEST
| DEREGISTRATION_ACCEPT_UE_ORIG
| DEREGISTRATION_ACCEPT_UE_TERM
| SERVICE_REQUEST
| SERVICE_REJECT
| CONTROL_MESSAGE_SERVICE_REQUEST
| AUTHENTICATION_REQUEST
| AUTHENTICATION_RESPONSE
| AUTHENTICATION_REJECT
| AUTHENTICATION_FAILURE
| AUTHENTICATION_RESULT
| SECURITY_MODE_COMMAND
| SECURITY_MODE_COMPLETE
| SECURITY_MODE_REJECT
| UL_NAS_TRANSPORT
| DL_NAS_TRANSPORT
| PDU_SESSION_ESTABLISHMENT_REQUEST
| PDU_SESSION_ESTABLISHMENT_ACCEPT
| PDU_SESSION_ESTABLISHMENT_REJECT
| PDU_SESSION_MODIFICATION_REQUEST
| PDU_SESSION_MODIFICATION_COMPLETE
| PDU_SESSION_MODIFICATION_COMMAND_REJECT
| PDU_SESSION_RELEASE_REQUEST
| PDU_SESSION_RELEASE_REJECT
| PDU_SESSION_RELEASE_COMPLETE.

(** [member.value] *)
Definition value (m : ENasMessageType) : Z :=
  match m with
  | REGISTRATION_REQUEST => 0x41
  | REGISTRATION_ACCEPT => 0x42
  | REGISTRATION_COMPLETE => 0x43
  | REGISTRATION_REJECT => 0x44
  | DEREGISTRATION_REQUEST => 0x45
  | DEREGISTRATION_ACCEPT_UE_ORIG => 0x46
  | DEREGISTRATION_ACCEPT_UE_TERM => 0x47
  | SERVICE_REQUEST => 0x48
  | SERVICE_REJECT => 0x49
  | CONTROL_MESSAGE_SERVICE_REQUEST => 0x4c
  | AUTHENTICATION_REQUEST => 0x56
  | AUTHENTICATION_RESPONSE => 0x57
  | AUTHENTICATION_REJECT => 0x58
  | AUTHENTICATION_FAILURE => 0x59
  | AUTHENTICATION_RESULT => 0x5b
  | SECURITY_MODE_COMMAND => 0x5d
  | SECURITY_MODE_COMPLETE => 0x5e
  | SECURITY_MODE_REJECT => 0x5f
  | UL_NAS_TRANSPORT => 0x67
  | DL_NAS_TRANSPORT => 0x68
  | PDU_SESSION_ESTABLISHMENT_REQUEST => 0xa1
  | PDU_SESSION_ESTABLISHMENT_ACCEPT => 0xa2
  | PDU_SESSION_ESTABLISHMENT_REJECT => 0xa3
  | PDU_SESSION_MODIFICATION_REQUEST => 0xa9
  | PDU_SESSION_MODIFICATION_COMPLETE => 0xaa
  | PDU_SESSION_MODIFICATION_COMMAND_REJECT => 0xab
  | PDU_SESSION_RELEASE_REQUEST => 0xa5
  | PDU_SESSION_RELEASE_REJECT => 0xa6
  | PDU_SESSION_RELEASE_COMPLETE => 0xa8
  end.

(** [ENasMessageType(v)]: the enum lookup raises [ValueError] when no
    member has the value. *)
Definition of_value (v : Z) : result ENasMessageType :=
  match v with
  | 0x41 => Ok REGISTRATION_REQUEST
  | 0x42 => Ok REGISTRATION_ACCEPT
  | 0x43 => Ok REGISTRATION_COMPLETE
  | 0x44 => Ok REGISTRATION_REJECT
  | 0x45 => Ok DEREGISTRATION_REQUEST
  | 0x46 => Ok DEREGISTRATION_ACCEPT_UE_ORIG
  | 0x47 => Ok DEREGISTRATION_ACCEPT_UE_TERM
  | 0x48 => Ok SERVICE_REQUEST
  | 0x49 => Ok SERVICE_REJECT
  | 0x4c => Ok CONTROL_MESSAGE_SERVICE_REQUEST
  | 0x56 => Ok AUTHENTICATION_REQUEST
  | 0x57 => Ok AUTHENTICATION_RESPONSE
  | 0x58 => Ok AUTHENTICATION_REJECT
  | 0x59 => Ok AUTHENTICATION_FAILURE
  | 0x5b => Ok AUTHENTICATION_RESULT
  | 0x5d => Ok SECURITY_MODE_COMMAND
  | 0x5e => Ok SECURITY_MODE_COMPLETE
  | 0x5f => Ok SECURITY_MODE_REJECT
  | 0x67 => Ok UL_NAS_TRANSPORT
  | 0x68 => Ok DL_NAS_TRANSPORT
  | 0xa1 => Ok PDU_SESSION_ESTABLISHMENT_REQUEST
  | 0xa2 => Ok PDU_SESSION_ESTABLISHMENT_ACCEPT
  | 0xa3 => Ok PDU_SESSION_ESTABLISHMENT_REJECT
  | 0xa9 => Ok PDU_SESSION_MODIFICATION_REQUEST
  | 0xaa => Ok PDU_SESSION_MODIFICATION_COMPLETE
  | 0xab => Ok PDU_SESSION_MODIFICATION_COMMAND_REJECT
  | 0xa5 => Ok PDU_SESSION_RELEASE_REQUEST
  | 0xa6 => Ok PDU_SESSION_RELEASE_REJECT
  | 0xa8 => Ok PDU_SESSION_RELEASE_COMPLETE
  | _ => Raise ValueError
  end.

#[export] Instance ENasMessageType_eq_dec : EqDecision ENasMessageType.
Proof. solve_decision. Defined.

Module NasMessage.

Record t : Type := mk {
  security_header : Z;
  message_type : ENasMessageType;
  plain_message : bytes;
  encrypted_message : bytes
}.

(** [NasMessage()] *)
Definition default : t := mk 0 REGISTRATION_REQUEST [] [].

Definition encode (self : t) : result bytes :=
  let? data := bytes_of_ints [security_header self;
                              value (message_type self)] in
  if security_header self =? 0
  then Ok (data ++ plain_message self)
  else Ok (data ++ encrypted_message self).

Definition decode (data : bytes) : result t :=
  let? hdr :=
    match data with
    | b0 :: b1 :: _ =>
        let? ty := of_value (Z_of_byte b1) in Ok (Z_of_byte b0, ty)
    | _ => Ok (security_header default, message_type default)
    end in
  if hdr.1 =? 0
  then Ok (mk hdr.1 hdr.2 (drop 2 data) (encrypted_message default))
  else Ok (mk hdr.1 hdr.2 (plain_message default) (drop 2 data)).

End NasMessage.

(** The pattern [if self.ie: data += bytes([tag, len(self.ie)]) + self.ie]
    shared by the message encoders: one tag, length, value element, emitted
    when the field is set and not empty. *)
Definition tlv (tag : Z) (o : option bytes) : result bytes :=
  match o with
  | Some v =>
      if truthy o
      then let? h := bytes_of_ints [tag; len v] in Ok (h ++ v)
      else Ok []
  | None => Ok []
  end.

Module RegistrationRequest.

Record t : Type := mk {
  ie_5gmm_capability : option bytes;
  ie_ue_security_capability : option bytes;
  ie_mobile_identity : option bytes;
  ie_registration_type : option Z;
  ie_requested_nssai : option bytes;
  ie_drx_parameter : option bytes
}.

Definition encode (self : t) : result bytes :=
  let data := [] in
  let? ie := tlv 0xe (ie_5gmm_capability self) in
  let data := data ++ ie in
  let? ie := tlv 0x2e (ie_ue_security_capability self) in
  let data := data ++ ie in
  let? ie := tlv 0x10 (ie_mobile_identity self) in
  let data := data ++ ie in
  match ie_registration_type self with
  | Some ty =>
      let? ie := bytes_of_ints [0x0e; 1; ty] in Ok (data ++ ie)
  | None => Ok data
  end.

End RegistrationRequest.

Module PduSessionEstablishmentRequest.

Record t : Type := mk {
  ie_pdu_session_type : Z;
  ie_request_type : Z;
  ie_s_nssai : option bytes;
  ie_dnn : option bytes
}.

Definition encode (self : t) : result bytes :=
  let? data := bytes_of_ints [0x09; 1; ie_pdu_session_type self] in
  let? ie := bytes_of_ints [0x08; 1; ie_request_type self] in
  let data := data ++ ie in
  let? ie := tlv 0x39 (ie_s_nssai self) in
  let data := data ++ ie in
  let? ie := tlv 0x25 (ie_dnn self) in
  Ok (data ++ ie).

End PduSessionEstablishmentRequest.

(** ** USIM *)

Module UsimContext.

Record t : Type := mk {
  imsi : string;
  key : bytes;
  opc : bytes;
  amf : bytes;
  sqn : Z
}.

Section Authentication.

(** [hashlib.sha256(x).digest()], a function of the hashed bytes. *)
Variable sha256 : bytes -> bytes.

(** The method reads [self] and assigns none of its attributes; the
    object after the call is returned next to the result so that the
    absence of mutation is a statement about the method. *)
Definition generate_authentication_response
    (rand autn : bytes) : M t (bytes * bytes * bytes) :=
  let! self := get in
  let! key_bytes := lift (fromhex (str_take 32 (hex (key self)))) in
  let! opc_bytes := lift (fromhex (str_take 32 (hex (opc self)))) in
  let combined := rand ++ opc_bytes ++ take 16 key_bytes in
  let xres := take 16 (sha256 combined) in
  let ik := take 16 (sha256 (key_bytes ++ rand)) in
  let ck := take 16 (sha256 (opc_bytes ++ rand)) in
  ret (xres, ik, ck).

End Authentication.

End UsimContext.

(** ** NAS security (simplified in the source) *)

Module NasSecurity.

Definition EIA0 : Z := 0.
Definition EEA0 : Z := 0.

Definition encode_nas_message
    (security_context : Core.NasSecurityContext.t) (nas_message : NasMessage.t)
    (algorithm_type algorithm_id : Z) : result bytes :=
  let? encoded := NasMessage.encode nas_message in
  if algorithm_type =? 0 then
    if algorithm_id =? EIA0 then
      let? h := bytes_of_ints [0x00] in Ok (h ++ encoded)
    else
      let mac := replicate 4 "000"%byte in
      let? h := bytes_of_ints [Z.lor 0x40 (Z.land algorithm_id 0x0f); 0x00] in
      Ok (h ++ mac ++ drop 2 encoded)
  else
    if algorithm_id =? EEA0 then
      let? h := bytes_of_ints [0x00] in Ok (h ++ encoded)
    else
      let count := Core.NasSecurityContext.count security_context in
      let? sec_header :=
        bytes_of_ints
          [Z.lor 0x20 (Z.land algorithm_id 0x0f);
           0x00;
           Z.land count 0x0f;
           Z.land (Z.shiftr count 8) 0xff;
           Z.land (Z.shiftr count 16) 0xff;
           Z.lor (Core.NasSecurityContext.bearer security_context)
             (Z.shiftl (Core.NasSecurityContext.direction security_context) 5)]
      in
      Ok (sec_header ++ drop 2 encoded).

Definition decode_nas_message
    (security_context : Core.NasSecurityContext.t) (data : bytes)
    : result NasMessage.t :=
  match data with
  | b0 :: b1 :: _ =>
      let security_header := Z_of_byte b0 in
      let message_type := Z_of_byte b1 in
      let? ty := of_value message_type in
      if Z.land security_header 0x30 =? 0
      then Ok (NasMessage.mk security_header ty (drop 2 data) [])
      else Ok (NasMessage.mk security_header ty (drop 8 data) [])
  | _ => Ok NasMessage.default
  end.

End NasSecurity.

(** ** NAS transport *)

(** The last statement of both transport encoders:
    [data = bytes([data[0]]) + bytes([len(data) - 2]) + data[2:]]. *)
Definition patch_length (data : bytes) : result bytes :=
  let? d0 := index data 0 in
  let? h := bytes_of_ints [Z_of_byte d0] in
  let? l := bytes_of_ints [len data - 2] in
  Ok (h ++ l ++ drop 2 data).

Module UlNasTransport.

Record t : Type := mk {
  ie_ran_container : bytes;
  ie_ran_nas_container : bytes;
  ie_cause : option Z
}.

Definition encode (self : t) : result bytes :=
  let? data := bytes_of_ints [0x67; 0x00] in
  let? data :=
    match ie_ran_container self with
    | [] => Ok data
    | rc =>
        let? h := bytes_of_ints [len rc + 2; 0x01; len rc] in
        Ok (take 2 data ++ h ++ rc)
    end in
  let? data :=
    match ie_ran_nas_container self with
    | [] => Ok data
    | nas =>
        let container_len := len nas in
        let? h := bytes_of_ints [0x02; container_len] in
        Ok (data ++ h ++ nas)
    end in
  patch_length data.

End UlNasTransport.

Module DlNasTransport.

Record t : Type := mk {
  ie_ran_nas_container : bytes;
  ie_cause : option Z
}.

Definition encode (self : t) : result bytes :=
  let? data := bytes_of_ints [0x68; 0x00] in
  let? data :=
    match ie_ran_nas_container self with
    | [] => Ok data
    | nas =>
        let? h := bytes_of_ints [0x02; len nas] in
        Ok (data ++ h ++ nas)
    end in
  patch_length data.

End DlNasTransport.

End Nas.

(* ===================================================================== *)
(** * core/rrc.py *)
(* ===================================================================== *)

Module Rrc.

(** The members of [ERrcMessageType].  A Python [Enum] turns a name whose
    value is already taken into an alias of the first member with that
    value, so the class has 23 members; the three aliases are definitions
    below. *)
Inductive ERrcMessageType : Set :=
| RRC_SETUP_REQUEST
| RRC_REESTABLISHMENT_REQUEST
| RRC_SETUP_COMPLETE
| RRC_REESTABLISHMENT_COMPLETE
| RRC_UL_INFORMATION_TRANSFER
| RRC_SECURITY_MODE_COMPLETE
| RRC_SECURITY_MODE_FAILURE
| RRC_UE_CAPABILITY_INFORMATION
| RRC_COUNTER_CHECK_RESPONSE
| RRC_UE_ASSISTANCE_INFORMATION
| RRC_CONN_RECONFIGURATION_COMPLETE
| RRC_CONN_SETUP_COMPLETE
| RRC_CONN_REESTABLISHMENT_COMPLETE
| RRC_SETUP
| RRC_RECONFIGURATION
| RRC_REESTABLISHMENT
| RRC_RELEASE
| RRC_CONN_SETUP
| RRC_CONN_RECONFIGURATION
| RRC_DL_INFORMATION_TRANSFER
| RRC_UECAPABILITY_ENQUIRY
| RRC_COUNTER_CHECK
| RRC_UE_ASSISTANCE_INFORMATION_IND.

Definition RRC_CONN_RELEASE : ERrcMessageType := RRC_UL_INFORMATION_TRANSFER.
Definition RRC_MIB : ERrcMessageType := RRC_SETUP_REQUEST.
Definition RRC_SIB1 : ERrcMessageType := RRC_REESTABLISHMENT.

Definition value (m : ERrcMessageType) : Z :=
  match m with
  | RRC_SETUP_REQUEST => 0x01
  | RRC_REESTABLISHMENT_REQUEST => 0x08
  | RRC_SETUP_COMPLETE => 0x09
  | RRC_REESTABLISHMENT_COMPLETE => 0x0b
  | RRC_UL_INFORMATION_TRANSFER => 0x0c
  | RRC_SECURITY_MODE_COMPLETE => 0x0d
  | RRC_SECURITY_MODE_FAILURE => 0x0e
  | RRC_UE_CAPABILITY_INFORMATION => 0x10
  | RRC_COUNTER_CHECK_RESPONSE => 0x13
  | RRC_UE_ASSISTANCE_INFORMATION => 0x17
  | RRC_CONN_RECONFIGURATION_COMPLETE => 0x1b
  | RRC_CONN_SETUP_COMPLETE => 0x1c
  | RRC_CONN_REESTABLISHMENT_COMPLETE => 0x1f
  | RRC_SETUP => 0x02
  | RRC_RECONFIGURATION => 0x03
  | RRC_REESTABLISHMENT => 0x05
  | RRC_RELEASE => 0x06
  | RRC_CONN_SETUP => 0x07
  | RRC_CONN_RECONFIGURATION => 0x0a
  | RRC_DL_INFORMATION_TRANSFER => 0x0f
  | RRC_UECAPABILITY_ENQUIRY => 0x12
  | RRC_COUNTER_CHECK => 0x14
  | RRC_UE_ASSISTANCE_INFORMATION_IND => 0x16
  end.

(** [ERrcMessageType(v)] *)
Definition of_value (v : Z) : result ERrcMessageType :=
  match v with
  | 0x01 => Ok RRC_SETUP_REQUEST
  | 0x08 => Ok RRC_REESTABLISHMENT_REQUEST
  | 0x09 => Ok RRC_SETUP_COMPLETE
  | 0x0b => Ok RRC_REESTABLISHMENT_COMPLETE
  | 0x0c => Ok RRC_UL_INFORMATION_TRANSFER
  | 0x0d => Ok RRC_SECURITY_MODE_COMPLETE
  | 0x0e => Ok RRC_SECURITY_MODE_FAILURE
  | 0x10 => Ok RRC_UE_CAPABILITY_INFORMATION
  | 0x13 => Ok RRC_COUNTER_CHECK_RESPONSE
  | 0x17 => Ok RRC_UE_ASSISTANCE_INFORMATION
  | 0x1b => Ok RRC_CONN_RECONFIGURATION_COMPLETE
  | 0x1c => Ok RRC_CONN_SETUP_COMPLETE
  | 0x1f => Ok RRC_CONN_REESTABLISHMENT_COMPLETE
  | 0x02 => Ok RRC_SETUP
  | 0x03 => Ok RRC_RECONFIGURATION
  | 0x05 => Ok RRC_REESTABLISHMENT
  | 0x06 => Ok RRC_RELEASE
  | 0x07 => Ok RRC_CONN_SETUP
  | 0x0a => Ok RRC_CONN_RECONFIGURATION
  | 0x0f => Ok RRC_DL_INFORMATION_TRANSFER
  | 0x12 => Ok RRC_UECAPABILITY_ENQUIRY
  | 0x14 => Ok RRC_COUNTER_CHECK
  | 0x16 => Ok RRC_UE_ASSISTANCE_INFORMATION_IND
  | _ => Raise ValueError
  end.

#[export] Instance ERrcMessageType_eq_dec : EqDecision ERrcMessageType.
Proof. solve_decision. Defined.

Inductive ERrcEstablishmentCause : Set :=
| EMERGENCY
| HIGH_PRIORITY_ACCESS
| MT_ACCESS
| MO_SIGNAL
| MO_DATA
| MO_VOICE_CALL
| MO_VIDEO_CALL
| MO_SMS
| MMTEL_VOICE
| MMTEL_VIDEO
| MO_IMS_SIGNAL
| SPARE.

Definition cause_value (c : ERrcEstablishmentCause) : Z :=
  match c with
  | EMERGENCY => 0
  | HIGH_PRIORITY_ACCESS => 1
  | MT_ACCESS => 2
  | MO_SIGNAL => 3
  | MO_DATA => 4
  | MO_VOICE_CALL => 5
  | MO_VIDEO_CALL => 6
  | MO_SMS => 7
  | MMTEL_VOICE => 8
  | MMTEL_VIDEO => 9
  | MO_IMS_SIGNAL => 10
  | SPARE => 11
  end.

Module RrcMessage.

Record t : Type := mk {
  rrc_transaction_id : Z;
  message_type : ERrcMessageType;
  payload : bytes
}.

(** [RrcMessage()] *)
Definition default : t := mk 0 RRC_SETUP_REQUEST [].

Definition encode (self : t) : result bytes :=
  let? data :=
    bytes_of_ints [Z.lor (Z.shiftl (rrc_transaction_id self) 2) 0x01;
                   value (message_type self)] in
  Ok (data ++ payload self).

Definition decode (data : bytes) : result t :=
  match data with
  | b0 :: b1 :: _ =>
      let tid := Z.land (Z.shiftr (Z_of_byte b0) 2) 0x03 in
      let? ty := of_value (Z_of_byte b1) in
      Ok (mk tid ty (drop 2 data))
  | _ => Ok default
  end.

End RrcMessage.

Module RrcSetupRequest.

Record t : Type := mk {
  ue_id : bytes;
  establishment_cause : ERrcEstablishmentCause;
  spare : Z
}.

(** [token] is the outcome of [secrets.token_bytes(5)], drawn only
    when [ue_id] is empty. *)
Definition encode (token : bytes) (self : t) : result bytes :=
  let cause_value := Z.land (cause_value (establishment_cause self)) 0x0f in
  let? data := bytes_of_ints [0x00] in
  let? b := bytes_of_ints [Z.land cause_value 0x0f] in
  let data := data ++ b in
  let ue_id_bytes :=
    match ue_id self with
    | [] => token
    | _ => ue_id self
    end in
  let ue_id_bits :=
    Z.land (from_bytes_big (last_n 5 ue_id_bytes)) 0x7FFFFFFFFF in
  let? b := bytes_of_ints
              [Z.land (Z.shiftr ue_id_bits 32) 0x7f;
               Z.land (Z.shiftr ue_id_bits 24) 0xff;
               Z.land (Z.shiftr ue_id_bits 16) 0xff;
               Z.land (Z.shiftr ue_id_bits 8) 0xff;
               Z.land ue_id_bits 0xff] in
  Ok (data ++ b).

End RrcSetupRequest.

Module RrcSetupComplete.

Record t : Type := mk {
  selected_plmn_id : Z;
  dedicated_nas_message : bytes
}.

Definition encode (self : t) : result bytes :=
  let? data := bytes_of_ints [0x00] in
  let? b := bytes_of_ints [0x01; Z.land (selected_plmn_id self) 0x0f] in
  let data := data ++ b in
  match dedicated_nas_message self with
  | [] => Ok data
  | nas =>
      let? iei := bytes_of_ints [0x39] in
      let data := data ++ iei in
      let? l := bytes_of_ints [len nas] in
      Ok (data ++ l ++ nas)
  end.

End RrcSetupComplete.

Module MIB.

Record t : Type := mk {
  system_frame_number : Z;
  subcarrier_spacing_common : Z;
  ssb_subcarrier_offset : Z;
  dmrs_type_a_position : Z;
  pdcch_config_sib1 : Z;
  cell_barred : bool;
  intra_freq_reselection : bool
}.

(** The integer assembled by the seven [mib_data |= ...] statements. *)
Definition mib_data (self : t) : Z :=
  let d := 0 in
  let d := Z.lor d (Z.shiftl (Z.land (system_frame_number self) 0x3ff) 0) in
  let d := Z.lor d (Z.shiftl (Z.land (subcarrier_spacing_common self) 0x01) 10) in
  let d := Z.lor d (Z.shiftl (Z.land (ssb_subcarrier_offset self) 0x0f) 11) in
  let d := Z.lor d (Z.shiftl (Z.land (dmrs_type_a_position self) 0x01) 15) in
  let d := Z.lor d (Z.shiftl (Z.land (pdcch_config_sib1 self) 0xff) 16) in
  let d := Z.lor d (Z.shiftl (if cell_barred self then 0 else 1) 24) in
  let d := Z.lor d (Z.shiftl (if intra_freq_reselection self then 0 else 1) 25) in
  let d := Z.lor d (Z.shiftl 0x3f 26) in
  d.

Definition encode (self : t) : result bytes :=
  let? b := to_bytes_big (mib_data self) 4 in
  Ok (take 3 b).

End MIB.

(** ** RRC state machine of the UE *)

Module RrcStateMachine.

Record t : Type := mk {
  state : string;
  setup_complete_received : bool;
  reconfiguration_complete_received : bool
}.

(** [RrcStateMachine()] *)
Definition new : t := mk "idle" false false.

Definition set_state (v : string) (self : t) : t :=
  mk v (setup_complete_received self)
       (reconfiguration_complete_received self).

Definition handle_message (msg : RrcMessage.t) (self : t)
    : t * option RrcMessage.t :=
  if String.eqb (state self) "idle" then
    if decide (RrcMessage.message_type msg = RRC_SETUP) then
      (set_state "connecting" self,
       Some (RrcMessage.mk (RrcMessage.rrc_transaction_id msg)
                           RRC_SETUP_COMPLETE []))
    else (self, None)
  else if String.eqb (state self) "connecting" then
    if decide (RrcMessage.message_type msg = RRC_RECONFIGURATION) then
      (set_state "connected" self,
       Some (RrcMessage.mk (RrcMessage.rrc_transaction_id msg)
                           RRC_CONN_RECONFIGURATION_COMPLETE []))
    else (self, None)
  else if String.eqb (state self) "connected" then
    if decide (RrcMessage.message_type msg = RRC_RELEASE) then
      (set_state "idle" self, None)
    else (self, None)
  else (self, None).

Definition is_connected (self : t) : bool :=
  String.eqb (state self) "connected".

Definition set_setup_complete_received (v : bool) (self : t) : t :=
  mk (state self) v (reconfiguration_complete_received self).

Definition set_reconfiguration_complete_received (v : bool) (self : t) : t :=
  mk (state self) (setup_complete_received self) v.

End RrcStateMachine.

(** ** The remaining RRC messages *)

Module RrcSetup.

Record t : Type := mk {
  radio_bearer_config : bytes;
  master_cell_group_config : bytes
}.

(** [RrcSetup()] *)
Definition default : t := mk [] [].

Definition encode (self : t) : result bytes :=
  let data := [] in
  let? b := bytes_of_ints [0x1d] in
  let data := data ++ b in
  let? b := bytes_of_ints [0x01; 0x00] in
  let data := data ++ b in
  let? b := bytes_of_ints [0x24] in
  let data := data ++ b in
  let? b := bytes_of_ints [0x0c] in
  let data := data ++ b in
  let? b := bytes_of_ints [0x00] in
  let data := data ++ b in
  let? b := bytes_of_ints [0x04; 0x00; 0x40; 0x00] in
  let data := data ++ b in
  let? b := bytes_of_ints [0x02; 0x02; 0x00] in
  Ok (data ++ b).

End RrcSetup.

Module RrcReconfiguration.

Record t : Type := mk {
  rrc_transaction_id : Z;
  radio_bearer_config : option bytes;
  meas_config : option bytes;
  non_crit_ext_config : option bytes
}.

(** [RrcReconfiguration()] *)
Definition default : t := mk 0 None None None.

(** [if field: data += bytes([iei]) + bytes([len(field)]) + field] *)
Definition element (iei : Z) (o : option bytes) : result bytes :=
  match o with
  | Some v =>
      if truthy o
      then let? i := bytes_of_ints [iei] in
           let? l := bytes_of_ints [len v] in
           Ok (i ++ l ++ v)
      else Ok []
  | None => Ok []
  end.

Definition encode (self : t) : result bytes :=
  let? data :=
    bytes_of_ints [Z.lor (Z.shiftl (rrc_transaction_id self) 2) 0x01] in
  let? e := element 0x1d (radio_bearer_config self) in
  let data := data ++ e in
  let? e := element 0x13 (meas_config self) in
  Ok (data ++ e).

End RrcReconfiguration.

Module RrcRelease.

Record t : Type := mk {
  rrc_transaction_id : Z;
  release_cause : Z;
  redirected_freq_info : option bytes
}.

(** [RrcRelease()] *)
Definition default : t := mk 0 0 None.

Definition encode (self : t) : result bytes :=
  let? data :=
    bytes_of_ints [Z.lor (Z.shiftl (rrc_transaction_id self) 2) 0x01] in
  let? b := bytes_of_ints [0x00] in
  let data := data ++ b in
  match redirected_freq_info self with
  | Some v =>
      if truthy (redirected_freq_info self)
      then let? i := bytes_of_ints [0x05] in
           let? l := to_bytes_big (len v) 2 in
           Ok (data ++ i ++ l ++ v)
      else Ok data
  | None => Ok data
  end.

End RrcRelease.

Module RrcDlInformationTransfer.

Record t : Type := mk {
  rrc_transaction_id : Z;
  dedicated_nas_message : bytes
}.

Definition encode (self : t) : result bytes :=
  let? data :=
    bytes_of_ints [Z.lor (Z.shiftl (rrc_transaction_id self) 2) 0x01] in
  match dedicated_nas_message self with
  | [] => Ok data
  | nas =>
      let? i := bytes_of_ints [0x39] in
      let data := data ++ i in
      let? l := bytes_of_ints [len nas] in
      Ok (data ++ l ++ nas)
  end.

End RrcDlInformationTransfer.

Module RrcUlInformationTransfer.

Record t : Type := mk {
  dedicated_nas_message : bytes
}.

Definition encode (self : t) : result bytes :=
  let data := [] in
  match dedicated_nas_message self with
  | [] => Ok data
  | nas =>
      let? i := bytes_of_ints [0x39] in
      let data := data ++ i in
      let? l := bytes_of_ints [len nas] in
      Ok (data ++ l ++ nas)
  end.

End RrcUlInformationTransfer.

(** ** RRC task of the gNB *)

Module RrcTask.

Record t : Type := mk {
  gnb_id : Z;
  ue_connections : gmap Z RrcStateMachine.t
}.

(** [RrcTask(gnb_id)] *)
Definition new (gnb_id : Z) : t := mk gnb_id ∅.

Definition set_ue_connections (v : gmap Z RrcStateMachine.t) (self : t) : t :=
  mk (gnb_id self) v.

Definition handle_rrc_message (ue_id : Z) (data : bytes)
    : M t (option bytes) :=
  let! msg := lift (RrcMessage.decode data) in
  if decide (RrcMessage.message_type msg = RRC_SETUP_REQUEST) then
    do! modify (fun self =>
          set_ue_connections
            (<[ue_id := RrcStateMachine.new]> (ue_connections self)) self) in
    let! payload := lift (RrcSetup.encode RrcSetup.default) in
    let response := RrcMessage.mk 0 RRC_SETUP payload in
    let! out := lift (RrcMessage.encode response) in
    ret (Some out)
  else if decide (RrcMessage.message_type msg = RRC_SETUP_COMPLETE) then
    let! self := get in
    match ue_connections self !! ue_id with
    | Some sm =>
        do! modify (set_ue_connections
              (<[ue_id := RrcStateMachine.set_setup_complete_received true sm]>
                 (ue_connections self))) in
        let! payload :=
          lift (RrcReconfiguration.encode RrcReconfiguration.default) in
        let response := RrcMessage.mk 0 RRC_RECONFIGURATION payload in
        let! out := lift (RrcMessage.encode response) in
        ret (Some out)
    | None => ret None
    end
  else if decide (RrcMessage.message_type msg
                  = RRC_CONN_RECONFIGURATION_COMPLETE) then
    let! self := get in
    match ue_connections self !! ue_id with
    | Some sm =>
        do! modify (set_ue_connections
              (<[ue_id :=
                   RrcStateMachine.set_state "connected"
                     (RrcStateMachine.set_reconfiguration_complete_received
                        true sm)]>
                 (ue_connections self))) in
        ret None
    | None => ret None
    end
  else if decide (RrcMessage.message_type msg
                  = RRC_UL_INFORMATION_TRANSFER) then
    ret (Some (RrcMessage.payload msg))
  else ret None.

Definition get_connected_ue_count (self : t) : Z :=
  len (List.filter RrcStateMachine.is_connected
         (map_to_list (ue_connections self)).*2).

(** The release message built by [release_ue] is not sent or returned; its
    construction can still raise. *)
Definition release_ue (ue_id : Z) : M t bool :=
  let! self := get in
  match ue_connections self !! ue_id with
  | Some _ =>
      let! payload := lift (RrcRelease.encode RrcRelease.default) in
      let response := RrcMessage.mk 0 RRC_RELEASE payload in
      do! modify (set_ue_connections (delete ue_id (ue_connections self))) in
      ret true
  | None => ret false
  end.

End RrcTask.

End Rrc.

(* ===================================================================== *)
(** * core/ngap.py (message encoders) *)
(* ===================================================================== *)

Module Ngap.

Module InitialUeMessage.

Record t : Type := mk {
  ran_ue_ngap_id : Z;
  nas_pdu : bytes;
  user_location_info : bytes;
  rrc_establishment_cause : Z
}.

Definition encode (self : t) : result bytes :=
  let? data := bytes_of_ints [0x00; 0x55; 0x00; 0x00; 0x00; 0x00] in
  let? b := bytes_of_ints [Z.land (ran_ue_ngap_id self) 0xff;
                           Z.land (Z.shiftr (ran_ue_ngap_id self) 8) 0xff] in
  let data := take 2 data ++ b ++ drop 4 data in
  let? b := bytes_of_ints [0x38; len (nas_pdu self)] in
  let data := data ++ b ++ nas_pdu self in
  let? b := bytes_of_ints [0xa7; 0x07; 0x00; 0x01; 0x08; 0x86; 0x93; 0x00; 0x01] in
  Ok (data ++ b).

End InitialUeMessage.

Module UplinkNasTransport.

Record t : Type := mk {
  ue_associated_ngap_id : Z;
  nas_pdu : bytes;
  user_location_info : bytes
}.

Definition encode (self : t) : result bytes :=
  let? data := bytes_of_ints [0x00; 0x4a] in
  let? b := bytes_of_ints [0x00; 0x00; 0x00; 0x00] in
  let data := data ++ b in
  let? b := bytes_of_ints [0x38; len (nas_pdu self)] in
  let data := data ++ b ++ nas_pdu self in
  let? b := bytes_of_ints [0xa7; 0x07; 0x00; 0x01; 0x08; 0x86; 0x93; 0x00; 0x01] in
  Ok (data ++ b).

End UplinkNasTransport.

Module DownlinkNasTransport.

Record t : Type := mk {
  ue_associated_ngap_id : Z;
  nas_pdu : bytes
}.

Definition encode (self : t) : result bytes :=
  let? data := bytes_of_ints [0x00; 0x0c; 0x00; 0x00; 0x00; 0x00] in
  let? b := bytes_of_ints [Z.land (ue_associated_ngap_id self) 0xff;
                           Z.land (Z.shiftr (ue_associated_ngap_id self) 8) 0xff] in
  let data := take 2 data ++ b ++ drop 4 data in
  let? b := bytes_of_ints [0x38; len (nas_pdu self)] in
  Ok (data ++ b ++ nas_pdu self).

End DownlinkNasTransport.

End Ngap.

(* ===================================================================== *)
(** * simulation/__init__.py *)
(* ===================================================================== *)

Module Simulation.

Import Core Nas Rrc.

Module UeConfig.

Record t : Type := mk {
  imsi : string;
  key : string;
  opc : string;
  amf : string;
  sqn : Z;
  dnn : string;
  sst : Z;
  sd : Z;
  protectionScheme : Z;
  homeNetworkPublicKey : string;
  homeNetworkKeyId : Z;
  routingIndicator : string
}.

(** [UeConfig()] *)
Definition default : t :=
  mk "imsi-208930000000001"
     "8baf473f2f8fd09487cccbd7097c6862"
     "8e27b6af0e692e750f32667a3b14605d"
     "8000" 0 "internet" 1 0x010203 0 "" 1 "0000".

End UeConfig.

(** The dictionary [{"id": .., "state": .., "type": .., "apn": ..}]
    recorded for an established PDU session. *)
Module PduSession.
Record t : Type := mk {
  id : Z;
  state : string;
  type : string;
  apn : string
}.
End PduSession.

Module UeState.

Record t : Type := mk {
  ue_id : string;
  mm_state : string;
  rrc_state : string;
  cm_state : string;
  sm_state : string;
  connected_gnb : option string;
  pdu_sessions : list PduSession.t;
  registration_attempts : Z;
  last_registration_time : option string
}.

(** [UeState(ue_id=ue_id)] *)
Definition new (ue_id : string) : t :=
  mk ue_id "MM_NULL" "RRC_IDLE" "CM_IDLE" "SM_NULL" None [] 0 None.

Definition set_mm_state v (self : t) : t :=
  mk (ue_id self) v (rrc_state self) (cm_state self) (sm_state self)
    (connected_gnb self) (pdu_sessions self)
    (registration_attempts self) (last_registration_time self).

Definition set_rrc_state v (self : t) : t :=
  mk (ue_id self) (mm_state self) v (cm_state self) (sm_state self)
    (connected_gnb self) (pdu_sessions self)
    (registration_attempts self) (last_registration_time self).

Definition set_cm_state v (self : t) : t :=
  mk (ue_id self) (mm_state self) (rrc_state self) v (sm_state self)
    (connected_gnb self) (pdu_sessions self)
    (registration_attempts self) (last_registration_time self).

Definition set_sm_state v (self : t) : t :=
  mk (ue_id self) (mm_state self) (rrc_state self) (cm_state self) v
    (connected_gnb self) (pdu_sessions self)
    (registration_attempts self) (last_registration_time self).

Definition set_connected_gnb v (self : t) : t :=
  mk (ue_id self) (mm_state self) (rrc_state self) (cm_state self)
    (sm_state self) v (pdu_sessions self) (registration_attempts self)
    (last_registration_time self).

Definition set_pdu_sessions v (self : t) : t :=
  mk (ue_id self) (mm_state self) (rrc_state self) (cm_state self)
    (sm_state self) (connected_gnb self) v (registration_attempts self)
    (last_registration_time self).

Definition set_registration_attempts v (self : t) : t :=
  mk (ue_id self) (mm_state self) (rrc_state self) (cm_state self)
    (sm_state self) (connected_gnb self) (pdu_sessions self) v
    (last_registration_time self).

Definition set_last_registration_time v (self : t) : t :=
  mk (ue_id self) (mm_state self) (rrc_state self) (cm_state self)
    (sm_state self) (connected_gnb self) (pdu_sessions self)
    (registration_attempts self) v.

End UeState.

Module UeSimulation.

(** The two callbacks are recording sinks: [None] when no callable is
    installed (the state after [__init__]), [Some log] when one is,
    [log] being the messages handed to it so far, oldest first.
    [log_callback] and the log lines are left out. *)
Record t : Type := mk {
  config : UeConfig.t;
  ue_id : string;
  state : UeState.t;
  mm_state : EMmState;
  mm_substate : EMmSubState;
  rrc_state : ERrcState;
  cm_state : ECmState;
  sm_state : ESmState;
  security_context : option NasSecurityContext.t;
  usim_context : UsimContext.t;
  timers : TimerManager.t;
  on_rrc_message : option (list bytes);
  on_nas_message : option (list bytes);
  connected_gnb_id : option string;
  ran_ue_ngap_id : option Z
}.

Definition set_state v (self : t) : t :=
  mk (config self) (ue_id self) v (mm_state self) (mm_substate self)
    (rrc_state self) (cm_state self) (sm_state self)
    (security_context self) (usim_context self) (timers self)
    (on_rrc_message self) (on_nas_message self) (connected_gnb_id self)
    (ran_ue_ngap_id self).

Definition set_mm_state v (self : t) : t :=
  mk (config self) (ue_id self) (state self) v (mm_substate self)
    (rrc_state self) (cm_state self) (sm_state self)
    (security_context self) (usim_context self) (timers self)
    (on_rrc_message self) (on_nas_message self) (connected_gnb_id self)
    (ran_ue_ngap_id self).

Definition set_mm_substate v (self : t) : t :=
  mk (config self) (ue_id self) (state self) (mm_state self) v
    (rrc_state self) (cm_state self) (sm_state self)
    (security_context self) (usim_context self) (timers self)
    (on_rrc_message self) (on_nas_message self) (connected_gnb_id self)
    (ran_ue_ngap_id self).

Definition set_rrc_state v (self : t) : t :=
  mk (config self) (ue_id self) (state self) (mm_state self)
    (mm_substate self) v (cm_state self) (sm_state self)
    (security_context self) (usim_context self) (timers self)
    (on_rrc_message self) (on_nas_message self) (connected_gnb_id self)
    (ran_ue_ngap_id self).

Definition set_cm_state v (self : t) : t :=
  mk (config self) (ue_id self) (state self) (mm_state self)
    (mm_substate self) (rrc_state self) v (sm_state self)
    (security_context self) (usim_context self) (timers self)
    (on_rrc_message self) (on_nas_message self) (connected_gnb_id self)
    (ran_ue_ngap_id self).

Definition set_sm_state v (self : t) : t :=
  mk (config self) (ue_id self) (state self) (mm_state self)
    (mm_substate self) (rrc_state self) (cm_state self) v
    (security_context self) (usim_context self) (timers self)
    (on_rrc_message self) (on_nas_message self) (connected_gnb_id self)
    (ran_ue_ngap_id self).

Definition set_on_rrc_message v (self : t) : t :=
  mk (config self) (ue_id self) (state self) (mm_state self)
    (mm_substate self) (rrc_state self) (cm_state self) (sm_state self)
    (security_context self) (usim_context self) (timers self) v
    (on_nas_message self) (connected_gnb_id self) (ran_ue_ngap_id self).

Definition set_on_nas_message v (self : t) : t :=
  mk (config self) (ue_id self) (state self) (mm_state self)
    (mm_substate self) (rrc_state self) (cm_state self) (sm_state self)
    (security_context self) (usim_context self) (timers self)
    (on_rrc_message self) v (connected_gnb_id self)
    (ran_ue_ngap_id self).

Definition set_connected_gnb_id v (self : t) : t :=
  mk (config self) (ue_id self) (state self) (mm_state self)
    (mm_substate self) (rrc_state self) (cm_state self) (sm_state self)
    (security_context self) (usim_context self) (timers self)
    (on_rrc_message self) (on_nas_message self) v (ran_ue_ngap_id self).

(** [UeSimulation(config, ue_id)] *)
Definition new (config : UeConfig.t) (ue_id : string) : result t :=
  let? key := fromhex (UeConfig.key config) in
  let? opc := fromhex (UeConfig.opc config) in
  let? amf := fromhex (UeConfig.amf config) in
  Ok (mk config ue_id (UeState.new ue_id)
         MM_NULL MM_DEREGISTERED_NORMAL_SERVICE RRC_IDLE CM_IDLE SM_NULL
         None
         (UsimContext.mk (UeConfig.imsi config) key opc amf
                         (UeConfig.sqn config))
         TimerManager.new
         None None None None).

(** [get_state]: the object returned is [self.state] itself. *)
Definition get_state (self : t) : t * UeState.t :=
  let self :=
    set_state (UeState.set_mm_state (EMmState_name (mm_state self))
                 (state self)) self in
  let self :=
    set_state (UeState.set_rrc_state (ERrcState_name (rrc_state self))
                 (state self)) self in
  let self :=
    set_state (UeState.set_cm_state (ECmState_name (cm_state self))
                 (state self)) self in
  let self :=
    set_state (UeState.set_sm_state (ESmState_name (sm_state self))
                 (state self)) self in
  let self :=
    set_state (UeState.set_connected_gnb (connected_gnb_id self)
                 (state self)) self in
  let self :=
    set_state (UeState.set_registration_attempts
                 (UeState.registration_attempts (state self) + 1)
                 (state self)) self in
  (self, state self).

(** The loop of [create_registration_request] over the digits of the
    SUPI, three at a time; an incomplete last group is skipped. *)
Fixpoint supi_groups (supi_parts : string) : result bytes :=
  match supi_parts with
  | String a (String b (String c rest)) =>
      let? n := int_of_str (String a (String b (String c EmptyString))) in
      let? x := bytes_of_ints [n] in
      let? r := supi_groups rest in
      Ok (x ++ r)
  | _ => Ok []
  end.

Definition create_registration_request (self : t) : result bytes :=
  let? cap := bytes_of_ints [0x80; 0x00; 0x00] in
  let? sec := bytes_of_ints [0xe0; 0x00; 0x00] in
  let? supi_parts := index (split "-" (UeConfig.imsi (config self))) 1 in
  let? supi_bytes := bytes_of_ints [0x01] in
  let? groups := supi_groups supi_parts in
  let supi_bytes := supi_bytes ++ groups in
  let sst := Z.land (UeConfig.sst (config self)) 0xff in
  let sd := Z.land (Z.shiftr (UeConfig.sd (config self)) 16) 0xff in
  let? nssai := bytes_of_ints [sst; 0x01; 0x00; sd] in
  let req :=
    RegistrationRequest.mk (Some cap) (Some sec) (Some (take 8 supi_bytes))
                           (Some 0x01) (Some nssai) None in
  let? plain := RegistrationRequest.encode req in
  NasMessage.encode (NasMessage.mk 0 REGISTRATION_REQUEST plain []).

(** [if self.on_rrc_message: self.on_rrc_message(msg.encode())]: the
    message is encoded only when a callback is installed. *)
Definition send_rrc (msg : result bytes) : M t unit :=
  let! self := get in
  match on_rrc_message self with
  | Some log =>
      let! data := lift msg in
      modify (set_on_rrc_message (Some (log ++ [data])))
  | None => ret tt
  end.

Definition send_nas (msg : result bytes) : M t unit :=
  let! self := get in
  match on_nas_message self with
  | Some log =>
      let! data := lift msg in
      modify (set_on_nas_message (Some (log ++ [data])))
  | None => ret tt
  end.

Definition start_registration (token : bytes) (gnb_id : string)
    : M t unit :=
  do! modify (set_connected_gnb_id (Some gnb_id)) in
  do! modify (set_mm_state MM_REGISTERED_INITIATED) in
  do! modify (set_mm_substate MM_REGISTERED_NORMAL_SERVICE) in
  let setup_req := RrcSetupRequest.mk [] MO_SIGNAL 0 in
  let! payload := lift (RrcSetupRequest.encode token setup_req) in
  let rrc_msg := RrcMessage.mk 0 RRC_SETUP_REQUEST payload in
  send_rrc (RrcMessage.encode rrc_msg).

Definition start (token : bytes) (gnb_ip : string) : M t unit :=
  start_registration token gnb_ip.

Definition handle_rrc_message (data : bytes) : M t (option bytes) :=
  let! msg := lift (RrcMessage.decode data) in
  let! self := get in
  if decide (rrc_state self = RRC_IDLE) then
    if decide (RrcMessage.message_type msg = RRC_SETUP) then
      do! modify (set_rrc_state RRC_CONNECTED) in
      do! modify (set_cm_state CM_CONNECTED) in
      let! self := get in
      let! nas_pdu := lift (create_registration_request self) in
      let setup_complete := RrcSetupComplete.mk 1 nas_pdu in
      let! payload := lift (RrcSetupComplete.encode setup_complete) in
      let rrc_msg := RrcMessage.mk 0 RRC_SETUP_COMPLETE payload in
      let! out := lift (RrcMessage.encode rrc_msg) in
      ret (Some out)
    else ret None
  else if decide (rrc_state self = RRC_CONNECTED) then
    if decide (RrcMessage.message_type msg = RRC_RECONFIGURATION) then
      let complete :=
        RrcMessage.mk (RrcMessage.rrc_transaction_id msg)
                      RRC_CONN_RECONFIGURATION_COMPLETE [] in
      let! out := lift (RrcMessage.encode complete) in
      ret (Some out)
    else if decide (RrcMessage.message_type msg
                    = RRC_DL_INFORMATION_TRANSFER) then
      do! send_nas (Ok (RrcMessage.payload msg)) in
      ret None
    else if decide (RrcMessage.message_type msg = RRC_RELEASE) then
      do! modify (set_rrc_state RRC_IDLE) in
      do! modify (set_cm_state CM_IDLE) in
      do! modify (set_mm_state MM_DEREGISTERED) in
      do! modify (set_connected_gnb_id None) in
      ret None
    else ret None
  else ret None.

Definition start_pdu_session : M t unit :=
  do! modify (set_sm_state SM_PENDING) in
  let! self := get in
  let! nssai :=
    lift (bytes_of_ints
            [UeConfig.sst (config self); 0x03; 0x00;
             Z.land (Z.shiftr (UeConfig.sd (config self)) 16) 0xff]) in
  let! dnn := lift (encode_ascii (UeConfig.dnn (config self))) in
  let pdu_req :=
    PduSessionEstablishmentRequest.mk 0x01 0x01 (Some nssai) (Some dnn) in
  let! plain := lift (PduSessionEstablishmentRequest.encode pdu_req) in
  let nas_msg :=
    NasMessage.mk 0 PDU_SESSION_ESTABLISHMENT_REQUEST plain [] in
  send_nas (NasMessage.encode nas_msg).

(** [now] is [datetime.now().isoformat()]. *)
Definition handle_nas_message (now : string) (data : bytes)
    : M t (option bytes) :=
  let! nas_msg := lift (NasMessage.decode data) in
  if decide (NasMessage.message_type nas_msg = REGISTRATION_ACCEPT) then
    do! modify (set_mm_state MM_REGISTERED) in
    do! modify (set_mm_substate MM_REGISTERED_NORMAL_SERVICE) in
    do! modify (fun self =>
          set_state (UeState.set_last_registration_time (Some now)
                       (state self)) self) in
    do! start_pdu_session in
    ret None
  else if decide (NasMessage.message_type nas_msg
                  = PDU_SESSION_ESTABLISHMENT_ACCEPT) then
    do! modify (set_sm_state SM_ACTIVE) in
    do! modify (fun self =>
          let session :=
            PduSession.mk 1 "ACTIVE" "IPv4" (UeConfig.dnn (config self)) in
          set_state (UeState.set_pdu_sessions
                       (UeState.pdu_sessions (state self) ++ [session])
                       (state self)) self) in
    ret None
  else ret None.

End UeSimulation.

Module GnbConfig.

Record t : Type := mk {
  mcc : string;
  mnc : string;
  nci : Z;
  id_length : Z;
  tac : Z;
  ngap_ip : string;
  gtp_ip : string;
  amf_ip : string;
  amf_port : Z
}.

(** [GnbConfig()] *)
Definition default : t :=
  mk "208" "93" 0x000000010 32 1 "127.0.0.1" "127.0.0.1" "127.0.0.1" 38412.

End GnbConfig.

Module GnbState.

Record t : Type := mk {
  gnb_id : string;
  state : string;
  connected_ues : Z;
  amf_connected : bool;
  ngap_state : string
}.

(** [GnbState(gnb_id=gnb_id)] *)
Definition new (gnb_id : string) : t :=
  mk gnb_id "GNB_INVALID" 0 false "NGAP_IDLE".

Definition set_state v (self : t) : t :=
  mk (gnb_id self) v (connected_ues self) (amf_connected self)
     (ngap_state self).

Definition set_connected_ues v (self : t) : t :=
  mk (gnb_id self) (state self) v (amf_connected self) (ngap_state self).

Definition set_amf_connected v (self : t) : t :=
  mk (gnb_id self) (state self) (connected_ues self) v (ngap_state self).

Definition set_ngap_state v (self : t) : t :=
  mk (gnb_id self) (state self) (connected_ues self) (amf_connected self) v.

End GnbState.

(** The [metrics] dictionary: its five keys are created by [__init__] and
    never removed, so it is a record of five counters. *)
Module Metrics.

Record t : Type := mk {
  total_ues : Z;
  connected_ues : Z;
  registration_requests : Z;
  pdu_sessions_established : Z;
  messages_exchanged : Z
}.

Definition new : t := mk 0 0 0 0 0.

Definition set_total_ues v (self : t) : t :=
  mk v (connected_ues self) (registration_requests self)
     (pdu_sessions_established self) (messages_exchanged self).

Definition set_messages_exchanged v (self : t) : t :=
  mk (total_ues self) (connected_ues self) (registration_requests self)
     (pdu_sessions_established self) v.

End Metrics.

(** The dictionary returned by [GnbSimulation.get_metrics]: the five
    counters of [metrics] with [connected_ues] and [total_ues] overridden,
    and the two state entries. *)
Module MetricsReport.

Record t : Type := mk {
  total_ues : Z;
  connected_ues : Z;
  registration_requests : Z;
  pdu_sessions_established : Z;
  messages_exchanged : Z;
  gnb_state : string;
  amf_connected : bool
}.

End MetricsReport.

Module GnbSimulation.

(** The transport session ([ngap_connection]), the unused [ue_contexts]
    and the log callback are left out. *)
Record t : Type := mk {
  config : GnbConfig.t;
  gnb_id : string;
  state : GnbState.t;
  ues : gmap string UeSimulation.t;
  gnb_state : string;
  ngap_state : string;
  amf_connected : bool;
  metrics : Metrics.t
}.

Definition set_ues v (self : t) : t :=
  mk (config self) (gnb_id self) (state self) v (gnb_state self)
     (ngap_state self) (amf_connected self) (metrics self).

Definition set_metrics v (self : t) : t :=
  mk (config self) (gnb_id self) (state self) (ues self) (gnb_state self)
     (ngap_state self) (amf_connected self) v.

(** [GnbSimulation(config, gnb_id)] *)
Definition new (config : GnbConfig.t) (gnb_id : string) : t :=
  mk config gnb_id (GnbState.new gnb_id) ∅ "GNB_POWERING_ON" "NGAP_IDLE"
     false Metrics.new.

(** [self.metrics["messages_exchanged"] += 1] *)
Definition count_message (self : t) : t :=
  set_metrics
    (Metrics.set_messages_exchanged
       (Metrics.messages_exchanged (metrics self) + 1) (metrics self))
    self.

(** [self.metrics["total_ues"] += 1] *)
Definition count_ue (self : t) : t :=
  set_metrics
    (Metrics.set_total_ues
       (Metrics.total_ues (metrics self) + 1) (metrics self))
    self.

(** A method call on the UE object stored under [ue_id]: the table
    holds a reference, so whatever the call did to the object, also
    before raising, is seen through the table afterwards. *)
Definition call_ue {A} (ue_id : string) (ue : UeSimulation.t)
    (m : M UeSimulation.t A) : M t A :=
  fun self =>
    let (ue', r) := m ue in
    (set_ues (<[ue_id := ue']> (ues self)) self, r).

(** [if response: return response] and [return b""] *)
Definition or_empty (response : option bytes) : bytes :=
  if truthy response then default [] response else [].

Definition handle_ue_rrc (ue_id : string) (data : bytes) : M t bytes :=
  do! modify count_message in
  let! self := get in
  let! ue :=
    match ues self !! ue_id with
    | None =>
        let! ue := lift (UeSimulation.new UeConfig.default ue_id) in
        do! modify (fun self => set_ues (<[ue_id := ue]> (ues self)) self) in
        do! modify count_ue in
        ret ue
    | Some ue => ret ue
    end in
  let! response := call_ue ue_id ue (UeSimulation.handle_rrc_message data) in
  ret (or_empty response).

(** [now] is the clock reading passed down to the UE. *)
Definition handle_ue_nas (now : string) (ue_id : string) (data : bytes)
    : M t bytes :=
  do! modify count_message in
  let! self := get in
  match ues self !! ue_id with
  | None => ret []
  | Some ue =>
      let! response :=
        call_ue ue_id ue (UeSimulation.handle_nas_message now data) in
      ret (or_empty response)
  end.

Definition set_state v (self : t) : t :=
  mk (config self) (gnb_id self) v (ues self) (gnb_state self)
     (ngap_state self) (amf_connected self) (metrics self).

(** [len([u for u in self.ues.values()
          if u.rrc_state == ERrcState.RRC_CONNECTED])] *)
Definition connected_count (self : t) : Z :=
  len (List.filter
         (fun u => bool_decide (UeSimulation.rrc_state u = RRC_CONNECTED))
         (map_to_list (ues self)).*2).

(** [handle_ngap_message]: the message is counted (and logged). *)
Definition handle_ngap_message (data : bytes) : M t unit :=
  modify count_message.

(** [get_state]: the object returned is [self.state] itself. *)
Definition get_state (self : t) : t * GnbState.t :=
  let self :=
    set_state (GnbState.set_connected_ues (connected_count self) (state self))
      self in
  let self :=
    set_state (GnbState.set_state (gnb_state self) (state self)) self in
  let self :=
    set_state (GnbState.set_ngap_state (ngap_state self) (state self)) self in
  let self :=
    set_state (GnbState.set_amf_connected (amf_connected self) (state self))
      self in
  (self, state self).

Definition get_metrics (self : t) : MetricsReport.t :=
  MetricsReport.mk
    (len (map_to_list (ues self)))
    (connected_count self)
    (Metrics.registration_requests (metrics self))
    (Metrics.pdu_sessions_established (metrics self))
    (Metrics.messages_exchanged (metrics self))
    (gnb_state self)
    (amf_connected self).

(** [get_ue_states]: [get_state] is called on every UE of the table, in
    the order of [map_to_list]; each call updates the UE it is made on. *)
Definition get_ue_states (self : t) : t * list UeState.t :=
  (set_ues ((fun ue => (UeSimulation.get_state ue).1) <$> ues self) self,
   (fun ue => (UeSimulation.get_state ue).2) <$> (map_to_list (ues self)).*2).

End GnbSimulation.

End Simulation.

(* ===================================================================== *)
(** * Properties *)
(* ===================================================================== *)

Import Core Nas Rrc Simulation.

(** ** Bytes and integers *)

Lemma Z_of_byte_range (b : byte) : 0 <= Z_of_byte b < 256.
Proof.
  unfold Z_of_byte. pose proof (Byte.to_N_bounded b). lia.
Qed.

Lemma byte_of_Z_of_byte (b : byte) : byte_of_Z (Z_of_byte b) = Some b.
Proof.
  unfold byte_of_Z. pose proof (Z_of_byte_range b) as H.
  replace ((0 <=? Z_of_byte b) && (Z_of_byte b <? 256)) with true
    by (symmetry; apply andb_true_iff; split; [apply Z.leb_le|apply Z.ltb_lt]; lia).
  unfold Z_of_byte. rewrite N2Z.id. apply Byte.of_to_N.
Qed.

Lemma byte_of_Z_Some (z : Z) (b : byte) :
  byte_of_Z z = Some b -> Z_of_byte b = z.
Proof.
  unfold byte_of_Z.
  destruct ((0 <=? z) && (z <? 256)) eqn:E; [|discriminate].
  apply andb_true_iff in E as [E1 E2].
  apply Z.leb_le in E1. intros H. apply Byte.to_of_N in H.
  unfold Z_of_byte. rewrite H. lia.
Qed.

Lemma byte_of_Z_in_range (z : Z) :
  0 <= z < 256 -> exists b, byte_of_Z z = Some b /\ Z_of_byte b = z.
Proof.
  intros Hz. unfold byte_of_Z.
  replace ((0 <=? z) && (z <? 256)) with true
    by (symmetry; apply andb_true_iff; split; [apply Z.leb_le|apply Z.ltb_lt]; lia).
  destruct (Byte.of_N (Z.to_N z)) as [b|] eqn:E.
  - exists b. split; [reflexivity|].
    apply Byte.to_of_N in E. unfold Z_of_byte. rewrite E. lia.
  - apply Byte.of_N_None_iff in E. lia.
Qed.

Lemma byte_of_Z_out_of_range (z : Z) :
  ~ (0 <= z < 256) -> byte_of_Z z = None.
Proof.
  intros Hz. unfold byte_of_Z.
  destruct ((0 <=? z) && (z <? 256)) eqn:E; [|reflexivity].
  apply andb_true_iff in E as [E1 E2].
  apply Z.leb_le in E1. apply Z.ltb_lt in E2. lia.
Qed.

(** ** Enum lookups *)

Lemma nas_of_value_value (m : ENasMessageType) :
  Nas.of_value (Nas.value m) = Ok m.
Proof. destruct m; reflexivity. Qed.

Lemma rrc_of_value_value (m : ERrcMessageType) :
  Rrc.of_value (Rrc.value m) = Ok m.
Proof. destruct m; reflexivity. Qed.

Lemma nas_value_range (m : ENasMessageType) : 0 <= Nas.value m < 256.
Proof. destruct m; simpl; lia. Qed.

Lemma rrc_value_range (m : ERrcMessageType) : 0 <= Rrc.value m < 256.
Proof. destruct m; simpl; lia. Qed.

(** The lookup of a byte value either finds the member with that value or
    raises [ValueError]. *)
Lemma nas_of_value_cases (b : byte) :
  (exists m, Nas.of_value (Z_of_byte b) = Ok m /\ Nas.value m = Z_of_byte b)
  \/ Nas.of_value (Z_of_byte b) = Raise ValueError.
Proof.
  destruct b; vm_compute; (right; reflexivity) || (left; eexists; split; reflexivity).
Qed.

Lemma rrc_of_value_cases (b : byte) :
  (exists m, Rrc.of_value (Z_of_byte b) = Ok m /\ Rrc.value m = Z_of_byte b)
  \/ Rrc.of_value (Z_of_byte b) = Raise ValueError.
Proof.
  destruct b; vm_compute; (right; reflexivity) || (left; eexists; split; reflexivity).
Qed.

Lemma nas_of_value_unknown (b : byte) :
  (forall m, Nas.value m <> Z_of_byte b) ->
  Nas.of_value (Z_of_byte b) = Raise ValueError.
Proof.
  intros H. destruct (nas_of_value_cases b) as [(m & _ & Hm)|E]; [|exact E].
  destruct (H m Hm).
Qed.

Lemma rrc_of_value_unknown (b : byte) :
  (forall m, Rrc.value m <> Z_of_byte b) ->
  Rrc.of_value (Z_of_byte b) = Raise ValueError.
Proof.
  intros H. destruct (rrc_of_value_cases b) as [(m & _ & Hm)|E]; [|exact E].
  destruct (H m Hm).
Qed.

(** ** Message containers: encode then decode *)

Lemma bytes_of_ints_pair (x y : Z) (a b : byte) :
  byte_of_Z x = Some a -> byte_of_Z y = Some b ->
  bytes_of_ints [x; y] = Ok [a; b].
Proof. intros Hx Hy. simpl. rewrite Hx, Hy. reflexivity. Qed.

Lemma nas_encode_plain (ty : ENasMessageType) (plain enc : bytes) :
  exists b, Z_of_byte b = Nas.value ty /\
    NasMessage.encode (NasMessage.mk 0 ty plain enc) = Ok ("000"%byte :: b :: plain).
Proof.
  destruct (byte_of_Z_in_range (Nas.value ty) (nas_value_range ty)) as (b & Hb & Hv).
  exists b. split; [exact Hv|].
  unfold NasMessage.encode. cbn [NasMessage.security_header NasMessage.message_type
    NasMessage.plain_message].
  rewrite (bytes_of_ints_pair 0 (Nas.value ty) "000"%byte b eq_refl Hb).
  reflexivity.
Qed.

Lemma nas_decode_plain (b : byte) (ty : ENasMessageType) (rest : bytes) :
  Z_of_byte b = Nas.value ty ->
  NasMessage.decode ("000"%byte :: b :: rest) = Ok (NasMessage.mk 0 ty rest []).
Proof.
  intros Hb. unfold NasMessage.decode. rewrite Hb, nas_of_value_value.
  reflexivity.
Qed.

Lemma rrc_header_byte (tid : Z) :
  0 <= tid <= 3 ->
  exists a, byte_of_Z (Z.lor (Z.shiftl tid 2) 1) = Some a /\
            Z.land (Z.shiftr (Z_of_byte a) 2) 3 = tid.
Proof.
  intros H.
  assert (tid = 0 \/ tid = 1 \/ tid = 2 \/ tid = 3) as [-> | [-> | [-> | ->]]] by lia;
    eexists; split; reflexivity.
Qed.

(** C1 (as amended).  A [NasMessage] with security header 0 and an empty
    [encrypted_message], and an [RrcMessage] whose transaction identifier is
    in 0..3, are encoded without error and decoded back to the same record.
    The encoding is the two header bytes followed by the payload and nothing
    else, so an empty payload leaves no trace in it. *)
Theorem container_roundtrip (m : NasMessage.t) (r : RrcMessage.t) :
  NasMessage.security_header m = 0 ->
  NasMessage.encrypted_message m = [] ->
  0 <= RrcMessage.rrc_transaction_id r <= 3 ->
  (exists h0 h1,
     NasMessage.encode m = Ok (h0 :: h1 :: NasMessage.plain_message m) /\
     NasMessage.decode (h0 :: h1 :: NasMessage.plain_message m) = Ok m) /\
  (exists h0 h1,
     RrcMessage.encode r = Ok (h0 :: h1 :: RrcMessage.payload r) /\
     RrcMessage.decode (h0 :: h1 :: RrcMessage.payload r) = Ok r).
Proof.
  intros Hsh Henc Htid. split.
  - destruct m as [sh ty plain enc]. simpl in Hsh, Henc. subst sh enc.
    destruct (nas_encode_plain ty plain []) as (b & Hb & He).
    exists "000"%byte, b. split; [exact He|].
    simpl. apply nas_decode_plain, Hb.
  - destruct r as [tid ty payload]. simpl in Htid.
    destruct (rrc_header_byte tid Htid) as (a & Ha & Hr).
    destruct (byte_of_Z_in_range (Rrc.value ty) (rrc_value_range ty))
      as (b & Hb & Hv).
    exists a, b. split.
    + unfold RrcMessage.encode.
      cbn [RrcMessage.rrc_transaction_id RrcMessage.message_type RrcMessage.payload].
      rewrite (bytes_of_ints_pair _ _ a b Ha Hb). reflexivity.
    + unfold RrcMessage.decode. rewrite Hv, rrc_of_value_value, Hr. reflexivity.
Qed.

Lemma container_roundtrip_witness :
  NasMessage.decode ["000"%byte; "B"%byte; "001"%byte]
    = Ok (NasMessage.mk 0 REGISTRATION_ACCEPT ["001"%byte] []) /\
  RrcMessage.decode ["013"%byte; "002"%byte; "007"%byte]
    = Ok (RrcMessage.mk 3 RRC_SETUP ["007"%byte]).
Proof.
  destruct (container_roundtrip
              (NasMessage.mk 0 REGISTRATION_ACCEPT ["001"%byte] [])
              (RrcMessage.mk 3 RRC_SETUP ["007"%byte]))
    as [(h0 & h1 & E1 & D1) (k0 & k1 & E2 & D2)];
    [reflexivity | reflexivity | simpl; lia | ].
  vm_compute in E1. vm_compute in E2.
  injection E1 as <- <-. injection E2 as <- <-.
  split; [exact D1 | exact D2].
Defined.

(** C1, as stated, fails on a record with security header 0 that carries an
    [encrypted_message]: the encoder does not emit that field and the decoder
    returns it empty. *)
Lemma container_roundtrip_counterexample :
  let m := NasMessage.mk 0 REGISTRATION_REQUEST [] ["001"%byte] in
  NasMessage.encode m = Ok ["000"%byte; "A"%byte] /\
  NasMessage.decode ["000"%byte; "A"%byte]
    = Ok (NasMessage.mk 0 REGISTRATION_REQUEST [] []) /\
  NasMessage.decode ["000"%byte; "A"%byte] <> Ok m.
Proof.
  split; [reflexivity|]. split; [reflexivity|]. discriminate.
Qed.

(** ** The RRC state machine of the UE *)

(** C2.  In state idle a SETUP is answered by SETUP_COMPLETE and the state
    becomes connecting; in connecting a RECONFIGURATION is answered by
    RECONFIGURATION_COMPLETE and the state becomes connected; in connected a
    RELEASE moves to idle without an answer; every other pair of state and
    message leaves the machine as it was and produces no message.  The answer
    carries the transaction identifier of the request; the two flags of the
    machine are never touched. *)
Theorem rrc_state_machine_transitions
    (sm : RrcStateMachine.t) (msg : RrcMessage.t) :
  (RrcStateMachine.state sm = "idle" ->
   RrcMessage.message_type msg = RRC_SETUP ->
   RrcStateMachine.handle_message msg sm
   = (RrcStateMachine.mk "connecting"
        (RrcStateMachine.setup_complete_received sm)
        (RrcStateMachine.reconfiguration_complete_received sm),
      Some (RrcMessage.mk (RrcMessage.rrc_transaction_id msg)
                          RRC_SETUP_COMPLETE []))) /\
  (RrcStateMachine.state sm = "connecting" ->
   RrcMessage.message_type msg = RRC_RECONFIGURATION ->
   RrcStateMachine.handle_message msg sm
   = (RrcStateMachine.mk "connected"
        (RrcStateMachine.setup_complete_received sm)
        (RrcStateMachine.reconfiguration_complete_received sm),
      Some (RrcMessage.mk (RrcMessage.rrc_transaction_id msg)
                          RRC_CONN_RECONFIGURATION_COMPLETE []))) /\
  (RrcStateMachine.state sm = "connected" ->
   RrcMessage.message_type msg = RRC_RELEASE ->
   RrcStateMachine.handle_message msg sm
   = (RrcStateMachine.mk "idle"
        (RrcStateMachine.setup_complete_received sm)
        (RrcStateMachine.reconfiguration_complete_received sm),
      None)) /\
  (~ (RrcStateMachine.state sm = "idle" /\
      RrcMessage.message_type msg = RRC_SETUP) ->
   ~ (RrcStateMachine.state sm = "connecting" /\
      RrcMessage.message_type msg = RRC_RECONFIGURATION) ->
   ~ (RrcStateMachine.state sm = "connected" /\
      RrcMessage.message_type msg = RRC_RELEASE) ->
   RrcStateMachine.handle_message msg sm = (sm, None)).
Proof.
  destruct sm as [st f1 f2], msg as [tid ty pl]. simpl.
  unfold RrcStateMachine.handle_message, RrcStateMachine.set_state. simpl.
  split; [|split; [|split]].
  - intros -> ->. reflexivity.
  - intros -> ->. reflexivity.
  - intros -> ->. reflexivity.
  - intros N1 N2 N3.
    destruct (String.eqb_spec st "idle") as [->|Hi].
    { destruct (decide (ty = RRC_SETUP)) as [->|]; [destruct N1; auto | reflexivity]. }
    destruct (String.eqb_spec st "connecting") as [->|Hc].
    { destruct (decide (ty = RRC_RECONFIGURATION)) as [->|];
        [destruct N2; auto | reflexivity]. }
    destruct (String.eqb_spec st "connected") as [->|Hd].
    { destruct (decide (ty = RRC_RELEASE)) as [->|];
        [destruct N3; auto | reflexivity]. }
    reflexivity.
Qed.

Lemma rrc_state_machine_transitions_witness :
  let setup := RrcMessage.mk 2 RRC_SETUP [] in
  let reconf := RrcMessage.mk 1 RRC_RECONFIGURATION [] in
  let release := RrcMessage.mk 0 RRC_RELEASE [] in
  RrcStateMachine.handle_message setup (RrcStateMachine.mk "idle" false false)
  = (RrcStateMachine.mk "connecting" false false,
     Some (RrcMessage.mk 2 RRC_SETUP_COMPLETE [])) /\
  RrcStateMachine.handle_message reconf
    (RrcStateMachine.mk "connecting" false false)
  = (RrcStateMachine.mk "connected" false false,
     Some (RrcMessage.mk 1 RRC_CONN_RECONFIGURATION_COMPLETE [])) /\
  RrcStateMachine.handle_message release
    (RrcStateMachine.mk "connected" false false)
  = (RrcStateMachine.mk "idle" false false, None) /\
  RrcStateMachine.handle_message release
    (RrcStateMachine.mk "idle" false false)
  = (RrcStateMachine.mk "idle" false false, None).
Proof.
  intros setup reconf release. split; [|split; [|split]].
  - apply (rrc_state_machine_transitions
             (RrcStateMachine.mk "idle" false false) setup); reflexivity.
  - apply (rrc_state_machine_transitions
             (RrcStateMachine.mk "connecting" false false) reconf); reflexivity.
  - apply (rrc_state_machine_transitions
             (RrcStateMachine.mk "connected" false false) release); reflexivity.
  - apply (rrc_state_machine_transitions
             (RrcStateMachine.mk "idle" false false) release);
      simpl; intros [H1 H2]; discriminate.
Defined.

(** ** Unknown message types *)

Lemma second_byte (data : bytes) (b1 : byte) :
  data !! 1%nat = Some b1 -> exists b0 rest, data = b0 :: b1 :: rest.
Proof.
  destruct data as [|b0 [|b rest]]; try discriminate.
  intros [= ->]. eauto.
Qed.

Lemma nas_decode_unknown (data : bytes) (b1 : byte) :
  data !! 1%nat = Some b1 ->
  (forall m, Nas.value m <> Z_of_byte b1) ->
  NasMessage.decode data = Raise ValueError.
Proof.
  intros Hd Hu. destruct (second_byte data b1 Hd) as (b0 & rest & ->).
  unfold NasMessage.decode. rewrite (nas_of_value_unknown b1 Hu). reflexivity.
Qed.

Lemma rrc_decode_unknown (data : bytes) (b1 : byte) :
  data !! 1%nat = Some b1 ->
  (forall m, Rrc.value m <> Z_of_byte b1) ->
  RrcMessage.decode data = Raise ValueError.
Proof.
  intros Hd Hu. destruct (second_byte data b1 Hd) as (b0 & rest & ->).
  unfold RrcMessage.decode. rewrite (rrc_of_value_unknown b1 Hu). reflexivity.
Qed.

(** C3 (as amended).  When the message-type byte of the input is the value
    of no member of the enum, [decode] raises the [ValueError] of the enum
    lookup.  The UE handlers decode before they do anything else: the error
    leaves them with no response and with the UE exactly as it was. *)
Theorem unknown_type_raises_value_error (data : bytes) (b1 : byte) :
  data !! 1%nat = Some b1 ->
  ((forall m, Nas.value m <> Z_of_byte b1) ->
   NasMessage.decode data = Raise ValueError /\
   forall now ue,
     UeSimulation.handle_nas_message now data ue = (ue, Raise ValueError)) /\
  ((forall m, Rrc.value m <> Z_of_byte b1) ->
   RrcMessage.decode data = Raise ValueError /\
   forall ue,
     UeSimulation.handle_rrc_message data ue = (ue, Raise ValueError)).
Proof.
  intros Hd. split; intros Hu.
  - pose proof (nas_decode_unknown data b1 Hd Hu) as E.
    split; [exact E|]. intros now ue.
    unfold UeSimulation.handle_nas_message, mbind, lift. rewrite E. reflexivity.
  - pose proof (rrc_decode_unknown data b1 Hd Hu) as E.
    split; [exact E|]. intros ue.
    unfold UeSimulation.handle_rrc_message, mbind, lift. rewrite E. reflexivity.
Qed.

Lemma nas_no_member_255 (m : ENasMessageType) : Nas.value m <> 255.
Proof. destruct m; discriminate. Qed.

Lemma rrc_no_member_255 (m : ERrcMessageType) : Rrc.value m <> 255.
Proof. destruct m; discriminate. Qed.

Lemma unknown_type_raises_value_error_witness :
  NasMessage.decode ["000"%byte; "255"%byte] = Raise ValueError /\
  RrcMessage.decode ["001"%byte; "255"%byte] = Raise ValueError.
Proof.
  split.
  - apply (unknown_type_raises_value_error ["000"%byte; "255"%byte] "255"%byte);
      [reflexivity | exact nas_no_member_255].
  - apply (unknown_type_raises_value_error ["001"%byte; "255"%byte] "255"%byte);
      [reflexivity | exact rrc_no_member_255].
Defined.

(** C3, as stated, fails: on a type byte that no member carries the decoder
    raises the built-in [ValueError], not a [ProtocolDecodeError]. *)
Lemma protocol_decode_error_counterexample :
  (forall m, Nas.value m <> Z_of_byte "255"%byte) /\
  NasMessage.decode ["000"%byte; "255"%byte] = Raise ValueError /\
  NasMessage.decode ["000"%byte; "255"%byte] <> Raise ProtocolDecodeError.
Proof.
  split; [exact nas_no_member_255|]. split; [reflexivity | discriminate].
Qed.

(** ** Timers *)

Section TimerFacts.

Implicit Types (m : TimerManager.t) (d : gmap Z Timer.t) (k : Z).

Lemma wf_new : TimerManager.wf TimerManager.new.
Proof. intros k tm H. simpl in H. rewrite lookup_empty in H. discriminate. Qed.

Lemma wf_clear m : TimerManager.wf (TimerManager.clear m).
Proof. apply wf_new. Qed.

Lemma wf_allocate m timeout data :
  TimerManager.wf m -> TimerManager.wf (TimerManager.allocate timeout data m).1.
Proof.
  intros Hwf k tm. unfold TimerManager.allocate. simpl.
  rewrite lookup_insert_Some. intros [[<- <-]|[_ H]]; [reflexivity|].
  apply Hwf, H.
Qed.

Lemma wf_update m k tm f :
  TimerManager.wf m ->
  TimerManager.timers m !! k = Some tm ->
  Timer.id (f tm) = Timer.id tm ->
  TimerManager.wf
    (TimerManager.mk (<[k := f tm]> (TimerManager.timers m))
                     (TimerManager.next_id m)).
Proof.
  intros Hwf Hk Hid k' tm'. simpl.
  rewrite lookup_insert_Some. intros [[<- <-]|[_ H]].
  - rewrite Hid. apply Hwf, Hk.
  - apply Hwf, H.
Qed.

Lemma wf_start m now k :
  TimerManager.wf m -> TimerManager.wf (TimerManager.start now k m).1.
Proof.
  intros Hwf. unfold TimerManager.start.
  destruct (TimerManager.timers m !! k) as [tm|] eqn:E; [|exact Hwf].
  apply (wf_update m k tm (Timer.start now)); auto.
Qed.

Lemma wf_stop m k :
  TimerManager.wf m -> TimerManager.wf (TimerManager.stop k m).1.
Proof.
  intros Hwf. unfold TimerManager.stop.
  destruct (TimerManager.timers m !! k) as [tm|] eqn:E; [|exact Hwf].
  apply (wf_update m k tm Timer.stop); auto.
Qed.

Lemma wf_expire m k :
  TimerManager.wf m -> TimerManager.wf (TimerManager.expire k m).1.
Proof.
  intros Hwf. unfold TimerManager.expire.
  destruct (TimerManager.timers m !! k) as [tm|] eqn:E; [|exact Hwf].
  apply (wf_update m k tm (Timer.set_started_at (Some datetime_min))); auto.
Qed.

(** Deleting a list of keys one after the other. *)
Lemma lookup_foldl_delete (ids : list Z) d k :
  foldl (fun d k => delete k d) d ids !! k
  = if decide (k ∈ ids) then None else d !! k.
Proof.
  revert d. induction ids as [|a ids IH]; intros d; simpl.
  - destruct (decide (k ∈ [])) as [H|_]; [inversion H | reflexivity].
  - rewrite IH. destruct (decide (k ∈ ids)) as [Hin|Hin].
    + rewrite decide_True by (right; exact Hin). reflexivity.
    + destruct (decide (a = k)) as [->|Hne].
      * rewrite decide_True by left. apply lookup_delete_eq.
      * rewrite decide_False.
        -- apply lookup_delete_ne, Hne.
        -- intros H. apply elem_of_cons in H as [->|H]; auto.
Qed.

Lemma wf_check_expired m clock :
  TimerManager.wf m -> TimerManager.wf (TimerManager.check_expired clock m).1.
Proof.
  intros Hwf k tm. unfold TimerManager.check_expired. simpl.
  rewrite lookup_foldl_delete. case_decide; [discriminate|]. apply Hwf.
Qed.

(** Membership in the scan of [check_expired]. *)
Lemma elem_of_hits m clock k tm :
  (k, tm) ∈ List.filter (fun kt => Timer.is_expired (clock kt.1) kt.2)
                        (map_to_list (TimerManager.timers m))
  <-> TimerManager.timers m !! k = Some tm /\
      Timer.is_expired (clock k) tm = true.
Proof.
  rewrite list_elem_of_In, filter_In, <- list_elem_of_In, elem_of_map_to_list.
  reflexivity.
Qed.

Lemma NoDup_fst_filter {A} (f : Z * A -> bool) (l : list (Z * A)) :
  NoDup l.*1 -> NoDup (List.filter f l).*1.
Proof.
  induction l as [|[k a] l IH]; simpl; [auto|].
  rewrite NoDup_cons. intros [Hk Hl].
  destruct (f (k, a)); simpl; [|auto].
  apply NoDup_cons. split; [|auto].
  intros H. apply Hk.
  apply list_elem_of_fmap in H as ([k' a'] & -> & H).
  apply list_elem_of_fmap. exists (k', a'). split; [reflexivity|].
  apply list_elem_of_In in H. apply filter_In in H as [H _].
  apply list_elem_of_In, H.
Qed.

Lemma ids_of_values (l : list (Z * Timer.t)) :
  (forall k tm, (k, tm) ∈ l -> Timer.id tm = k) ->
  Timer.id <$> l.*2 = l.*1.
Proof.
  induction l as [|[k tm] l IH]; intros H; simpl; [reflexivity|].
  rewrite (H k tm) by left. f_equal. apply IH.
  intros k' tm' Hin. apply H. right. exact Hin.
Qed.

(** C4.  A timer of the manager that was started at [s] and whose timeout
    has elapsed when [check_expired] examines it is in the returned list;
    no two returned timers share an id, so it is returned once; it is
    removed from the manager, [get] no longer finds it, and no later call of
    [check_expired] returns a timer with its id.  The timers that stay are
    the ones [get] found before. *)
Theorem check_expired_delivers_once
    (m : TimerManager.t) (clock : Z -> datetime) (k : Z) (tm : Timer.t)
    (s : datetime) :
  TimerManager.wf m ->
  TimerManager.get k m = Some tm ->
  Timer.started_at tm = Some s ->
  Timer.timeout tm <= clock k - s ->
  let m' := (TimerManager.check_expired clock m).1 in
  let expired := (TimerManager.check_expired clock m).2 in
  tm ∈ expired /\
  NoDup (Timer.id <$> expired) /\
  TimerManager.get k m' = None /\
  (forall k', TimerManager.get k' m' = None \/
              TimerManager.get k' m' = TimerManager.get k' m) /\
  forall clock' x,
    x ∈ (TimerManager.check_expired clock' m').2 -> Timer.id x <> k.
Proof.
  intros Hwf Hget Hs Hto m' expired.
  assert (Timer.is_expired (clock k) tm = true) as Hexp.
  { unfold Timer.is_expired. rewrite Hs. apply Z.leb_le, Hto. }
  assert ((k, tm) ∈ List.filter
            (fun kt => Timer.is_expired (clock kt.1) kt.2)
            (map_to_list (TimerManager.timers m))) as Hhit.
  { apply elem_of_hits. split; [exact Hget | exact Hexp]. }
  assert (TimerManager.get k m' = None) as Hgone.
  { unfold m', TimerManager.get, TimerManager.check_expired. simpl.
    rewrite lookup_foldl_delete. rewrite decide_True; [reflexivity|].
    apply list_elem_of_fmap. exists (k, tm). split; [reflexivity | exact Hhit]. }
  split; [|split; [|split; [|split]]].
  - unfold expired, TimerManager.check_expired. simpl.
    apply list_elem_of_fmap. exists (k, tm). split; [reflexivity | exact Hhit].
  - unfold expired, TimerManager.check_expired. simpl.
    rewrite ids_of_values.
    + apply NoDup_fst_filter, NoDup_fst_map_to_list.
    + intros k0 t0 H0. apply elem_of_hits in H0 as [H0 _]. apply Hwf, H0.
  - exact Hgone.
  - intros k'. unfold m', TimerManager.get, TimerManager.check_expired. simpl.
    rewrite lookup_foldl_delete. case_decide; [left|right]; reflexivity.
  - intros clock' x Hx Hid.
    unfold TimerManager.check_expired in Hx. simpl in Hx.
    apply list_elem_of_fmap in Hx as ([k0 t0] & -> & Hx). simpl in Hid.
    apply list_elem_of_In, filter_In in Hx as [Hx _].
    apply list_elem_of_In, elem_of_map_to_list in Hx.
    assert (TimerManager.wf m') as Hwf' by (apply wf_check_expired, Hwf).
    pose proof (Hwf' k0 t0 Hx) as Hk0. rewrite Hid in Hk0. subst k0.
    change (TimerManager.get k m' = Some t0) in Hx.
    rewrite Hgone in Hx. discriminate.
Qed.

End TimerFacts.

(** [allocate] then [start]: the timer is stored under the returned id and
    is running. *)
Lemma allocate_start_running
    (m : TimerManager.t) (timeout : Z) (data : option (gmap string Any))
    (now : datetime) :
  let m1 := (TimerManager.allocate timeout data m).1 in
  let id := (TimerManager.allocate timeout data m).2 in
  let m2 := (TimerManager.start now id m1).1 in
  id = TimerManager.next_id m /\
  (TimerManager.start now id m1).2 = true /\
  TimerManager.get id m2 = Some (Timer.mk id timeout (Some now) data) /\
  (forall tm, TimerManager.get id m2 = Some tm -> Timer.is_running tm = true).
Proof.
  simpl. unfold TimerManager.start, TimerManager.allocate, TimerManager.get.
  simpl. rewrite lookup_insert_eq. simpl. rewrite lookup_insert_eq.
  repeat split. intros tm [= <-]. reflexivity.
Qed.

Lemma check_expired_delivers_once_witness :
  let m1 := (TimerManager.allocate 5 None TimerManager.new).1 in
  let m2 := (TimerManager.start 100 1 m1).1 in
  let tm := Timer.mk 1 5 (Some 100) None in
  tm ∈ (TimerManager.check_expired (fun _ => 105) m2).2 /\
  TimerManager.get 1 (TimerManager.check_expired (fun _ => 105) m2).1 = None.
Proof.
  intros m1 m2 tm.
  assert (TimerManager.wf m2) as Hwf
    by (apply wf_start, wf_allocate, wf_new).
  assert (Timer.timeout tm <= (fun _ : Z => 105) 1 - 100) as Hto
    by (simpl; lia).
  destruct (check_expired_delivers_once m2 (fun _ => 105) 1 tm 100
              Hwf eq_refl eq_refl Hto) as (H1 & _ & H3 & _).
  split; [exact H1 | exact H3].
Defined.

(** ** The state snapshot of the UE *)

(** C9.  [get_state] returns the snapshot object of the UE, filled with the
    names of the current MM, RRC, CM and SM states, and adds exactly one to
    its [registration_attempts].  The four protocol state variables, the
    security context and the recorded PDU sessions are unchanged; indeed the
    snapshot is the only attribute of the UE that is assigned. *)
Theorem get_state_counts_one_attempt (ue : UeSimulation.t) :
  let ue' := (UeSimulation.get_state ue).1 in
  let snap := (UeSimulation.get_state ue).2 in
  snap = UeSimulation.state ue' /\
  UeState.mm_state snap = EMmState_name (UeSimulation.mm_state ue) /\
  UeState.rrc_state snap = ERrcState_name (UeSimulation.rrc_state ue) /\
  UeState.cm_state snap = ECmState_name (UeSimulation.cm_state ue) /\
  UeState.sm_state snap = ESmState_name (UeSimulation.sm_state ue) /\
  UeState.registration_attempts snap
    = UeState.registration_attempts (UeSimulation.state ue) + 1 /\
  UeSimulation.mm_state ue' = UeSimulation.mm_state ue /\
  UeSimulation.rrc_state ue' = UeSimulation.rrc_state ue /\
  UeSimulation.cm_state ue' = UeSimulation.cm_state ue /\
  UeSimulation.sm_state ue' = UeSimulation.sm_state ue /\
  UeSimulation.security_context ue' = UeSimulation.security_context ue /\
  UeState.pdu_sessions snap = UeState.pdu_sessions (UeSimulation.state ue) /\
  ue' = UeSimulation.set_state snap ue.
Proof.
  destruct ue as [cfg uid [sid smm srrc scm ssm sgnb spdu sreg slast]
                  mm sub rrc cm sm sec usim tms orrc onas gnb ran].
  cbv zeta. unfold UeSimulation.get_state. simpl.
  repeat split.
Qed.

(** ** USIM authentication *)

Ltac split_bit p :=
  destruct p as [p|p|]; try (split; reflexivity); try lia.

Lemma hexdigit_hexval (n : Z) :
  0 <= n < 16 ->
  hexval (hexdigit n) = Some n /\ is_space (hexdigit n) = false.
Proof.
  intros H. destruct n as [|p|p]; [split; reflexivity | | lia].
  split_bit p; split_bit p; split_bit p; split_bit p.
Qed.

(** Reading back the first [2 * n] digits of [b.hex()] gives the first [n]
    bytes of [b]; [fromhex] never raises on them. *)
Lemma fromhex_hex_prefix (n : nat) (b : bytes) :
  fromhex (str_take (2 * n) (hex b)) = Ok (take n b).
Proof.
  revert b. induction n as [|n IH]; intros b; [reflexivity|].
  replace (2 * S n)%nat with (S (S (2 * n))) by lia.
  destruct b as [|x r]; [reflexivity|].
  pose proof (Z_of_byte_range x) as Hx.
  assert (0 <= Z_of_byte x / 16 < 16) as Hhi
    by (split; [apply Z.div_pos; lia | apply Z.div_lt_upper_bound; lia]).
  assert (0 <= Z_of_byte x mod 16 < 16) as Hlo by (apply Z.mod_pos_bound; lia).
  destruct (hexdigit_hexval _ Hhi) as [Hv1 Hs1].
  destruct (hexdigit_hexval _ Hlo) as [Hv2 _].
  cbn [hex str_take fromhex]. rewrite Hs1, Hv1, Hv2.
  replace (16 * (Z_of_byte x / 16) + Z_of_byte x mod 16) with (Z_of_byte x)
    by (rewrite <- Z.div_mod; lia).
  cbn [bytes_of_ints]. rewrite byte_of_Z_of_byte. cbn [Py.bind].
  rewrite IH. reflexivity.
Qed.

(** C10 (as amended).  [generate_authentication_response] never raises and
    assigns no field of the context, [sqn] included.  The three returned
    values are sixteen-byte prefixes of hashes of [rand] and the first
    sixteen bytes of the key and the OPc; they do not depend on [autn] or on
    any other field. *)
Theorem authentication_response_reads_only
    (sha256 : bytes -> bytes) (u : UsimContext.t) (rand autn : bytes) :
  UsimContext.generate_authentication_response sha256 rand autn u
  = (u, Ok (take 16 (sha256 (rand ++ take 16 (UsimContext.opc u)
                                  ++ take 16 (UsimContext.key u))),
            take 16 (sha256 (take 16 (UsimContext.key u) ++ rand)),
            take 16 (sha256 (take 16 (UsimContext.opc u) ++ rand)))) /\
  forall imsi' amf' sqn' autn',
    (UsimContext.generate_authentication_response sha256 rand autn'
       (UsimContext.mk imsi' (UsimContext.key u) (UsimContext.opc u)
                       amf' sqn')).2
    = (UsimContext.generate_authentication_response sha256 rand autn u).2.
Proof.
  assert (forall v a,
    UsimContext.generate_authentication_response sha256 rand a v
    = (v, Ok (take 16 (sha256 (rand ++ take 16 (UsimContext.opc v)
                                    ++ take 16 (UsimContext.key v))),
              take 16 (sha256 (take 16 (UsimContext.key v) ++ rand)),
              take 16 (sha256 (take 16 (UsimContext.opc v) ++ rand))))) as E.
  { intros v a.
    unfold UsimContext.generate_authentication_response, mbind, get, lift, ret.
    change 32%nat with (2 * 16)%nat. rewrite !fromhex_hex_prefix.
    rewrite take_take. reflexivity. }
  split; [apply E|]. intros imsi' amf' sqn' autn'. rewrite !E. reflexivity.
Qed.

(** C10, as stated, fails: the sequence number after an authentication run
    is the one before it.  The hash function is irrelevant to the state and
    is instantiated by the identity. *)
Lemma sqn_advance_counterexample :
  let u := UsimContext.mk "imsi-208930000000001" ["139"%byte; "175"%byte]
                          ["142"%byte; "039"%byte] ["128"%byte; "000"%byte] 0 in
  let u' := (UsimContext.generate_authentication_response
               (fun b => b) ["001"%byte] ["002"%byte] u).1 in
  UsimContext.sqn u' = UsimContext.sqn u /\ ~ (UsimContext.sqn u < UsimContext.sqn u').
Proof.
  split; [reflexivity|]. vm_compute. discriminate.
Qed.

(** ** The master information block *)

Lemma Z_of_byte_inj (a b : byte) : Z_of_byte a = Z_of_byte b -> a = b.
Proof.
  intros H. pose proof (byte_of_Z_of_byte a) as Ha.
  rewrite H, byte_of_Z_of_byte in Ha. congruence.
Qed.

Lemma lor_below_pow2 (a b n : Z) :
  0 <= n -> 0 <= a < 2 ^ n -> 0 <= b < 2 ^ n -> 0 <= Z.lor a b < 2 ^ n.
Proof.
  intros Hn Ha Hb.
  assert (Z.lor a b = Z.lor a b mod 2 ^ n) as E.
  { rewrite <- Z.land_ones by exact Hn.
    rewrite Z.land_lor_distr_l, !Z.land_ones by exact Hn.
    rewrite !Z.mod_small by lia. reflexivity. }
  rewrite E. apply Z.mod_pos_bound. lia.
Qed.

Lemma field_below_pow2 (x w k : Z) :
  0 <= w -> 0 <= k -> w + k <= 32 ->
  0 <= Z.shiftl (Z.land x (Z.ones w)) k < 2 ^ 32.
Proof.
  intros Hw Hk Hwk.
  rewrite Z.land_ones, Z.shiftl_mul_pow2 by lia.
  pose proof (Z.mod_pos_bound x (2 ^ w) ltac:(lia)) as Hx.
  assert (0 < 2 ^ k) as Hp by lia.
  split; [nia|].
  apply Z.lt_le_trans with (2 ^ w * 2 ^ k); [nia|].
  rewrite <- Z.pow_add_r by lia. apply Z.pow_le_mono_r; lia.
Qed.

Lemma mib_data_range (m : MIB.t) : 0 <= MIB.mib_data m < 2 ^ 32.
Proof.
  unfold MIB.mib_data. cbv zeta.
  repeat (apply lor_below_pow2; [lia| |]).
  - lia.
  - apply (field_below_pow2 _ 10 0); lia.
  - apply (field_below_pow2 _ 1 10); lia.
  - apply (field_below_pow2 _ 4 11); lia.
  - apply (field_below_pow2 _ 1 15); lia.
  - apply (field_below_pow2 _ 8 16); lia.
  - destruct (MIB.cell_barred m); vm_compute; split; congruence.
  - destruct (MIB.intra_freq_reselection m); vm_compute; split; congruence.
  - vm_compute; split; congruence.
Qed.

(** The three bytes of the encoding are bits 8 to 31 of the packed word. *)
Lemma mib_encode_bytes (m : MIB.t) :
  exists b0 b1 b2,
    MIB.encode m = Ok [b0; b1; b2] /\
    Z_of_byte b0 = (Z.shiftr (MIB.mib_data m) 8 / 2 ^ 16) mod 256 /\
    Z_of_byte b1 = (Z.shiftr (MIB.mib_data m) 8 / 2 ^ 8) mod 256 /\
    Z_of_byte b2 = Z.shiftr (MIB.mib_data m) 8 mod 256.
Proof.
  pose proof (mib_data_range m) as HD.
  set (D := MIB.mib_data m) in *.
  unfold MIB.encode, to_bytes_big. fold D.
  replace ((0 <=? D) && (D <? 256 ^ Z.of_nat 4)) with true
    by (symmetry; apply andb_true_iff; split;
        [apply Z.leb_le | apply Z.ltb_lt]; simpl; lia).
  cbn [be_digits].
  destruct (byte_of_Z_in_range ((D / 256 ^ Z.of_nat 3) mod 256))
    as (b0 & E0 & V0); [apply Z.mod_pos_bound; lia|].
  destruct (byte_of_Z_in_range ((D / 256 ^ Z.of_nat 2) mod 256))
    as (b1 & E1 & V1); [apply Z.mod_pos_bound; lia|].
  destruct (byte_of_Z_in_range ((D / 256 ^ Z.of_nat 1) mod 256))
    as (b2 & E2 & V2); [apply Z.mod_pos_bound; lia|].
  destruct (byte_of_Z_in_range ((D / 256 ^ Z.of_nat 0) mod 256))
    as (b3 & E3 & V3); [apply Z.mod_pos_bound; lia|].
  exists b0, b1, b2. cbn [bytes_of_ints]. rewrite E0, E1, E2, E3.
  split; [reflexivity|].
  rewrite Z.shiftr_div_pow2 by lia. rewrite !Z.div_div by lia.
  rewrite V0, V1, V2. repeat split.
Qed.

(** Only bits 8 and 9 of the frame number reach the packed word above its
    low byte. *)
Lemma mib_data_high_bits (m : MIB.t) :
  Z.shiftr (MIB.mib_data m) 8
  = Z.shiftr
      (MIB.mib_data
         (MIB.mk (Z.land (MIB.system_frame_number m) 0x300)
                 (MIB.subcarrier_spacing_common m) (MIB.ssb_subcarrier_offset m)
                 (MIB.dmrs_type_a_position m) (MIB.pdcch_config_sib1 m)
                 (MIB.cell_barred m) (MIB.intra_freq_reselection m))) 8.
Proof.
  unfold MIB.mib_data. cbv zeta.
  cbn [MIB.system_frame_number MIB.subcarrier_spacing_common
       MIB.ssb_subcarrier_offset MIB.dmrs_type_a_position MIB.pdcch_config_sib1
       MIB.cell_barred MIB.intra_freq_reselection].
  rewrite !Z.shiftr_lor. do 8 f_equal.
  rewrite !Z.shiftl_0_r, !Z.shiftr_land, <- Z.land_assoc. reflexivity.
Qed.

(** C8 at the failing input.  The encoding is always three bytes, but they
    are the upper three bytes of a 32-bit word: the low eight bits of the
    10-bit system frame number are cut off.  Two blocks whose frame numbers
    agree on bits 8 and 9 have the same encoding, for instance the frame
    numbers 0 and 1, so no decoder recovers the frame number modulo 1024. *)
Theorem mib_encode_drops_frame_number_bits :
  (forall m, exists b0 b1 b2, MIB.encode m = Ok [b0; b1; b2]) /\
  (forall m,
     MIB.encode
       (MIB.mk (Z.land (MIB.system_frame_number m) 0x300)
          (MIB.subcarrier_spacing_common m) (MIB.ssb_subcarrier_offset m)
          (MIB.dmrs_type_a_position m) (MIB.pdcch_config_sib1 m)
          (MIB.cell_barred m) (MIB.intra_freq_reselection m))
     = MIB.encode m) /\
  MIB.encode (MIB.mk 0 0 0 0 0 false true)
    = Ok ["253"%byte; "000"%byte; "000"%byte] /\
  MIB.encode (MIB.mk 1 0 0 0 0 false true)
    = Ok ["253"%byte; "000"%byte; "000"%byte] /\
  ~ exists decode : result bytes -> Z,
      forall m, decode (MIB.encode m) = MIB.system_frame_number m mod 1024.
Proof.
  split; [|split; [|split; [|split]]].
  - intros m. destruct (mib_encode_bytes m) as (b0 & b1 & b2 & E & _).
    eauto.
  - intros m.
    destruct (mib_encode_bytes m) as (b0 & b1 & b2 & E & V0 & V1 & V2).
    set (m' := MIB.mk _ _ _ _ _ _ _).
    destruct (mib_encode_bytes m') as (c0 & c1 & c2 & E' & W0 & W1 & W2).
    rewrite E, E'. unfold m' in W0, W1, W2.
    rewrite <- mib_data_high_bits in W0, W1, W2.
    rewrite (Z_of_byte_inj c0 b0), (Z_of_byte_inj c1 b1), (Z_of_byte_inj c2 b2)
      by congruence.
    reflexivity.
  - reflexivity.
  - reflexivity.
  - intros [decode H].
    pose proof (H (MIB.mk 0 0 0 0 0 false true)) as H0.
    pose proof (H (MIB.mk 1 0 0 0 0 false true)) as H1.
    change (MIB.encode (MIB.mk 1 0 0 0 0 false true))
      with (MIB.encode (MIB.mk 0 0 0 0 0 false true)) in H1.
    rewrite H0 in H1. discriminate H1.
Qed.

(** ** The UE entity *)

Lemma byte_of_Z_land_ones (z w : Z) :
  0 <= w <= 8 -> exists b, byte_of_Z (Z.land z (Z.ones w)) = Some b.
Proof.
  intros Hw.
  destruct (byte_of_Z_in_range (Z.land z (Z.ones w))) as (b & Hb & _);
    [|eauto].
  rewrite Z.land_ones by lia.
  pose proof (Z.mod_pos_bound z (2 ^ w) ltac:(lia)).
  assert (2 ^ w <= 2 ^ 8) by (apply Z.pow_le_mono_r; lia). lia.
Qed.

(** The setup request of [start_registration]: spare byte, establishment
    cause [MO_SIGNAL] (3), and five bytes of identity. *)
Lemma setup_request_encode (token : bytes) :
  exists i0 i1 i2 i3 i4,
    RrcSetupRequest.encode token (RrcSetupRequest.mk [] MO_SIGNAL 0)
    = Ok ["000"%byte; "003"%byte; i0; i1; i2; i3; i4].
Proof.
  unfold RrcSetupRequest.encode.
  cbn [RrcSetupRequest.ue_id RrcSetupRequest.establishment_cause].
  set (bits := Z.land (from_bytes_big (last_n 5 token)) 549755813887).
  destruct (byte_of_Z_land_ones (Z.shiftr bits 32) 7) as [i0 H0]; [lia|].
  destruct (byte_of_Z_land_ones (Z.shiftr bits 24) 8) as [i1 H1]; [lia|].
  destruct (byte_of_Z_land_ones (Z.shiftr bits 16) 8) as [i2 H2]; [lia|].
  destruct (byte_of_Z_land_ones (Z.shiftr bits 8) 8) as [i3 H3]; [lia|].
  destruct (byte_of_Z_land_ones bits 8) as [i4 H4]; [lia|].
  exists i0, i1, i2, i3, i4.
  change (Z.ones 7) with 127 in H0. change (Z.ones 8) with 255 in H1, H2, H3, H4.
  cbn [bytes_of_ints Py.bind]. 
  change (byte_of_Z 0) with (Some "000"%byte).
  change (byte_of_Z (Z.land (Z.land (cause_value MO_SIGNAL) 15) 15))
    with (Some "003"%byte).
  cbn [Py.bind]. rewrite H0, H1, H2, H3, H4. reflexivity.
Qed.

Lemma start_with_callback
    (ue : UeSimulation.t) (token : bytes) (gnb : string) (log : list bytes) :
  UeSimulation.on_rrc_message ue = Some log ->
  exists i0 i1 i2 i3 i4,
    UeSimulation.start token gnb ue
    = (UeSimulation.set_on_rrc_message
         (Some (log ++ [["001"%byte; "001"%byte; "000"%byte; "003"%byte;
                         i0; i1; i2; i3; i4]]))
         (UeSimulation.set_mm_substate MM_REGISTERED_NORMAL_SERVICE
            (UeSimulation.set_mm_state MM_REGISTERED_INITIATED
               (UeSimulation.set_connected_gnb_id (Some gnb) ue))),
       Ok tt).
Proof.
  intros Hcb.
  destruct (setup_request_encode token) as (i0 & i1 & i2 & i3 & i4 & E).
  exists i0, i1, i2, i3, i4.
  unfold UeSimulation.start, UeSimulation.start_registration,
    UeSimulation.send_rrc, mbind, modify, lift, get.
  rewrite E. destruct ue. simpl in Hcb. subst. reflexivity.
Qed.

Lemma start_without_callback
    (ue : UeSimulation.t) (token : bytes) (gnb : string) :
  UeSimulation.on_rrc_message ue = None ->
  UeSimulation.start token gnb ue
  = (UeSimulation.set_mm_substate MM_REGISTERED_NORMAL_SERVICE
       (UeSimulation.set_mm_state MM_REGISTERED_INITIATED
          (UeSimulation.set_connected_gnb_id (Some gnb) ue)),
     Ok tt).
Proof.
  intros Hcb.
  destruct (setup_request_encode token) as (i0 & i1 & i2 & i3 & i4 & E).
  unfold UeSimulation.start, UeSimulation.start_registration,
    UeSimulation.send_rrc, mbind, modify, lift, get.
  rewrite E. destruct ue. simpl in Hcb. subst. reflexivity.
Qed.

(** An idle UE that receives SETUP becomes connected and then builds its
    registration request; the answer, or the exception, is the one of the
    builders. *)
Lemma handle_setup_when_idle (ue : UeSimulation.t) (b0 : byte) (rest : bytes) :
  UeSimulation.rrc_state ue = RRC_IDLE ->
  UeSimulation.handle_rrc_message (b0 :: "002"%byte :: rest) ue
  = let ue' := UeSimulation.set_cm_state CM_CONNECTED
                 (UeSimulation.set_rrc_state RRC_CONNECTED ue) in
    (ue',
     let? nas_pdu := UeSimulation.create_registration_request ue' in
     let? payload := RrcSetupComplete.encode (RrcSetupComplete.mk 1 nas_pdu) in
     let? out := RrcMessage.encode
                   (RrcMessage.mk 0 RRC_SETUP_COMPLETE payload) in
     Ok (Some out)).
Proof.
  intros Hidle.
  unfold UeSimulation.handle_rrc_message, mbind, modify, lift, get, ret.
  cbn [RrcMessage.decode Py.bind]. 
  change (Rrc.of_value (Z_of_byte "002")) with (Ok RRC_SETUP).
  cbn [Py.bind RrcMessage.message_type]. rewrite Hidle.
  rewrite decide_True by reflexivity. rewrite decide_True by reflexivity.
  cbv zeta.
  destruct (UeSimulation.create_registration_request _) as [nas|e];
    [|reflexivity].
  cbn [Py.bind].
  destruct (RrcSetupComplete.encode _) as [payload|e]; [|reflexivity].
  cbn [Py.bind].
  destruct (RrcMessage.encode _) as [out|e]; reflexivity.
Qed.

Lemma default_imsi_request_raises (ue : UeSimulation.t) :
  UeConfig.imsi (UeSimulation.config ue) = "imsi-208930000000001" ->
  UeSimulation.create_registration_request ue = Raise ValueError.
Proof.
  intros H. unfold UeSimulation.create_registration_request. rewrite H.
  reflexivity.
Qed.

(** A registration request that can be built is a plain NAS message of type
    REGISTRATION_REQUEST (0x41). *)
Lemma registration_request_header (ue : UeSimulation.t) (nas : bytes) :
  UeSimulation.create_registration_request ue = Ok nas ->
  exists plain, nas = "000"%byte :: "A"%byte :: plain.
Proof.
  unfold UeSimulation.create_registration_request.
  cbn [bytes_of_ints Py.bind].
  change (byte_of_Z 128) with (Some "128"%byte).
  change (byte_of_Z 224) with (Some "224"%byte).
  change (byte_of_Z 0) with (Some "000"%byte).
  change (byte_of_Z 1) with (Some "001"%byte).
  cbn [Py.bind].
  destruct (index _ _) as [parts|e]; [|discriminate]. cbn [Py.bind].
  destruct (UeSimulation.supi_groups parts) as [groups|e]; [|discriminate].
  cbn [Py.bind].
  destruct (byte_of_Z (Z.land (UeConfig.sst _) 255)) as [b1|]; [|discriminate].
  destruct (byte_of_Z (Z.land _ 255)) as [b2|]; [|discriminate].
  cbn [Py.bind].
  destruct (RegistrationRequest.encode _) as [plain|e]; [|discriminate].
  cbn [Py.bind]. intros H. exists plain.
  destruct (nas_encode_plain REGISTRATION_REQUEST plain []) as (b & Hb & E).
  rewrite E in H. injection H as <-.
  rewrite (Z_of_byte_inj b "A"%byte Hb). reflexivity.
Qed.

(** When the request can be built and is shorter than 256 bytes, the idle
    UE answers SETUP with SETUP_COMPLETE (type byte 9) that embeds it in the
    dedicated-NAS element (tag 0x39). *)
Lemma setup_complete_embeds_request
    (ue : UeSimulation.t) (b0 : byte) (rest : bytes) (nas : bytes) :
  UeSimulation.rrc_state ue = RRC_IDLE ->
  UeSimulation.create_registration_request
    (UeSimulation.set_cm_state CM_CONNECTED
       (UeSimulation.set_rrc_state RRC_CONNECTED ue)) = Ok nas ->
  len nas < 256 ->
  exists blen plain,
    Z_of_byte blen = len nas /\
    nas = "000"%byte :: "A"%byte :: plain /\
    (UeSimulation.handle_rrc_message (b0 :: "002"%byte :: rest) ue).2
    = Ok (Some (["001"%byte; "009"%byte; "000"%byte; "001"%byte; "001"%byte;
                 "057"%byte; blen] ++ nas)).
Proof.
  intros Hidle Hreq Hlen.
  destruct (registration_request_header _ _ Hreq) as [plain ->].
  destruct (byte_of_Z_in_range (len ("000"%byte :: "A"%byte :: plain)))
    as (blen & Eb & Vb); [unfold len in *; simpl in *; lia|].
  exists blen, plain. split; [exact Vb|]. split; [reflexivity|].
  rewrite handle_setup_when_idle by exact Hidle. cbv zeta. cbn [snd].
  rewrite Hreq. cbn [Py.bind].
  unfold RrcSetupComplete.encode.
  cbn [RrcSetupComplete.selected_plmn_id RrcSetupComplete.dedicated_nas_message
       bytes_of_ints].
  change (byte_of_Z 0) with (Some "000"%byte).
  change (byte_of_Z 1) with (Some "001"%byte).
  change (byte_of_Z (Z.land 1 15)) with (Some "001"%byte).
  change (byte_of_Z 57) with (Some "057"%byte).
  rewrite Eb. reflexivity.
Qed.

(** For instance with the IMSI 001010000000001, whose digit groups are all
    bytes. *)
Example setup_complete_small_digit_groups :
  exists ue0,
    UeSimulation.new
      (UeConfig.mk "imsi-001010000000001" "8baf473f2f8fd09487cccbd7097c6862"
         "8e27b6af0e692e750f32667a3b14605d" "8000" 0 "internet" 1 0x010203
         0 "" 1 "0000") "ue1" = Ok ue0 /\
    (UeSimulation.handle_rrc_message ["001"%byte; "002"%byte] ue0).2
    = Ok (Some
            (["001"%byte; "009"%byte; "000"%byte; "001"%byte; "001"%byte;
              "057"%byte; "023"%byte]
             ++ ["000"%byte; "A"%byte]
             ++ ["014"%byte; "003"%byte; "128"%byte; "000"%byte; "000"%byte]
             ++ ["046"%byte; "003"%byte; "224"%byte; "000"%byte; "000"%byte]
             ++ ["016"%byte; "006"%byte; "001"%byte; "001"%byte; "010"%byte;
                 "000"%byte; "000"%byte; "001"%byte]
             ++ ["014"%byte; "001"%byte; "001"%byte])).
Proof. eexists. split; reflexivity. Qed.

(** C6 at the failing input.  With the default IMSI and a callback for RRC
    messages installed, [start] hands the callback an RRC_SETUP_REQUEST
    (type byte 1) whose establishment cause is MO_SIGNAL (3).  Feeding SETUP
    back raises [ValueError] instead of returning SETUP_COMPLETE: the digit
    group 930 of the IMSI is not a byte.  The UE is left RRC-connected. *)
Theorem default_imsi_setup_raises
    (ue : UeSimulation.t) (token : bytes) (gnb : string) (log : list bytes)
    (b0 : byte) (rest : bytes) :
  UeConfig.imsi (UeSimulation.config ue) = UeConfig.imsi UeConfig.default ->
  UeSimulation.rrc_state ue = RRC_IDLE ->
  UeSimulation.on_rrc_message ue = Some log ->
  let ue1 := (UeSimulation.start token gnb ue).1 in
  (UeSimulation.start token gnb ue).2 = Ok tt /\
  (exists i0 i1 i2 i3 i4,
     UeSimulation.on_rrc_message ue1
     = Some (log ++ [["001"%byte; "001"%byte; "000"%byte; "003"%byte;
                      i0; i1; i2; i3; i4]])) /\
  UeSimulation.create_registration_request ue1 = Raise ValueError /\
  UeSimulation.handle_rrc_message (b0 :: "002"%byte :: rest) ue1
  = (UeSimulation.set_cm_state CM_CONNECTED
       (UeSimulation.set_rrc_state RRC_CONNECTED ue1),
     Raise ValueError).
Proof.
  intros Himsi Hidle Hcb ue1.
  destruct (start_with_callback ue token gnb log Hcb)
    as (i0 & i1 & i2 & i3 & i4 & E).
  unfold ue1. rewrite E. cbn [fst snd].
  split; [reflexivity|]. split.
  { exists i0, i1, i2, i3, i4. destruct ue; reflexivity. }
  split.
  { apply default_imsi_request_raises. destruct ue; exact Himsi. }
  rewrite handle_setup_when_idle by (destruct ue; exact Hidle).
  cbv zeta. rewrite default_imsi_request_raises by (destruct ue; exact Himsi).
  reflexivity.
Qed.

Lemma default_imsi_setup_raises_witness :
  exists ue0,
    UeSimulation.new UeConfig.default "ue1" = Ok ue0 /\
    let ue := UeSimulation.set_on_rrc_message (Some []) ue0 in
    let token := ["001"%byte; "002"%byte; "003"%byte; "004"%byte; "005"%byte] in
    let ue1 := (UeSimulation.start token "gnb1" ue).1 in
    UeSimulation.on_rrc_message ue1
    = Some [["001"%byte; "001"%byte; "000"%byte; "003"%byte; "001"%byte;
             "002"%byte; "003"%byte; "004"%byte; "005"%byte]] /\
    (UeSimulation.handle_rrc_message ["001"%byte; "002"%byte] ue1).2
    = Raise ValueError /\
    UeSimulation.rrc_state
      (UeSimulation.handle_rrc_message ["001"%byte; "002"%byte] ue1).1
    = RRC_CONNECTED.
Proof.
  destruct (UeSimulation.new UeConfig.default "ue1") as [ue0|e] eqn:E;
    [|vm_compute in E; discriminate E].
  exists ue0. split; [reflexivity|].
  vm_compute in E. injection E as <-.
  intros ue token ue1.
  destruct (default_imsi_setup_raises ue token "gnb1" [] "001"%byte []
              eq_refl eq_refl eq_refl) as (_ & _ & _ & H).
  fold ue1 in H. rewrite H. cbn [fst snd].
  split; [reflexivity|]. split; reflexivity.
Defined.

(** The plain payload of the session request: PDU session type (tag 9),
    request type (tag 8), S-NSSAI (tag 0x39) and DNN (tag 0x25). *)
Lemma pdu_request_encode (bsst bsd blen : byte) (d : bytes) :
  d <> [] ->
  byte_of_Z (len d) = Some blen ->
  PduSessionEstablishmentRequest.encode
    (PduSessionEstablishmentRequest.mk 1 1
       (Some [bsst; "003"%byte; "000"%byte; bsd]) (Some d))
  = Ok (["009"%byte; "001"%byte; "001"%byte;
         "008"%byte; "001"%byte; "001"%byte;
         "057"%byte; "004"%byte; bsst; "003"%byte; "000"%byte; bsd;
         "037"%byte; blen] ++ d).
Proof.
  intros Hd Hlen. unfold PduSessionEstablishmentRequest.encode.
  cbn [PduSessionEstablishmentRequest.ie_pdu_session_type
       PduSessionEstablishmentRequest.ie_request_type
       PduSessionEstablishmentRequest.ie_s_nssai
       PduSessionEstablishmentRequest.ie_dnn].
  change (bytes_of_ints [9; 1; 1]) with (Ok ["009"%byte; "001"%byte; "001"%byte]).
  change (bytes_of_ints [8; 1; 1]) with (Ok ["008"%byte; "001"%byte; "001"%byte]).
  change (tlv 57 (Some [bsst; "003"%byte; "000"%byte; bsd]))
    with (Ok ["057"%byte; "004"%byte; bsst; "003"%byte; "000"%byte; bsd]).
  cbn [Py.bind]. unfold tlv.
  destruct d as [|x d']; [contradiction|]. cbn [truthy].
  cbn [bytes_of_ints]. change (byte_of_Z 37) with (Some "037"%byte).
  rewrite Hlen. reflexivity.
Qed.

(** C7 (as amended).  Let the UE have a callback for NAS messages installed,
    a slice/service type that is a byte and a DNN whose ASCII encoding
    exists and is 1 to 255 bytes long.  Fed a REGISTRATION_ACCEPT, it moves
    MM to REGISTERED (and SM to PENDING) and hands the callback one NAS
    message: plain header 0, type byte 0xA1, then the PDU-session-type
    element [09 01 01], the request-type element [08 01 01], the S-NSSAI
    element and the DNN element [25 len dnn].  Fed a
    PDU_SESSION_ESTABLISHMENT_ACCEPT, any UE moves SM to ACTIVE and appends
    the descriptor (id 1, ACTIVE, IPv4, configured DNN) to the recorded
    sessions.  Neither handler returns a response. *)
Theorem nas_accept_handling
    (ue : UeSimulation.t) (now : string) (data : bytes) (msg : NasMessage.t)
    (log : list bytes) (dnn : bytes) :
  NasMessage.decode data = Ok msg ->
  (NasMessage.message_type msg = REGISTRATION_ACCEPT ->
   UeSimulation.on_nas_message ue = Some log ->
   0 <= UeConfig.sst (UeSimulation.config ue) < 256 ->
   encode_ascii (UeConfig.dnn (UeSimulation.config ue)) = Ok dnn ->
   0 < len dnn < 256 ->
   exists bsst bsd blen,
     Z_of_byte bsst = UeConfig.sst (UeSimulation.config ue) /\
     Z_of_byte bsd
       = Z.land (Z.shiftr (UeConfig.sd (UeSimulation.config ue)) 16) 0xff /\
     Z_of_byte blen = len dnn /\
     let pdu := ["000"%byte; "161"%byte;
                 "009"%byte; "001"%byte; "001"%byte;
                 "008"%byte; "001"%byte; "001"%byte;
                 "057"%byte; "004"%byte; bsst; "003"%byte; "000"%byte; bsd;
                 "037"%byte; blen] ++ dnn in
     let ue' := (UeSimulation.handle_nas_message now data ue).1 in
     (UeSimulation.handle_nas_message now data ue).2 = Ok None /\
     UeSimulation.mm_state ue' = MM_REGISTERED /\
     UeSimulation.sm_state ue' = SM_PENDING /\
     UeSimulation.on_nas_message ue' = Some (log ++ [pdu]) /\
     NasMessage.decode pdu
     = Ok (NasMessage.mk 0 PDU_SESSION_ESTABLISHMENT_REQUEST (drop 2 pdu) []))
  /\
  (NasMessage.message_type msg = PDU_SESSION_ESTABLISHMENT_ACCEPT ->
   UeSimulation.handle_nas_message now data ue
   = (UeSimulation.set_state
        (UeState.set_pdu_sessions
           (UeState.pdu_sessions (UeSimulation.state ue)
            ++ [PduSession.mk 1 "ACTIVE" "IPv4"
                  (UeConfig.dnn (UeSimulation.config ue))])
           (UeSimulation.state ue))
        (UeSimulation.set_sm_state SM_ACTIVE ue),
      Ok None)).
Proof.
  intros Hdec. split.
  - intros Hty Hcb Hsst Hdnn Hlen.
    destruct (byte_of_Z_in_range _ Hsst) as (bsst & Esst & Vsst).
    destruct (byte_of_Z_land_ones
                (Z.shiftr (UeConfig.sd (UeSimulation.config ue)) 16) 8)
      as [bsd Esd]; [lia|].
    change (Z.ones 8) with 255 in Esd.
    destruct (byte_of_Z_in_range (len dnn)) as (blen & Elen & Vlen); [lia|].
    exists bsst, bsd, blen.
    split; [exact Vsst|]. split; [apply byte_of_Z_Some, Esd|].
    split; [exact Vlen|].
    assert (dnn <> []) as Hne by (intros ->; unfold len in Hlen; simpl in Hlen; lia).
    pose proof (pdu_request_encode bsst bsd blen dnn Hne Elen) as Ereq.
    cbv zeta.
    unfold UeSimulation.handle_nas_message, mbind, lift.
    rewrite Hdec, Hty. rewrite decide_True by reflexivity.
    unfold UeSimulation.start_pdu_session, UeSimulation.send_nas,
      mbind, modify, lift, get, ret.
    destruct ue as [cfg uid st mm sub rrc cm sm sec usim tms orrc onas gnb ran].
    cbn [UeSimulation.config UeSimulation.on_nas_message] in *. subst onas.
    cbn [UeSimulation.set_mm_state UeSimulation.set_mm_substate
         UeSimulation.set_state UeSimulation.set_sm_state
         UeSimulation.set_on_nas_message UeSimulation.config
         UeSimulation.state UeSimulation.mm_state UeSimulation.mm_substate
         UeSimulation.on_nas_message UeSimulation.sm_state fst snd].
    cbn [bytes_of_ints]. rewrite Esst, Esd.
    change (byte_of_Z 3) with (Some "003"%byte).
    change (byte_of_Z 0) with (Some "000"%byte).
    cbn [Py.bind]. rewrite Hdnn.
    match type of Ereq with
    | _ = ?rhs =>
        match goal with
        | |- context [PduSessionEstablishmentRequest.encode ?x] =>
            replace (PduSessionEstablishmentRequest.encode x) with rhs
              by (symmetry; exact Ereq)
        end
    end.
    cbn [UeSimulation.on_nas_message].
    unfold NasMessage.encode.
    cbn [NasMessage.security_header NasMessage.message_type
         NasMessage.plain_message bytes_of_ints].
    change (byte_of_Z 0) with (Some "000"%byte).
    change (byte_of_Z (Nas.value PDU_SESSION_ESTABLISHMENT_REQUEST))
      with (Some "161"%byte).
    cbn [Py.bind Z.eqb fst snd UeSimulation.set_on_nas_message
         UeSimulation.mm_state UeSimulation.sm_state
         UeSimulation.on_nas_message].
    repeat split.
  - intros Hty.
    unfold UeSimulation.handle_nas_message, mbind, lift, modify, ret.
    rewrite Hdec, Hty.
    rewrite decide_False by discriminate. rewrite decide_True by reflexivity.
    reflexivity.
Qed.

Lemma nas_accept_handling_witness :
  exists ue0,
    UeSimulation.new UeConfig.default "ue1" = Ok ue0 /\
    let ue := UeSimulation.set_on_nas_message (Some []) ue0 in
    let now := "2026-01-01T00:00:00" in
    let accept := ["000"%byte; "B"%byte] in
    let session := ["000"%byte; "162"%byte] in
    UeSimulation.mm_state (UeSimulation.handle_nas_message now accept ue).1
    = MM_REGISTERED /\
    (exists pdu,
       UeSimulation.on_nas_message
         (UeSimulation.handle_nas_message now accept ue).1 = Some [pdu] /\
       pdu !! 1%nat = Some "161"%byte /\
       drop 14 pdu = "037"%byte :: "008"%byte
                     :: ["i"; "n"; "t"; "e"; "r"; "n"; "e"; "t"]%byte) /\
    UeSimulation.sm_state (UeSimulation.handle_nas_message now session ue).1
    = SM_ACTIVE /\
    UeState.pdu_sessions
      (UeSimulation.state (UeSimulation.handle_nas_message now session ue).1)
    = [PduSession.mk 1 "ACTIVE" "IPv4" "internet"].
Proof.
  destruct (UeSimulation.new UeConfig.default "ue1") as [ue0|e] eqn:E;
    [|vm_compute in E; discriminate E].
  exists ue0. split; [reflexivity|].
  vm_compute in E. injection E as <-.
  intros ue now accept session.
  destruct (nas_accept_handling ue now accept
              (NasMessage.mk 0 REGISTRATION_ACCEPT [] []) []
              ["i"; "n"; "t"; "e"; "r"; "n"; "e"; "t"]%byte eq_refl)
    as [H1 _].
  destruct (H1 eq_refl eq_refl ltac:(simpl; lia) eq_refl
               ltac:(unfold len; simpl; lia))
    as (bsst & bsd & blen & _ & _ & Vlen & _ & Hmm & _ & Hcb & _).
  destruct (nas_accept_handling ue now session
              (NasMessage.mk 0 PDU_SESSION_ESTABLISHMENT_ACCEPT [] []) []
              [] eq_refl)
    as [_ H2].
  specialize (H2 eq_refl).
  split; [exact Hmm|]. split.
  - eexists. split; [exact Hcb|]. split; [reflexivity|].
    simpl. rewrite (Z_of_byte_inj blen "008"%byte Vlen). reflexivity.
  - rewrite H2. split; reflexivity.
Defined.

(** C7, as stated, fails where the code guards or cannot encode.  (1) The
    UE as constructed has no NAS callback: REGISTRATION_ACCEPT moves MM to
    REGISTERED and nothing is emitted or returned.  (2) With a callback and
    an empty DNN the emitted request has no DNN element.  (3) With a
    callback and a slice/service type of 256 the request cannot be built:
    [ValueError], nothing emitted. *)
Lemma nas_accept_counterexample :
  exists ue0 ue1 ue2,
    UeSimulation.new UeConfig.default "ue1" = Ok ue0 /\
    UeSimulation.new
      (UeConfig.mk "imsi-208930000000001" "8baf473f2f8fd09487cccbd7097c6862"
         "8e27b6af0e692e750f32667a3b14605d" "8000" 0 "" 1 0x010203 0 "" 1
         "0000") "ue1" = Ok ue1 /\
    UeSimulation.new
      (UeConfig.mk "imsi-208930000000001" "8baf473f2f8fd09487cccbd7097c6862"
         "8e27b6af0e692e750f32667a3b14605d" "8000" 0 "internet" 256 0x010203
         0 "" 1 "0000") "ue1" = Ok ue2 /\
    let now := "2026-01-01T00:00:00" in
    let accept := ["000"%byte; "B"%byte] in
    let r0 := UeSimulation.handle_nas_message now accept ue0 in
    let r1 := UeSimulation.handle_nas_message now accept
                (UeSimulation.set_on_nas_message (Some []) ue1) in
    let r2 := UeSimulation.handle_nas_message now accept
                (UeSimulation.set_on_nas_message (Some []) ue2) in
    (UeSimulation.mm_state r0.1 = MM_REGISTERED /\
     r0.2 = Ok None /\
     UeSimulation.on_nas_message r0.1 = None /\
     UeSimulation.on_rrc_message r0.1 = None) /\
    UeSimulation.on_nas_message r1.1
    = Some [["000"%byte; "161"%byte; "009"%byte; "001"%byte; "001"%byte;
             "008"%byte; "001"%byte; "001"%byte; "057"%byte; "004"%byte;
             "001"%byte; "003"%byte; "000"%byte; "001"%byte]] /\
    (r2.2 = Raise ValueError /\
     UeSimulation.mm_state r2.1 = MM_REGISTERED /\
     UeSimulation.on_nas_message r2.1 = Some []).
Proof.
  do 3 eexists. split; [reflexivity|]. split; [reflexivity|].
  split; [reflexivity|]. vm_compute. repeat split.
Qed.

(** ** The gNB entity *)

(** [UeSimulation(UeConfig(), ue_id)] never raises: the default key, OPc
    and AMF field are hexadecimal. *)
Lemma new_default_ue (ue_id : string) :
  exists usim,
    UeSimulation.new UeConfig.default ue_id
    = Ok (UeSimulation.mk UeConfig.default ue_id (UeState.new ue_id)
            MM_NULL MM_DEREGISTERED_NORMAL_SERVICE RRC_IDLE CM_IDLE SM_NULL
            None usim TimerManager.new None None None None).
Proof. eexists. reflexivity. Qed.

(** C5 (as amended).  For a [ue_id] that is not in the table,
    [handle_ue_rrc] creates a UE with the default configuration, stores it
    under [ue_id], counts it, and delegates the message to it: the table
    then holds that UE as its RRC handler left it, the other entries are
    untouched, and the outcome is the handler's (an absent or empty response
    becomes the empty byte string).  [handle_ue_nas] does not create
    anything: it returns the empty byte string and leaves the table and the
    UE count as they were.  Both count the message. *)
Theorem gnb_first_contact
    (g : GnbSimulation.t) (ue_id : string) (data : bytes) (now : string) :
  GnbSimulation.ues g !! ue_id = None ->
  (exists ue0,
     UeSimulation.new UeConfig.default ue_id = Ok ue0 /\
     let g' := (GnbSimulation.handle_ue_rrc ue_id data g).1 in
     GnbSimulation.ues g' !! ue_id
     = Some (UeSimulation.handle_rrc_message data ue0).1 /\
     (forall k, k <> ue_id ->
                GnbSimulation.ues g' !! k = GnbSimulation.ues g !! k) /\
     (GnbSimulation.handle_ue_rrc ue_id data g).2
     = (let? response := (UeSimulation.handle_rrc_message data ue0).2 in
        Ok (GnbSimulation.or_empty response)) /\
     Metrics.messages_exchanged (GnbSimulation.metrics g')
     = Metrics.messages_exchanged (GnbSimulation.metrics g) + 1 /\
     Metrics.total_ues (GnbSimulation.metrics g')
     = Metrics.total_ues (GnbSimulation.metrics g) + 1) /\
  (GnbSimulation.handle_ue_nas now ue_id data g
   = (GnbSimulation.count_message g, Ok []) /\
   GnbSimulation.ues (GnbSimulation.count_message g) = GnbSimulation.ues g /\
   Metrics.messages_exchanged
     (GnbSimulation.metrics (GnbSimulation.count_message g))
   = Metrics.messages_exchanged (GnbSimulation.metrics g) + 1 /\
   Metrics.total_ues (GnbSimulation.metrics (GnbSimulation.count_message g))
   = Metrics.total_ues (GnbSimulation.metrics g)).
Proof.
  intros Hnew. split.
  - destruct (new_default_ue ue_id) as [usim E].
    eexists. split; [exact E|].
    unfold GnbSimulation.handle_ue_rrc, GnbSimulation.call_ue,
      mbind, modify, lift, get, ret.
    destruct g as [cfg gid st ues gs ns amf mt]. simpl in Hnew.
    cbn [GnbSimulation.count_message GnbSimulation.set_metrics
         GnbSimulation.ues GnbSimulation.metrics].
    rewrite Hnew, E.
    destruct (UeSimulation.handle_rrc_message data _) as [ue' [resp|e]];
      cbn [fst snd GnbSimulation.ues GnbSimulation.set_ues
           GnbSimulation.count_ue GnbSimulation.set_metrics
           GnbSimulation.metrics Metrics.set_total_ues
           Metrics.set_messages_exchanged Metrics.messages_exchanged
           Metrics.total_ues Py.bind];
      (split; [apply lookup_insert_eq|]);
      (split; [intros k Hk; rewrite !lookup_insert_ne by congruence;
               reflexivity|]);
      repeat split.
  - unfold GnbSimulation.handle_ue_nas, mbind, modify, get, ret.
    destruct g as [cfg gid st ues gs ns amf mt]. simpl in Hnew.
    cbn [GnbSimulation.count_message GnbSimulation.set_metrics
         GnbSimulation.ues GnbSimulation.metrics].
    rewrite Hnew. repeat split.
Qed.

Lemma gnb_first_contact_witness :
  let g := GnbSimulation.new GnbConfig.default "gnb1" in
  let release := ["001"%byte; "006"%byte] in
  (exists ue,
     GnbSimulation.ues (GnbSimulation.handle_ue_rrc "ue1" release g).1 !! "ue1"
     = Some ue /\ UeSimulation.rrc_state ue = RRC_IDLE) /\
  Metrics.total_ues
    (GnbSimulation.metrics (GnbSimulation.handle_ue_rrc "ue1" release g).1)
  = 1 /\
  GnbSimulation.handle_ue_nas "now" "ue1" ["000"%byte; "B"%byte] g
  = (GnbSimulation.count_message g, Ok []).
Proof.
  intros g release.
  destruct (gnb_first_contact g "ue1" release "now" eq_refl)
    as [(ue0 & E & Hin & _ & _ & _ & Htot) _].
  destruct (gnb_first_contact g "ue1" ["000"%byte; "B"%byte] "now" eq_refl)
    as [_ (Hnas & _)].
  split; [|split; [exact Htot | exact Hnas]].
  eexists. split; [exact Hin|].
  vm_compute in E. injection E as <-. reflexivity.
Defined.

(** C5, as stated, fails for [handle_ue_nas]: on first contact the table
    stays empty and no UE is counted; only the message is. *)
Lemma handle_ue_nas_counterexample :
  let g := GnbSimulation.new GnbConfig.default "gnb1" in
  let r := GnbSimulation.handle_ue_nas "2026-01-01T00:00:00" "ue1"
             ["000"%byte; "B"%byte] g in
  GnbSimulation.ues g !! "ue1" = None /\
  GnbSimulation.ues r.1 !! "ue1" = None /\
  GnbSimulation.ues r.1 = ∅ /\
  Metrics.total_ues (GnbSimulation.metrics r.1) = 0 /\
  Metrics.messages_exchanged (GnbSimulation.metrics r.1) = 1 /\
  r.2 = Ok [].
Proof. repeat split. Qed.

(* ===================================================================== *)
(** * Further properties of the code *)
(* ===================================================================== *)

(** ** Byte buffers *)

Lemma from_bytes_big_acc (b : bytes) (acc : Z) :
  fold_left (fun acc x => acc * 256 + Z_of_byte x) b acc
  = acc * 256 ^ Z.of_nat (length b) + from_bytes_big b.
Proof.
  unfold from_bytes_big. revert acc.
  induction b as [|x b IH]; intros acc; [simpl; lia|].
  cbn [fold_left length]. rewrite IH, (IH (0 * 256 + Z_of_byte x)).
  rewrite Nat2Z.inj_succ, Z.pow_succ_r by lia. lia.
Qed.

Lemma from_bytes_big_cons (x : byte) (b : bytes) :
  from_bytes_big (x :: b)
  = Z_of_byte x * 256 ^ Z.of_nat (length b) + from_bytes_big b.
Proof.
  unfold from_bytes_big at 1. cbn [fold_left].
  rewrite from_bytes_big_acc. lia.
Qed.

(** The [n] big-endian digits of [v] are bytes and read back as [v] modulo
    [256 ^ n]. *)
Lemma be_digits_value (n : nat) (v : Z) :
  exists b,
    bytes_of_ints (be_digits n v) = Ok b /\
    length b = n /\
    from_bytes_big b = v mod 256 ^ Z.of_nat n.
Proof.
  induction n as [|k (b & Eb & Lb & Vb)].
  - exists []. repeat split. simpl. rewrite Z.mod_1_r. reflexivity.
  - destruct (byte_of_Z_in_range ((v / 256 ^ Z.of_nat k) mod 256))
      as (d & Ed & Vd); [apply Z.mod_pos_bound; lia|].
    exists (d :: b). cbn [be_digits bytes_of_ints]. rewrite Ed, Eb.
    split; [reflexivity|]. split; [simpl; lia|].
    rewrite from_bytes_big_cons, Vd, Vb, Lb.
    rewrite Nat2Z.inj_succ, Z.pow_succ_r by lia.
    rewrite (Z.mul_comm 256), Z.rem_mul_r by lia. lia.
Qed.

(** X1.  [OctetString.from_number(value, length)] followed by [to_number]
    gives [value] back, in a buffer of [length] bytes, when
    [0 <= value < 256 ** length]; any other value is an [OverflowError] and
    a negative length a [ValueError]. *)
Theorem octet_string_number_roundtrip
    (self : OctetString.t) (value length : Z) :
  (0 <= length -> 0 <= value < 256 ^ length ->
   exists o,
     OctetString.from_number value length self = Ok o /\
     OctetString.to_number o = value /\
     OctetString.size o = length) /\
  (0 <= length -> ~ (0 <= value < 256 ^ length) ->
   OctetString.from_number value length self = Raise OverflowError) /\
  (length < 0 ->
   OctetString.from_number value length self = Raise ValueError).
Proof.
  unfold OctetString.from_number, to_bytes_big.
  split; [|split].
  - intros Hl Hv.
    replace (length <? 0) with false by (symmetry; apply Z.ltb_ge; lia).
    rewrite Z2Nat.id by lia.
    replace ((0 <=? value) && (value <? 256 ^ length)) with true
      by (symmetry; apply andb_true_iff; split;
          [apply Z.leb_le | apply Z.ltb_lt]; lia).
    destruct (be_digits_value (Z.to_nat length) value) as (b & Eb & Lb & Vb).
    rewrite Eb. exists (OctetString.mk b). split; [reflexivity|].
    unfold OctetString.to_number, OctetString.size, len. simpl.
    rewrite Vb, Lb, Z2Nat.id by lia. rewrite Z.mod_small by lia. lia.
  - intros Hl Hv.
    replace (length <? 0) with false by (symmetry; apply Z.ltb_ge; lia).
    rewrite Z2Nat.id by lia.
    replace ((0 <=? value) && (value <? 256 ^ length)) with false;
      [reflexivity|].
    symmetry. apply andb_false_iff.
    destruct (Z.leb_spec 0 value); [right|left; reflexivity].
    apply Z.ltb_ge. lia.
  - intros Hl.
    replace (length <? 0) with true by (symmetry; apply Z.ltb_lt; lia).
    reflexivity.
Qed.

Lemma octet_string_number_roundtrip_witness :
  exists o,
    OctetString.from_number 258 4 (OctetString.mk []) = Ok o /\
    OctetString.to_number o = 258 /\
    OctetString.from_number 65536 2 (OctetString.mk []) = Raise OverflowError /\
    OctetString.from_number 1 (-1) (OctetString.mk []) = Raise ValueError.
Proof.
  destruct (octet_string_number_roundtrip (OctetString.mk []) 258 4)
    as [H _].
  destruct (H ltac:(lia) ltac:(lia)) as (o & E & V & _).
  exists o. split; [exact E|]. split; [exact V|]. split.
  - apply (octet_string_number_roundtrip (OctetString.mk []) 65536 2); lia.
  - apply (octet_string_number_roundtrip (OctetString.mk []) 1 (-1)); lia.
Defined.

Lemma fromhex_hex (b : bytes) : fromhex (Py.hex b) = Ok b.
Proof.
  pose proof (fromhex_hex_prefix (length b) b) as H.
  rewrite firstn_all in H.
  replace (str_take (2 * length b) (Py.hex b)) with (Py.hex b) in H;
    [exact H|].
  clear H. induction b as [|x b IH]; [reflexivity|].
  replace (2 * length (x :: b))%nat with (S (S (2 * length b)))
    by (simpl; lia).
  cbn [Py.hex str_take]. rewrite <- IH. reflexivity.
Qed.

Lemma hex_length (b : bytes) :
  String.length (Py.hex b) = (2 * length b)%nat.
Proof. induction b as [|x b IH]; [reflexivity|]. simpl. rewrite IH. lia. Qed.

(** X2.  [OctetString.hex] writes two digits per byte and [from_hex] reads
    them back: [OctetString().from_hex(o.hex())] never raises and equals
    [o]. *)
Theorem octet_string_hex_roundtrip (o self : OctetString.t) :
  OctetString.from_hex (OctetString.hex o) self = Ok o /\
  Z.of_nat (String.length (OctetString.hex o)) = 2 * OctetString.size o.
Proof.
  destruct o as [d]. unfold OctetString.from_hex, OctetString.hex,
    OctetString.size, len. simpl.
  rewrite fromhex_hex, hex_length. split; [reflexivity | lia].
Qed.

(** X3.  [OctetString.reserve(size)] never raises and never truncates: the
    buffer keeps its content as a prefix, is padded with zero bytes, and its
    size afterwards is the larger of the old size and [size]. *)
Theorem octet_string_reserve (self : OctetString.t) (size : Z) :
  exists o,
    OctetString.reserve size self = Ok o /\
    OctetString.size o = Z.max (OctetString.size self) size /\
    OctetString._data o
    = OctetString._data self
      ++ replicate (Z.to_nat (size - OctetString.size self)) "000"%byte.
Proof.
  destruct self as [d].
  unfold OctetString.reserve, OctetString.size, zeros. simpl.
  destruct (Z.ltb_spec (len d) size) as [Hlt|Hge].
  - replace (size - len d <? 0) with false by (symmetry; apply Z.ltb_ge; lia).
    eexists. split; [reflexivity|]. simpl. split; [|reflexivity].
    unfold len in *. rewrite length_app, length_replicate. lia.
  - exists (OctetString.mk d). split; [reflexivity|]. simpl.
    replace (Z.to_nat (size - len d)) with 0%nat by lia.
    simpl. rewrite app_nil_r. split; [lia | reflexivity].
Qed.

(** ** More on timers *)



Section TimerInvariants.

Implicit Types (m : TimerManager.t) (k : Z).

Lemma below_new : TimerManager.ids_below_next TimerManager.new.
Proof. intros k tm H. simpl in H. rewrite lookup_empty in H. discriminate. Qed.

Lemma below_allocate m timeout data :
  TimerManager.ids_below_next m ->
  TimerManager.ids_below_next (TimerManager.allocate timeout data m).1.
Proof.
  intros Hb k tm. unfold TimerManager.allocate. simpl.
  rewrite lookup_insert_Some. intros [[<- _]|[_ H]]; [lia|].
  specialize (Hb k tm H). lia.
Qed.

Lemma below_update m k tm tm' :
  TimerManager.ids_below_next m ->
  TimerManager.timers m !! k = Some tm ->
  TimerManager.ids_below_next
    (TimerManager.mk (<[k := tm']> (TimerManager.timers m))
                     (TimerManager.next_id m)).
Proof.
  intros Hb Hk k' t'. simpl.
  rewrite lookup_insert_Some. intros [[<- _]|[_ H]]; eauto.
Qed.

Lemma below_check_expired m clock :
  TimerManager.ids_below_next m ->
  TimerManager.ids_below_next (TimerManager.check_expired clock m).1.
Proof.
  intros Hb k tm. unfold TimerManager.check_expired. simpl.
  rewrite lookup_foldl_delete. case_decide; [discriminate|]. apply Hb.
Qed.

(** Both invariants hold in every manager that the methods can produce. *)
Lemma reachable_invariants m :
  TimerManager.reachable m ->
  TimerManager.wf m /\ TimerManager.ids_below_next m.
Proof.
  induction 1 as [|m timeout data _ [Hw Hb]|m now k _ [Hw Hb]|m k _ [Hw Hb]
                  |m k _ [Hw Hb]|m clock _ [Hw Hb]|m _ _].
  - split; [apply wf_new | apply below_new].
  - split; [apply wf_allocate, Hw | apply below_allocate, Hb].
  - split; [apply wf_start, Hw|].
    unfold TimerManager.start.
    destruct (TimerManager.timers m !! k) eqn:E; [|exact Hb].
    eapply below_update; eauto.
  - split; [apply wf_stop, Hw|].
    unfold TimerManager.stop.
    destruct (TimerManager.timers m !! k) eqn:E; [|exact Hb].
    eapply below_update; eauto.
  - split; [apply wf_expire, Hw|].
    unfold TimerManager.expire.
    destruct (TimerManager.timers m !! k) eqn:E; [|exact Hb].
    eapply below_update; eauto.
  - split; [apply wf_check_expired, Hw | apply below_check_expired, Hb].
  - split; [apply wf_clear | apply below_new].
Qed.

(** X5.  In a manager produced by the methods, [allocate] returns an id
    that no stored timer has, stores a stopped timer with the requested
    timeout and data under it, leaves every other timer alone, and the next
    [allocate] returns the following integer.  Every stored timer is stored
    under its own id. *)
Theorem allocate_returns_fresh_id
    m (timeout : Z) (data : option (gmap string Any)) :
  TimerManager.reachable m ->
  let m' := (TimerManager.allocate timeout data m).1 in
  let id := (TimerManager.allocate timeout data m).2 in
  TimerManager.get id m = None /\
  TimerManager.get id m' = Some (Timer.mk id timeout None data) /\
  (forall k, k <> id -> TimerManager.get k m' = TimerManager.get k m) /\
  (forall timeout' data',
     (TimerManager.allocate timeout' data' m').2 = id + 1) /\
  (forall k tm, TimerManager.get k m' = Some tm -> Timer.id tm = k /\ k <= id).
Proof.
  intros Hr m' id.
  destruct (reachable_invariants m Hr) as [Hw Hb].
  split; [|split; [|split; [|split]]].
  - unfold TimerManager.get, id. simpl.
    destruct (TimerManager.timers m !! TimerManager.next_id m) eqn:E;
      [|reflexivity].
    specialize (Hb _ _ E). lia.
  - unfold TimerManager.get, m', id. simpl. apply lookup_insert_eq.
  - intros k Hk. unfold TimerManager.get, m'. simpl.
    apply lookup_insert_ne. unfold id in Hk. simpl in Hk. congruence.
  - reflexivity.
  - intros k tm H.
    split; [apply (wf_allocate m timeout data Hw), H|].
    pose proof (below_allocate m timeout data Hb k tm H) as Hk.
    unfold id. simpl in *. lia.
Qed.

Lemma allocate_returns_fresh_id_witness :
  let m := (TimerManager.allocate 5 None TimerManager.new).1 in
  (TimerManager.allocate 7 None m).2 = 2 /\
  TimerManager.get 2 m = None /\
  TimerManager.get 1 (TimerManager.allocate 7 None m).1
  = Some (Timer.mk 1 5 None None).
Proof.
  intros m.
  assert (TimerManager.reachable m) as Hr
    by (apply TimerManager.reach_allocate, TimerManager.reach_new).
  destruct (allocate_returns_fresh_id m 7 None Hr) as (H1 & _ & H3 & _).
  split; [reflexivity|]. split; [exact H1|].
  rewrite H3 by (simpl; lia). reflexivity.
Defined.

(** X6.  [start], [stop] and [expire] on an id that is not in the manager
    return [False] and change nothing.  On a stored id they return [True]
    and assign only [started_at] of that timer: the current time, [None],
    and [datetime.min] respectively. *)
Theorem start_stop_expire_by_id m (now : datetime) k :
  (TimerManager.get k m = None ->
   TimerManager.start now k m = (m, false) /\
   TimerManager.stop k m = (m, false) /\
   TimerManager.expire k m = (m, false)) /\
  (forall tm, TimerManager.get k m = Some tm ->
   ((TimerManager.start now k m).2 = true /\
    TimerManager.get k (TimerManager.start now k m).1
    = Some (Timer.mk (Timer.id tm) (Timer.timeout tm) (Some now)
                     (Timer.data tm))) /\
   ((TimerManager.stop k m).2 = true /\
    TimerManager.get k (TimerManager.stop k m).1
    = Some (Timer.mk (Timer.id tm) (Timer.timeout tm) None (Timer.data tm))) /\
   ((TimerManager.expire k m).2 = true /\
    TimerManager.get k (TimerManager.expire k m).1
    = Some (Timer.mk (Timer.id tm) (Timer.timeout tm) (Some datetime_min)
                     (Timer.data tm))) /\
   forall k', k' <> k ->
     TimerManager.get k' (TimerManager.start now k m).1 = TimerManager.get k' m /\
     TimerManager.get k' (TimerManager.stop k m).1 = TimerManager.get k' m /\
     TimerManager.get k' (TimerManager.expire k m).1 = TimerManager.get k' m).
Proof.
  unfold TimerManager.get, TimerManager.start, TimerManager.stop,
    TimerManager.expire.
  split.
  - intros ->. repeat split.
  - intros tm ->. simpl. rewrite !lookup_insert_eq.
    repeat split; apply lookup_insert_ne; congruence.
Qed.

Lemma start_stop_expire_by_id_witness :
  let m := (TimerManager.allocate 5 None TimerManager.new).1 in
  TimerManager.start 100 9 m = (m, false) /\
  (TimerManager.stop 1 (TimerManager.start 100 1 m).1).2 = true.
Proof.
  intros m. split.
  - apply (start_stop_expire_by_id m 100 9). reflexivity.
  - destruct (start_stop_expire_by_id (TimerManager.start 100 1 m).1 100 1)
      as [_ H].
    destruct (H (Timer.mk 1 5 (Some 100) None) eq_refl) as (_ & [H' _] & _).
    exact H'.
Defined.

Lemma filter_nil_forall {A} (f : A -> bool) (l : list A) :
  (forall x, x ∈ l -> f x = false) -> List.filter f l = [].
Proof.
  induction l as [|a l IH]; intros H; [reflexivity|]. simpl.
  rewrite (H a) by left. apply IH. intros x Hx. apply H. right. exact Hx.
Qed.

(** X7.  [check_expired] returns exactly the stored timers that are
    expired when examined and keeps exactly the others, without touching
    them or [next_id]; called again with the same clock readings it returns
    the empty list and changes nothing. *)
Theorem check_expired_exact m (clock : Z -> datetime) :
  let m' := (TimerManager.check_expired clock m).1 in
  let expired := (TimerManager.check_expired clock m).2 in
  (forall tm, tm ∈ expired <->
     exists k, TimerManager.get k m = Some tm /\
               Timer.is_expired (clock k) tm = true) /\
  (forall k, TimerManager.get k m'
     = match TimerManager.get k m with
       | Some tm => if Timer.is_expired (clock k) tm then None else Some tm
       | None => None
       end) /\
  TimerManager.next_id m' = TimerManager.next_id m /\
  TimerManager.check_expired clock m' = (m', []).
Proof.
  intros m' expired.
  assert (forall k, TimerManager.get k m'
     = match TimerManager.get k m with
       | Some tm => if Timer.is_expired (clock k) tm then None else Some tm
       | None => None
       end) as Hget.
  { intros k. unfold m', TimerManager.get, TimerManager.check_expired. simpl.
    rewrite lookup_foldl_delete.
    destruct (TimerManager.timers m !! k) as [tm|] eqn:E.
    - destruct (Timer.is_expired (clock k) tm) eqn:X.
      + rewrite decide_True; [reflexivity|].
        apply list_elem_of_fmap. exists (k, tm). split; [reflexivity|].
        apply elem_of_hits. auto.
      + rewrite decide_False; [reflexivity|].
        intros H. apply list_elem_of_fmap in H as ([k0 t0] & -> & H).
        apply elem_of_hits in H as [H1 H2]. simpl in *. congruence.
    - case_decide; reflexivity. }
  split; [|split; [exact Hget|split; [reflexivity|]]].
  - intros tm. unfold expired, TimerManager.check_expired. simpl.
    rewrite list_elem_of_fmap. split.
    + intros ([k t0] & -> & H). exists k. apply elem_of_hits, H.
    + intros (k & H1 & H2). exists (k, tm). split; [reflexivity|].
      apply elem_of_hits. auto.
  - clearbody m'. unfold TimerManager.check_expired.
    rewrite filter_nil_forall.
    + simpl. destruct m' as [d n]. reflexivity.
    + intros [k tm] H. apply elem_of_map_to_list in H.
      change (TimerManager.get k m' = Some tm) in H.
      rewrite Hget in H. simpl.
      destruct (TimerManager.get k m) as [t0|]; [|discriminate].
      destruct (Timer.is_expired (clock k) t0) eqn:X; [discriminate|].
      congruence.
Qed.



(** X9.  A stopped timer is safe from [check_expired] whatever the clock
    says: it stays in the manager and, timers being stored under their own
    id, no returned timer has its id.  [running] lists exactly the stored
    timers that have a start time, so it does not list it either. *)
Theorem stopped_timer_is_kept m (clock : Z -> datetime) k (tm : Timer.t) :
  TimerManager.wf m ->
  TimerManager.get k m = Some tm ->
  let m1 := (TimerManager.stop k m).1 in
  TimerManager.get k (TimerManager.check_expired clock m1).1
  = Some (Timer.stop tm) /\
  (forall x, x ∈ (TimerManager.check_expired clock m1).2 -> Timer.id x <> k) /\
  (forall x, x ∈ TimerManager.running m1 <->
     exists k', TimerManager.get k' m1 = Some x /\ Timer.started_at x <> None) /\
  (forall x, x ∈ TimerManager.running m1 -> Timer.id x <> k).
Proof.
  intros Hwf Hget m1.
  destruct (start_stop_expire_by_id m 0 k) as [_ H].
  destruct (H tm Hget) as (_ & [_ Hk] & _). fold m1 in Hk.
  assert (TimerManager.wf m1) as Hwf1 by (apply wf_stop, Hwf).
  destruct (check_expired_exact m1 clock) as (Hin & Hkeep & _).
  assert (forall x, x ∈ TimerManager.running m1 <->
     exists k', TimerManager.get k' m1 = Some x /\ Timer.started_at x <> None)
    as Hrun.
  { intros x. unfold TimerManager.running.
    rewrite list_elem_of_In, filter_In, <- list_elem_of_In, list_elem_of_fmap.
    unfold Timer.is_running. split.
    - intros [([k' x'] & -> & Hx) Hs]. exists k'. simpl in *.
      apply elem_of_map_to_list in Hx. split; [exact Hx|].
      destruct (Timer.started_at x'); [discriminate | discriminate].
    - intros (k' & Hx & Hs). split.
      + exists (k', x). split; [reflexivity|].
        apply elem_of_map_to_list, Hx.
      + destruct (Timer.started_at x); [reflexivity | contradiction]. }
  split; [|split; [|split; [exact Hrun|]]].
  - rewrite Hkeep, Hk. reflexivity.
  - intros x Hx Hid. apply Hin in Hx as (k' & Hx & Hexp).
    pose proof (Hwf1 k' x Hx) as Hk'. rewrite Hid in Hk'. subst k'.
    unfold TimerManager.get in Hk, Hx. rewrite Hk in Hx.
    injection Hx as <-. discriminate Hexp.
  - intros x Hx Hid. apply Hrun in Hx as (k' & Hx & Hs).
    pose proof (Hwf1 k' x Hx) as Hk'. rewrite Hid in Hk'. subst k'.
    unfold TimerManager.get in Hk, Hx. rewrite Hk in Hx.
    injection Hx as <-. apply Hs. reflexivity.
Qed.

Lemma stopped_timer_is_kept_witness :
  let m := (TimerManager.start 100 1
              (TimerManager.allocate 5 None TimerManager.new).1).1 in
  let m1 := (TimerManager.stop 1 m).1 in
  TimerManager.get 1 (TimerManager.check_expired (fun _ => 1000) m1).1
  = Some (Timer.mk 1 5 None None).
Proof.
  intros m m1.
  assert (TimerManager.wf m) as Hwf by (apply wf_start, wf_allocate, wf_new).
  destruct (stopped_timer_is_kept m (fun _ => 1000) 1
              (Timer.mk 1 5 (Some 100) None) Hwf eq_refl) as [H _].
  exact H.
Defined.

End TimerInvariants.

(** ** More on the NAS codec *)

(** X10.  An input shorter than two bytes is not an error: both decoders
    return the default record (a plain REGISTRATION_REQUEST, an
    RRC_SETUP_REQUEST with transaction 0) with an empty payload, and both UE
    handlers then do nothing and answer nothing. *)
Theorem short_input_is_default
    (data : bytes) (ue : UeSimulation.t) (now : string) :
  (length data < 2)%nat ->
  NasMessage.decode data = Ok (NasMessage.mk 0 REGISTRATION_REQUEST [] []) /\
  RrcMessage.decode data = Ok (RrcMessage.mk 0 RRC_SETUP_REQUEST []) /\
  UeSimulation.handle_nas_message now data ue = (ue, Ok None) /\
  UeSimulation.handle_rrc_message data ue = (ue, Ok None).
Proof.
  intros Hlen.
  assert (data = [] \/ exists b, data = [b]) as [-> | [b ->]].
  { destruct data as [|a [|b r]]; eauto. simpl in Hlen. lia. }
  - repeat split.
    unfold UeSimulation.handle_rrc_message, mbind, lift, get, ret. simpl.
    destruct (decide (UeSimulation.rrc_state ue = RRC_IDLE)); [reflexivity|].
    destruct (decide (UeSimulation.rrc_state ue = RRC_CONNECTED)); reflexivity.
  - repeat split.
    unfold UeSimulation.handle_rrc_message, mbind, lift, get, ret. simpl.
    destruct (decide (UeSimulation.rrc_state ue = RRC_IDLE)); [reflexivity|].
    destruct (decide (UeSimulation.rrc_state ue = RRC_CONNECTED)); reflexivity.
Qed.

Lemma short_input_is_default_witness :
  NasMessage.decode [] = Ok (NasMessage.mk 0 REGISTRATION_REQUEST [] []) /\
  RrcMessage.decode ["001"%byte] = Ok (RrcMessage.mk 0 RRC_SETUP_REQUEST []).
Proof.
  split.
  - apply (short_input_is_default []
             (UeSimulation.mk UeConfig.default "" (UeState.new "") MM_NULL
                MM_DEREGISTERED_NORMAL_SERVICE RRC_IDLE CM_IDLE SM_NULL None
                (UsimContext.mk "" [] [] [] 0) TimerManager.new None None None
                None) ""). simpl. lia.
  - apply (short_input_is_default ["001"%byte]
             (UeSimulation.mk UeConfig.default "" (UeState.new "") MM_NULL
                MM_DEREGISTERED_NORMAL_SERVICE RRC_IDLE CM_IDLE SM_NULL None
                (UsimContext.mk "" [] [] [] 0) TimerManager.new None None None
                None) ""). simpl. lia.
Defined.

(** The encoding of any NAS message whose header is a byte: header byte,
    type byte, then the payload selected by the header. *)
Lemma nas_encode_any (m : NasMessage.t) :
  0 <= NasMessage.security_header m <= 255 ->
  exists b0 b1,
    Z_of_byte b0 = NasMessage.security_header m /\
    Z_of_byte b1 = Nas.value (NasMessage.message_type m) /\
    NasMessage.encode m
    = Ok (b0 :: b1 :: (if NasMessage.security_header m =? 0
                       then NasMessage.plain_message m
                       else NasMessage.encrypted_message m)).
Proof.
  intros Hsh.
  destruct (byte_of_Z_in_range (NasMessage.security_header m))
    as (b0 & E0 & V0); [lia|].
  destruct (byte_of_Z_in_range (Nas.value (NasMessage.message_type m))
              (nas_value_range _)) as (b1 & E1 & V1).
  exists b0, b1. split; [exact V0|]. split; [exact V1|].
  unfold NasMessage.encode. rewrite (bytes_of_ints_pair _ _ b0 b1 E0 E1).
  cbn [Py.bind]. destruct (NasMessage.security_header m =? 0); reflexivity.
Qed.

Lemma nas_encode_bad_header (m : NasMessage.t) :
  ~ (0 <= NasMessage.security_header m <= 255) ->
  NasMessage.encode m = Raise ValueError.
Proof.
  intros Hsh. unfold NasMessage.encode. cbn [bytes_of_ints].
  rewrite byte_of_Z_out_of_range by lia. reflexivity.
Qed.

(** X11.  The NAS container round-trips for every security header that is
    a byte, provided the payload field that the header does not select is
    empty: with a non-zero header the payload travels in
    [encrypted_message] and is decoded into [encrypted_message].  A header
    outside 0..255 makes [encode] raise [ValueError]. *)
Theorem nas_container_roundtrip_any_header (m : NasMessage.t) :
  (0 <= NasMessage.security_header m <= 255 ->
   (NasMessage.security_header m = 0 -> NasMessage.encrypted_message m = []) ->
   (NasMessage.security_header m <> 0 -> NasMessage.plain_message m = []) ->
   exists bs, NasMessage.encode m = Ok bs /\ NasMessage.decode bs = Ok m) /\
  (~ (0 <= NasMessage.security_header m <= 255) ->
   NasMessage.encode m = Raise ValueError).
Proof.
  split; [|apply nas_encode_bad_header].
  intros Hsh H0 H1.
  destruct (nas_encode_any m Hsh) as (b0 & b1 & V0 & V1 & E).
  eexists. split; [exact E|].
  unfold NasMessage.decode. rewrite V0, V1, nas_of_value_value.
  cbn [Py.bind fst snd drop].
  destruct m as [sh ty plain enc]. simpl in *.
  destruct (Z.eqb_spec sh 0) as [->|Hne].
  - rewrite H0 by reflexivity. reflexivity.
  - rewrite H1 by exact Hne. reflexivity.
Qed.

Lemma nas_container_roundtrip_any_header_witness :
  (exists bs,
     NasMessage.encode (NasMessage.mk 2 REGISTRATION_ACCEPT [] ["007"%byte])
     = Ok bs /\
     NasMessage.decode bs
     = Ok (NasMessage.mk 2 REGISTRATION_ACCEPT [] ["007"%byte])) /\
  NasMessage.encode (NasMessage.mk 256 REGISTRATION_ACCEPT [] [])
  = Raise ValueError.
Proof.
  split.
  - apply (nas_container_roundtrip_any_header
             (NasMessage.mk 2 REGISTRATION_ACCEPT [] ["007"%byte]));
      simpl; [lia | lia | reflexivity].
  - apply (nas_container_roundtrip_any_header
             (NasMessage.mk 256 REGISTRATION_ACCEPT [] [])). simpl. lia.
Defined.

Lemma byte_of_Z_lor_nibble (hi x : Z) :
  (hi = 32 \/ hi = 64) ->
  exists b, byte_of_Z (Z.lor hi (Z.land x 15)) = Some b /\
            Z_of_byte b = Z.lor hi (Z.land x 15).
Proof.
  intros Hhi. apply byte_of_Z_in_range.
  change 15 with (Z.ones 4). rewrite Z.land_ones by lia.
  pose proof (Z.mod_pos_bound x (2 ^ 4) ltac:(lia)) as Hx.
  change (2 ^ 4) with 16 in *.
  set (n := x mod 16) in *. clearbody n.
  destruct n as [|p|p];
    [destruct Hhi as [->| ->]; vm_compute; split; congruence | | lia].
  destruct Hhi as [->| ->];
    do 4 (try (destruct p as [p|p|]; try lia));
    vm_compute; split; congruence.
Qed.

(** X12.  What [NasSecurity.encode_nas_message] produces cannot be read
    back by [NasSecurity.decode_nas_message].  With a non-zero algorithm id
    the second byte of the protected form is 0; with algorithm id 0 and a
    plain message (header 0) the form is a zero byte followed by the plain
    encoding, so its second byte is the header 0.  The decoder takes the
    second byte for the message type and the enum lookup raises
    [ValueError]. *)
Theorem protected_message_is_not_decodable
    (ctx : NasSecurityContext.t) (msg : NasMessage.t)
    (algorithm_type algorithm_id : Z) (data : bytes) :
  algorithm_id <> 0 \/ NasMessage.security_header msg = 0 ->
  NasSecurity.encode_nas_message ctx msg algorithm_type algorithm_id = Ok data ->
  data !! 1%nat = Some "000"%byte /\
  NasSecurity.decode_nas_message ctx data = Raise ValueError.
Proof.
  intros Hcase Henc.
  assert (forall b0 rest,
            NasSecurity.decode_nas_message ctx (b0 :: "000"%byte :: rest)
            = Raise ValueError) as Hdec by reflexivity.
  unfold NasSecurity.encode_nas_message in Henc.
  destruct (NasMessage.encode msg) as [encoded|e] eqn:E; [|discriminate].
  cbn [Py.bind] in Henc.
  destruct (Z.eqb_spec algorithm_id 0) as [Hz|Hnz].
  - (* null algorithm: the message is plain *)
    destruct Hcase as [Hc|Hsh]; [contradiction|].
    assert (exists b1 rest, encoded = "000"%byte :: b1 :: rest)
      as (b1 & rest & ->).
    { destruct (nas_encode_any msg ltac:(lia)) as (b0 & b1 & V0 & _ & E').
      rewrite E in E'. injection E' as ->. rewrite Hsh in V0.
      rewrite (Z_of_byte_inj b0 "000"%byte V0). eauto. }
    subst algorithm_id. unfold NasSecurity.EIA0, NasSecurity.EEA0 in Henc.
    simpl in Henc.
    destruct (algorithm_type =? 0); injection Henc as <-;
      (split; [reflexivity | apply Hdec]).
  - unfold NasSecurity.EIA0, NasSecurity.EEA0 in Henc.
    replace (algorithm_id =? 0) with false in Henc
      by (symmetry; apply Z.eqb_neq, Hnz).
    destruct (algorithm_type =? 0).
    + destruct (byte_of_Z_lor_nibble 64 algorithm_id) as (h & Eh & _); [auto|].
      cbn [bytes_of_ints] in Henc. rewrite Eh in Henc.
      change (byte_of_Z 0) with (Some "000"%byte) in Henc.
      cbn [Py.bind] in Henc. injection Henc as <-.
      split; [reflexivity | apply Hdec].
    + destruct (byte_of_Z_lor_nibble 32 algorithm_id) as (h & Eh & _); [auto|].
      cbn [bytes_of_ints] in Henc. rewrite Eh in Henc.
      change (byte_of_Z 0) with (Some "000"%byte) in Henc.
      cbn [Py.bind] in Henc.
      destruct (byte_of_Z (Z.land _ 15)); [|discriminate].
      destruct (byte_of_Z (Z.land (Z.shiftr _ 8) 255)); [|discriminate].
      destruct (byte_of_Z (Z.land (Z.shiftr _ 16) 255)); [|discriminate].
      destruct (byte_of_Z (Z.lor _ _)); [|discriminate].
      cbn [Py.bind] in Henc. injection Henc as <-.
      split; [reflexivity | apply Hdec].
Qed.

Lemma protected_message_is_not_decodable_witness :
  let ctx := NasSecurityContext.mk [] [] 2 0 7 1 0 in
  let msg := NasMessage.mk 0 REGISTRATION_REQUEST ["001"%byte] [] in
  NasSecurity.decode_nas_message ctx
    ["000"%byte; "000"%byte; "A"%byte; "001"%byte] = Raise ValueError /\
  NasSecurity.decode_nas_message ctx
    ["B"%byte; "000"%byte; "000"%byte; "000"%byte; "000"%byte; "000"%byte;
     "001"%byte] = Raise ValueError.
Proof.
  intros ctx msg. split.
  - apply (protected_message_is_not_decodable ctx msg 0 0);
      [right; reflexivity | reflexivity].
  - apply (protected_message_is_not_decodable ctx msg 0 2);
      [left; discriminate | reflexivity].
Defined.

(** X13.  With a non-zero algorithm id the protected form does not carry
    the message type: two messages that differ only in their type have the
    same protected form (or fail alike).  For integrity protection of a
    message whose header is a byte the form is the header byte
    [0x40 | (id & 0x0f)], five zero bytes, and the payload. *)
Theorem protected_message_drops_type
    (ctx : NasSecurityContext.t) (sh : Z) (ty ty' : ENasMessageType)
    (plain enc : bytes) (algorithm_type algorithm_id : Z) :
  algorithm_id <> 0 ->
  NasSecurity.encode_nas_message ctx (NasMessage.mk sh ty plain enc)
    algorithm_type algorithm_id
  = NasSecurity.encode_nas_message ctx (NasMessage.mk sh ty' plain enc)
      algorithm_type algorithm_id /\
  (0 <= sh <= 255 ->
   exists h,
     Z_of_byte h = Z.lor 0x40 (Z.land algorithm_id 0x0f) /\
     NasSecurity.encode_nas_message ctx (NasMessage.mk sh ty plain enc)
       0 algorithm_id
     = Ok (h :: replicate 5 "000"%byte ++ (if sh =? 0 then plain else enc))).
Proof.
  intros Hnz.
  assert (forall t, 0 <= sh <= 255 ->
            exists b0 b1,
              NasMessage.encode (NasMessage.mk sh t plain enc)
              = Ok (b0 :: b1 :: (if sh =? 0 then plain else enc))) as Henc.
  { intros t Hsh.
    destruct (nas_encode_any (NasMessage.mk sh t plain enc) Hsh)
      as (b0 & b1 & _ & _ & E). eauto. }
  unfold NasSecurity.encode_nas_message, NasSecurity.EIA0, NasSecurity.EEA0.
  replace (algorithm_id =? 0) with false by (symmetry; apply Z.eqb_neq, Hnz).
  split.
  - destruct (Z_le_dec 0 sh) as [H0|H0]; [destruct (Z_le_dec sh 255) as [H1|H1]|].
    + destruct (Henc ty ltac:(lia)) as (a0 & a1 & ->).
      destruct (Henc ty' ltac:(lia)) as (c0 & c1 & ->). reflexivity.
    + rewrite !nas_encode_bad_header by (simpl; lia). reflexivity.
    + rewrite !nas_encode_bad_header by (simpl; lia). reflexivity.
  - intros Hsh. destruct (Henc ty Hsh) as (a0 & a1 & ->).
    destruct (byte_of_Z_lor_nibble 64 algorithm_id) as (h & Eh & Vh); [auto|].
    exists h. split; [exact Vh|].
    cbn [Py.bind Z.eqb bytes_of_ints]. rewrite Eh.
    change (byte_of_Z 0) with (Some "000"%byte). reflexivity.
Qed.

Lemma protected_message_drops_type_witness :
  let ctx := NasSecurityContext.mk [] [] 2 0 7 1 0 in
  NasSecurity.encode_nas_message ctx
    (NasMessage.mk 0 REGISTRATION_REQUEST ["001"%byte] []) 0 2
  = NasSecurity.encode_nas_message ctx
      (NasMessage.mk 0 SERVICE_REQUEST ["001"%byte] []) 0 2.
Proof.
  intros ctx.
  apply (protected_message_drops_type ctx 0 REGISTRATION_REQUEST
           SERVICE_REQUEST ["001"%byte] [] 0 2). discriminate.
Defined.

Lemma bytes_of_ints_ok (l : list Z) :
  Forall (fun z => 0 <= z < 256) l ->
  exists bs, bytes_of_ints l = Ok bs /\ Z_of_byte <$> bs = l.
Proof.
  induction 1 as [|z l Hz _ (bs & E & V)]; [exists []; split; reflexivity|].
  destruct (byte_of_Z_in_range z Hz) as (b & Eb & Vb).
  exists (b :: bs). cbn [bytes_of_ints]. rewrite Eb, E.
  split; [reflexivity|]. rewrite fmap_cons, Vb, V. reflexivity.
Qed.

Lemma bytes_of_ints_bad (l : list Z) :
  Exists (fun z => ~ (0 <= z < 256)) l ->
  bytes_of_ints l = Raise ValueError.
Proof.
  induction 1 as [z l Hz|z l _ IH]; cbn [bytes_of_ints].
  - rewrite byte_of_Z_out_of_range by exact Hz. reflexivity.
  - destruct (byte_of_Z z); [|reflexivity]. rewrite IH. reflexivity.
Qed.

(** X14.  [RegistrationRequest.encode] does not determine the request: the
    5GMM capability and the registration type are both written under tag
    0x0e, so a request with the one-byte capability [v] and a request with
    registration type [v] have the same three bytes; the requested NSSAI
    and the DRX parameter are never written. *)
Theorem registration_request_tag_clash
    (v : Z) (nssai nssai' drx drx' : option bytes) :
  0 <= v < 256 ->
  exists b,
    Z_of_byte b = v /\
    RegistrationRequest.encode
      (RegistrationRequest.mk (Some [b]) None None None nssai drx)
    = Ok ["014"%byte; "001"%byte; b] /\
    RegistrationRequest.encode
      (RegistrationRequest.mk None None None (Some v) nssai' drx')
    = Ok ["014"%byte; "001"%byte; b].
Proof.
  intros Hv. destruct (byte_of_Z_in_range v Hv) as (b & Eb & Vb).
  exists b. split; [exact Vb|].
  unfold RegistrationRequest.encode. simpl. rewrite Eb. split; reflexivity.
Qed.

Lemma registration_request_tag_clash_witness :
  RegistrationRequest.encode
    (RegistrationRequest.mk (Some ["001"%byte]) None None None None None)
  = RegistrationRequest.encode
      (RegistrationRequest.mk None None None (Some 1) (Some ["009"%byte]) None).
Proof.
  destruct (registration_request_tag_clash 1 None (Some ["009"%byte]) None None)
    as (b & Vb & E1 & E2); [lia|].
  rewrite (Z_of_byte_inj b "001"%byte Vb) in E1, E2.
  rewrite E1, E2. reflexivity.
Defined.

Lemma patch_length_spec (h0 h1 : byte) (body : bytes) :
  (len body <= 255 ->
   exists l, Z_of_byte l = len body /\
             patch_length (h0 :: h1 :: body) = Ok (h0 :: l :: body)) /\
  (255 < len body -> patch_length (h0 :: h1 :: body) = Raise ValueError).
Proof.
  unfold patch_length, index. cbn [lookup list_lookup Py.bind bytes_of_ints].
  rewrite byte_of_Z_of_byte. cbn [Py.bind drop].
  replace (len (h0 :: h1 :: body) - 2) with (len body)
    by (unfold len; simpl; lia).
  split; intros H.
  - destruct (byte_of_Z_in_range (len body)) as (l & El & Vl);
      [unfold len in *; lia|].
    exists l. split; [exact Vl|]. rewrite El. reflexivity.
  - rewrite byte_of_Z_out_of_range by lia. reflexivity.
Qed.

(** X15.  [DlNasTransport.encode] writes the type byte 0x68, a length byte
    that counts the bytes after it, and, for a non-empty container, the
    element [02 len container].  The length byte bounds the container at
    253 bytes: a longer one is a [ValueError]. *)
Theorem dl_nas_transport_length (nas : bytes) (cause : option Z) :
  (len nas <= 253 ->
   exists l body,
     DlNasTransport.encode (DlNasTransport.mk nas cause)
     = Ok ("104"%byte :: l :: body) /\
     Z_of_byte l = len body /\
     (nas = [] -> body = []) /\
     (nas <> [] ->
      exists n, Z_of_byte n = len nas /\ body = "002"%byte :: n :: nas)) /\
  (253 < len nas ->
   DlNasTransport.encode (DlNasTransport.mk nas cause) = Raise ValueError).
Proof.
  unfold DlNasTransport.encode. cbn [DlNasTransport.ie_ran_nas_container].
  change (bytes_of_ints [104; 0]) with (Ok ["104"%byte; "000"%byte]).
  cbn [Py.bind].
  destruct nas as [|n0 nas'].
  - split; [|unfold len; simpl; lia]. intros _.
    exists "000"%byte, []. repeat split. intros H. contradiction.
  - set (nas := n0 :: nas').
    assert (0 < len nas) as Hpos by (unfold len, nas; simpl; lia).
    split; intros H.
    + destruct (bytes_of_ints_ok [2; len nas]) as (h & Eh & Vh).
      { repeat constructor; lia. }
      destruct h as [|h0 [|n [|? ?]]]; try discriminate Vh.
      injection Vh as V0 Vn.
      rewrite (Z_of_byte_inj h0 "002"%byte V0) in Eh.
      rewrite Eh. cbn [Py.bind app].
      destruct (patch_length_spec "104"%byte "000"%byte
                  ("002"%byte :: n :: nas)) as [Hp _].
      destruct Hp as (l & Vl & El); [unfold len in *; simpl in *; lia|].
      exists l, ("002"%byte :: n :: nas). rewrite El.
      split; [reflexivity|]. split; [exact Vl|].
      split; [discriminate|]. intros _. exists n. split; [exact Vn | reflexivity].
    + destruct (Z_le_dec (len nas) 255) as [Hle|Hgt].
      * destruct (bytes_of_ints_ok [2; len nas]) as (h & Eh & Vh).
        { repeat constructor; lia. }
        rewrite Eh. cbn [Py.bind].
        destruct h as [|h0 [|n [|? ?]]]; try discriminate Vh.
        cbn [app].
        apply (patch_length_spec "104"%byte "000"%byte (h0 :: n :: nas)).
        unfold len in *. simpl in *. lia.
      * rewrite bytes_of_ints_bad; [reflexivity|].
        right. left. lia.
Qed.

Lemma dl_nas_transport_length_witness :
  DlNasTransport.encode (DlNasTransport.mk ["007"%byte; "008"%byte] None)
  = Ok ["104"%byte; "004"%byte; "002"%byte; "002"%byte; "007"%byte; "008"%byte]
  /\
  DlNasTransport.encode (DlNasTransport.mk (replicate 254 "000"%byte) None)
  = Raise ValueError.
Proof.
  split; [reflexivity|].
  apply (dl_nas_transport_length (replicate 254 "000"%byte) None).
  unfold len. rewrite length_replicate. lia.
Defined.

(** X16.  [UlNasTransport.encode] starts with the type byte 0x67 and a
    length byte that counts every byte after it: three header bytes and the
    RAN container when that is not empty, two header bytes and the NAS
    container when that is not empty.  It raises [ValueError] exactly when
    that count exceeds 255. *)
Theorem ul_nas_transport_length (rc nas : bytes) (cause : option Z) :
  let total := match rc with [] => 0 | _ => 3 + len rc end
               + match nas with [] => 0 | _ => 2 + len nas end in
  (total <= 255 ->
   exists l body,
     UlNasTransport.encode (UlNasTransport.mk rc nas cause)
     = Ok ("103"%byte :: l :: body) /\
     Z_of_byte l = len body /\ len body = total /\
     exists pre, body = pre ++ nas /\
                 (rc <> [] -> exists h, pre = take 3 pre ++ rc ++ h)) /\
  (255 < total ->
   UlNasTransport.encode (UlNasTransport.mk rc nas cause) = Raise ValueError).
Proof.
  intros total. unfold UlNasTransport.encode.
  cbn [UlNasTransport.ie_ran_container UlNasTransport.ie_ran_nas_container].
  change (bytes_of_ints [103; 0]) with (Ok ["103"%byte; "000"%byte]).
  cbn [Py.bind take].
  assert (forall body,
    (len body <= 255 ->
     exists l, Z_of_byte l = len body /\
       patch_length ("103"%byte :: "000"%byte :: body)
       = Ok ("103"%byte :: l :: body)) /\
    (255 < len body ->
     patch_length ("103"%byte :: "000"%byte :: body) = Raise ValueError))
    as Hp by (intros; apply patch_length_spec).
  assert (0 <= len rc /\ 0 <= len nas) as [Hrc0 Hnas0] by (unfold len; lia).
  unfold total. clear total.
  destruct rc as [|r0 rc']; [|set (rc := r0 :: rc') in *];
    (destruct nas as [|n0 nas']; [|set (nas := n0 :: nas') in *]);
    cbn [Py.bind].
  - split; [|lia]. intros _. destruct (Hp []) as [(l & Vl & El) _];
      [unfold len; simpl; lia|].
    exists l, []. rewrite El. repeat split; try assumption.
    exists []. split; [reflexivity|]. intros H; contradiction.
  - split; intros H.
    + destruct (bytes_of_ints_ok [2; len nas]) as (h & Eh & Vh).
      { repeat constructor; lia. }
      rewrite Eh. cbn [Py.bind app].
      destruct h as [|h0 [|n [|? ?]]]; try discriminate Vh.
      destruct (Hp (h0 :: n :: nas)) as [(l & Vl & El) _];
        [unfold len in *; simpl in *; lia|].
      exists l, (h0 :: n :: nas). cbn [app]. rewrite El.
      split; [reflexivity|]. split; [exact Vl|].
      split; [unfold len in *; simpl in *; lia|].
      exists [h0; n]. split; [reflexivity|]. intros H'; contradiction.
    + destruct (Z_le_dec (len nas) 255) as [Hle|Hgt].
      * destruct (bytes_of_ints_ok [2; len nas]) as (h & Eh & Vh).
        { repeat constructor; lia. }
        rewrite Eh. cbn [Py.bind app].
        destruct h as [|h0 [|n [|? ?]]]; try discriminate Vh.
        apply (Hp (h0 :: n :: nas)). unfold len in *. simpl in *. lia.
      * rewrite bytes_of_ints_bad; [reflexivity|]. right. left. lia.
  - split; intros H.
    + destruct (bytes_of_ints_ok [len rc + 2; 1; len rc]) as (h & Eh & Vh).
      { repeat constructor; lia. }
      rewrite Eh. cbn [Py.bind app].
      destruct h as [|h0 [|h1 [|h2 [|? ?]]]]; try discriminate Vh.
      destruct (Hp (h0 :: h1 :: h2 :: rc)) as [(l & Vl & El) _];
        [unfold len in *; simpl in *; lia|].
      exists l, (h0 :: h1 :: h2 :: rc). cbn [app]. rewrite El.
      split; [reflexivity|]. split; [exact Vl|].
      split; [unfold len in *; simpl in *; lia|].
      exists (h0 :: h1 :: h2 :: rc). split; [rewrite app_nil_r; reflexivity|].
      intros _. exists []. rewrite app_nil_r. reflexivity.
    + destruct (Z_le_dec (len rc + 2) 255) as [Hle|Hgt].
      * destruct (bytes_of_ints_ok [len rc + 2; 1; len rc]) as (h & Eh & Vh).
        { repeat constructor; lia. }
        rewrite Eh. cbn [Py.bind app].
        destruct h as [|h0 [|h1 [|h2 [|? ?]]]]; try discriminate Vh.
        apply (Hp (h0 :: h1 :: h2 :: rc)). unfold len in *. simpl in *. lia.
      * rewrite bytes_of_ints_bad; [reflexivity|]. left. lia.
  - destruct (Z_le_dec (len rc + 2) 255) as [Hrc|Hrc].
    2:{ split; [lia|]. intros _.
        rewrite bytes_of_ints_bad; [reflexivity|]. left. lia. }
    destruct (bytes_of_ints_ok [len rc + 2; 1; len rc]) as (h & Eh & Vh).
    { repeat constructor; lia. }
    rewrite Eh. cbn [Py.bind app].
    destruct h as [|h0 [|h1 [|h2 [|? ?]]]]; try discriminate Vh.
    destruct (Z_le_dec (len nas) 255) as [Hnas|Hnas].
    2:{ split; [lia|]. intros _.
        rewrite bytes_of_ints_bad; [reflexivity|]. right. left. lia. }
    destruct (bytes_of_ints_ok [2; len nas]) as (g & Eg & Vg).
    { repeat constructor; lia. }
    rewrite Eg. cbn [Py.bind app].
    destruct g as [|g0 [|g1 [|? ?]]]; try discriminate Vg.
    assert (len ((h0 :: h1 :: h2 :: rc) ++ g0 :: g1 :: nas)
            = 3 + len rc + (2 + len nas)) as Hlen.
    { unfold len. rewrite length_app. simpl. lia. }
    split; intros H.
    + destruct (Hp ((h0 :: h1 :: h2 :: rc) ++ g0 :: g1 :: nas))
        as [(l & Vl & El) _]; [lia|].
      exists l, ((h0 :: h1 :: h2 :: rc) ++ g0 :: g1 :: nas).
      cbn [app] in *. rewrite El.
      split; [reflexivity|]. split; [exact Vl|]. split; [exact Hlen|].
      exists ((h0 :: h1 :: h2 :: rc) ++ [g0; g1]).
      split; [rewrite <- app_assoc; reflexivity|].
      intros _. exists [g0; g1]. reflexivity.
    + cbn [app] in *.
      apply (Hp (h0 :: h1 :: h2 :: rc ++ g0 :: g1 :: nas)). lia.
Qed.

Lemma ul_nas_transport_length_witness :
  UlNasTransport.encode
    (UlNasTransport.mk ["009"%byte] ["007"%byte; "008"%byte] None)
  = Ok ["103"%byte; "008"%byte; "003"%byte; "001"%byte; "001"%byte;
        "009"%byte; "002"%byte; "002"%byte; "007"%byte; "008"%byte] /\
  UlNasTransport.encode
    (UlNasTransport.mk (replicate 200 "000"%byte) (replicate 100 "000"%byte)
       None) = Raise ValueError.
Proof.
  split; [reflexivity|].
  apply (ul_nas_transport_length (replicate 200 "000"%byte)
           (replicate 100 "000"%byte) None).
  unfold len. rewrite !length_replicate. simpl. lia.
Defined.

(** ** More on the RRC codec *)

Ltac lia_div := Z.to_euclidean_division_equations; lia.

(** Bits below [k] and a value shifted by [k] do not overlap: their
    bitwise or is their sum. *)
Lemma lor_shiftl_add (a b k : Z) :
  0 <= k -> 0 <= a < 2 ^ k -> Z.lor a (Z.shiftl b k) = a + b * 2 ^ k.
Proof.
  intros Hk Ha. rewrite <- Z.shiftl_mul_pow2 by exact Hk.
  symmetry. apply Z.add_nocarry_lor.
  apply Z.bits_inj'. intros n Hn.
  rewrite Z.land_spec, Z.bits_0.
  destruct (Z_lt_dec n k) as [Hlt|Hge].
  - rewrite (Z.shiftl_spec_low b k n Hlt). apply andb_false_r.
  - rewrite <- (Z.mod_small a (2 ^ k)) by exact Ha.
    rewrite Z.mod_pow2_bits_high by lia. reflexivity.
Qed.

Lemma rrc_header_value (tid : Z) :
  Z.lor (Z.shiftl tid 2) 1 = 4 * tid + 1.
Proof.
  rewrite Z.lor_comm. change 1 with (Z.shiftl 1 0) at 1.
  rewrite Z.shiftl_0_r.
  replace (Z.shiftl tid 2) with (Z.shiftl tid 1 * 2 ^ 1)
    by (rewrite !Z.shiftl_mul_pow2 by lia; lia).
  rewrite <- Z.shiftl_mul_pow2 by lia.
  rewrite lor_shiftl_add by lia. rewrite !Z.shiftl_mul_pow2 by lia. lia.
Qed.

(** X17.  The RRC container keeps only the transaction identifier modulo
    4.  For an identifier in 0..63 [encode] succeeds and [decode] returns
    the message with the identifier reduced modulo 4; any other identifier
    makes [encode] raise [ValueError]. *)
Theorem rrc_transaction_id_wraps (m : RrcMessage.t) :
  (0 <= RrcMessage.rrc_transaction_id m < 64 ->
   exists bs,
     RrcMessage.encode m = Ok bs /\
     RrcMessage.decode bs
     = Ok (RrcMessage.mk (RrcMessage.rrc_transaction_id m mod 4)
                         (RrcMessage.message_type m) (RrcMessage.payload m))) /\
  (~ (0 <= RrcMessage.rrc_transaction_id m < 64) ->
   RrcMessage.encode m = Raise ValueError).
Proof.
  destruct m as [tid ty payload]. unfold RrcMessage.encode. simpl.
  rewrite rrc_header_value. split; intros H.
  - destruct (byte_of_Z_in_range (4 * tid + 1)) as (a & Ea & Va); [lia|].
    destruct (byte_of_Z_in_range (Rrc.value ty) (rrc_value_range ty))
      as (b & Eb & Vb).
    rewrite Ea, Eb. eexists. split; [reflexivity|].
    cbn [app RrcMessage.decode]. rewrite Vb, rrc_of_value_value, Va.
    cbn [Py.bind drop]. do 2 f_equal.
    rewrite Z.shiftr_div_pow2 by lia. change 3 with (Z.ones 2).
    rewrite Z.land_ones by lia. change (2 ^ 2) with 4. lia_div.
  - rewrite byte_of_Z_out_of_range by lia. reflexivity.
Qed.

Lemma rrc_transaction_id_wraps_witness :
  (exists bs,
     RrcMessage.encode (RrcMessage.mk 6 RRC_SETUP []) = Ok bs /\
     RrcMessage.decode bs = Ok (RrcMessage.mk 2 RRC_SETUP [])) /\
  RrcMessage.encode (RrcMessage.mk 64 RRC_SETUP []) = Raise ValueError.
Proof.
  split.
  - apply (rrc_transaction_id_wraps (RrcMessage.mk 6 RRC_SETUP [])).
    simpl. lia.
  - apply (rrc_transaction_id_wraps (RrcMessage.mk 64 RRC_SETUP [])).
    simpl. lia.
Defined.

(** The packed word of the MIB as a sum of its fields. *)
Lemma mib_data_sum (m : MIB.t) :
  MIB.mib_data m
  = MIB.system_frame_number m mod 1024
    + (MIB.subcarrier_spacing_common m mod 2) * 2 ^ 10
    + (MIB.ssb_subcarrier_offset m mod 16) * 2 ^ 11
    + (MIB.dmrs_type_a_position m mod 2) * 2 ^ 15
    + (MIB.pdcch_config_sib1 m mod 256) * 2 ^ 16
    + (if MIB.cell_barred m then 0 else 1) * 2 ^ 24
    + (if MIB.intra_freq_reselection m then 0 else 1) * 2 ^ 25
    + 63 * 2 ^ 26.
Proof.
  unfold MIB.mib_data. cbv zeta.
  change 1023 with (Z.ones 10). change 15 with (Z.ones 4).
  change 255 with (Z.ones 8).
  replace (Z.land (MIB.subcarrier_spacing_common m) 1)
    with (MIB.subcarrier_spacing_common m mod 2)
    by (change 1 with (Z.ones 1); rewrite Z.land_ones by lia; reflexivity).
  replace (Z.land (MIB.dmrs_type_a_position m) 1)
    with (MIB.dmrs_type_a_position m mod 2)
    by (change 1 with (Z.ones 1); rewrite Z.land_ones by lia; reflexivity).
  rewrite !Z.land_ones by lia. rewrite Z.lor_0_l, Z.shiftl_0_r.
  change (2 ^ 10) with 1024. change (2 ^ 4) with 16. change (2 ^ 8) with 256.
  set (s := MIB.system_frame_number m mod 1024).
  set (c := MIB.subcarrier_spacing_common m mod 2).
  set (o := MIB.ssb_subcarrier_offset m mod 16).
  set (d := MIB.dmrs_type_a_position m mod 2).
  set (p := MIB.pdcch_config_sib1 m mod 256).
  set (cb := if MIB.cell_barred m then 0 else 1).
  set (ifr := if MIB.intra_freq_reselection m then 0 else 1).
  assert (0 <= s < 1024) by (unfold s; lia_div).
  assert (0 <= c < 2) by (unfold c; lia_div).
  assert (0 <= o < 16) by (unfold o; lia_div).
  assert (0 <= d < 2) by (unfold d; lia_div).
  assert (0 <= p < 256) by (unfold p; lia_div).
  assert (0 <= cb < 2) by (unfold cb; destruct (MIB.cell_barred m); lia).
  assert (0 <= ifr < 2)
    by (unfold ifr; destruct (MIB.intra_freq_reselection m); lia).
  clearbody s c o d p cb ifr.
  rewrite (lor_shiftl_add s c 10) by lia.
  rewrite (lor_shiftl_add _ o 11) by lia.
  rewrite (lor_shiftl_add _ d 15) by lia.
  rewrite (lor_shiftl_add _ p 16) by lia.
  rewrite (lor_shiftl_add _ cb 24) by lia.
  rewrite (lor_shiftl_add _ ifr 25) by lia.
  rewrite (lor_shiftl_add _ 63 26) by lia.
  reflexivity.
Qed.

(** X18.  The three bytes of [MIB.encode], field by field.  The first byte
    holds the six spare bits (all set) above the two flags, each stored
    inverted; the second is the PDCCH configuration; the third holds the
    DMRS position, the SSB offset, the subcarrier spacing and bits 8 and 9
    of the frame number.  Every field is thus in the output modulo its
    width, except the low eight bits of the frame number. *)
Theorem mib_encode_layout (m : MIB.t) :
  exists b0 b1 b2,
    MIB.encode m = Ok [b0; b1; b2] /\
    Z_of_byte b0
    = 252 + 2 * (if MIB.intra_freq_reselection m then 0 else 1)
          + (if MIB.cell_barred m then 0 else 1) /\
    Z_of_byte b1 = MIB.pdcch_config_sib1 m mod 256 /\
    Z_of_byte b2
    = 128 * (MIB.dmrs_type_a_position m mod 2)
      + 8 * (MIB.ssb_subcarrier_offset m mod 16)
      + 4 * (MIB.subcarrier_spacing_common m mod 2)
      + (MIB.system_frame_number m / 256) mod 4.
Proof.
  destruct (mib_encode_bytes m) as (b0 & b1 & b2 & E & V0 & V1 & V2).
  exists b0, b1, b2. split; [exact E|].
  rewrite V0, V1, V2. rewrite Z.shiftr_div_pow2 by lia.
  rewrite mib_data_sum.
  change (2 ^ 10) with 1024. change (2 ^ 11) with 2048.
  change (2 ^ 15) with 32768. change (2 ^ 16) with 65536.
  change (2 ^ 24) with 16777216. change (2 ^ 25) with 33554432.
  change (2 ^ 26) with 67108864. change (2 ^ 8) with 256.
  set (cb := if MIB.cell_barred m then 0 else 1).
  set (ifr := if MIB.intra_freq_reselection m then 0 else 1).
  assert (0 <= cb < 2) by (unfold cb; destruct (MIB.cell_barred m); lia).
  assert (0 <= ifr < 2)
    by (unfold ifr; destruct (MIB.intra_freq_reselection m); lia).
  clearbody cb ifr.
  repeat split; lia_div.
Qed.

(** ** The RRC task of the gNB *)

Section RrcTaskFacts.

Implicit Types (task : RrcTask.t) (ue_id : Z).

(** The three messages that the task reacts to, by type byte. *)
Lemma task_setup_request task ue_id (b0 : byte) (rest : bytes) :
  RrcTask.handle_rrc_message ue_id (b0 :: "001"%byte :: rest) task
  = (RrcTask.set_ue_connections
       (<[ue_id := RrcStateMachine.new]> (RrcTask.ue_connections task)) task,
     Ok (Some ["001"%byte; "002"%byte; "029"%byte; "001"%byte; "000"%byte;
               "036"%byte; "012"%byte; "000"%byte; "004"%byte; "000"%byte;
               "064"%byte; "000"%byte; "002"%byte; "002"%byte; "000"%byte])).
Proof. reflexivity. Qed.

Lemma task_setup_complete task ue_id (b0 : byte) (rest : bytes) sm :
  RrcTask.ue_connections task !! ue_id = Some sm ->
  RrcTask.handle_rrc_message ue_id (b0 :: "009"%byte :: rest) task
  = (RrcTask.set_ue_connections
       (<[ue_id := RrcStateMachine.set_setup_complete_received true sm]>
          (RrcTask.ue_connections task)) task,
     Ok (Some ["001"%byte; "003"%byte; "001"%byte])).
Proof.
  intros H. unfold RrcTask.handle_rrc_message, mbind, lift, get, modify, ret.
  cbn [RrcMessage.decode]. change (Rrc.of_value (Z_of_byte "009")) with (Ok RRC_SETUP_COMPLETE).
  cbn [Py.bind RrcMessage.message_type].
  rewrite decide_False by discriminate. rewrite decide_True by reflexivity.
  rewrite H. reflexivity.
Qed.

Lemma task_reconfiguration_complete task ue_id (b0 : byte) (rest : bytes) sm :
  RrcTask.ue_connections task !! ue_id = Some sm ->
  RrcTask.handle_rrc_message ue_id (b0 :: "027"%byte :: rest) task
  = (RrcTask.set_ue_connections
       (<[ue_id := RrcStateMachine.set_state "connected"
                     (RrcStateMachine.set_reconfiguration_complete_received
                        true sm)]>
          (RrcTask.ue_connections task)) task,
     Ok None).
Proof.
  intros H. unfold RrcTask.handle_rrc_message, mbind, lift, get, modify, ret.
  cbn [RrcMessage.decode].
  change (Rrc.of_value (Z_of_byte "027"))
    with (Ok RRC_CONN_RECONFIGURATION_COMPLETE).
  cbn [Py.bind RrcMessage.message_type].
  rewrite decide_False by discriminate. rewrite decide_False by discriminate.
  rewrite decide_True by reflexivity.
  rewrite H. reflexivity.
Qed.

(** X19.  A UE that the task does not know is ignored: its SETUP_COMPLETE
    and RECONFIGURATION_COMPLETE get no answer and change nothing, and
    [release_ue] returns [False].  For a known UE [release_ue] returns
    [True] and removes it, so that a second release returns [False].  A
    SETUP_REQUEST always installs a fresh idle state machine, also over an
    existing one. *)
Theorem rrc_task_unknown_and_release task ue_id (b0 : byte) (rest : bytes) :
  (RrcTask.ue_connections task !! ue_id = None ->
   RrcTask.handle_rrc_message ue_id (b0 :: "009"%byte :: rest) task
   = (task, Ok None) /\
   RrcTask.handle_rrc_message ue_id (b0 :: "027"%byte :: rest) task
   = (task, Ok None) /\
   RrcTask.release_ue ue_id task = (task, Ok false)) /\
  (forall sm, RrcTask.ue_connections task !! ue_id = Some sm ->
   let task' := (RrcTask.release_ue ue_id task).1 in
   (RrcTask.release_ue ue_id task).2 = Ok true /\
   RrcTask.ue_connections task' = delete ue_id (RrcTask.ue_connections task) /\
   RrcTask.release_ue ue_id task' = (task', Ok false)) /\
  RrcTask.ue_connections
    (RrcTask.handle_rrc_message ue_id (b0 :: "001"%byte :: rest) task).1
    !! ue_id
  = Some (RrcStateMachine.mk "idle" false false).
Proof.
  split; [|split].
  - intros H.
    unfold RrcTask.handle_rrc_message, RrcTask.release_ue,
      mbind, lift, get, modify, ret.
    cbn [RrcMessage.decode].
    change (Rrc.of_value (Z_of_byte "009")) with (Ok RRC_SETUP_COMPLETE).
    change (Rrc.of_value (Z_of_byte "027"))
      with (Ok RRC_CONN_RECONFIGURATION_COMPLETE).
    cbn [Py.bind RrcMessage.message_type].
    rewrite !(decide_False (P := RRC_SETUP_COMPLETE = RRC_SETUP_REQUEST))
      by discriminate.
    rewrite !(decide_False
                (P := RRC_CONN_RECONFIGURATION_COMPLETE = RRC_SETUP_REQUEST))
      by discriminate.
    rewrite !(decide_False
                (P := RRC_CONN_RECONFIGURATION_COMPLETE = RRC_SETUP_COMPLETE))
      by discriminate.
    rewrite !decide_True by reflexivity.
    rewrite H. repeat split.
  - intros sm H task'.
    assert (RrcTask.release_ue ue_id task
            = (RrcTask.set_ue_connections
                 (delete ue_id (RrcTask.ue_connections task)) task, Ok true))
      as E.
    { unfold RrcTask.release_ue, mbind, lift, get, modify, ret.
      rewrite H. reflexivity. }
    unfold task'. rewrite E. cbn [fst snd].
    split; [reflexivity|]. split; [reflexivity|].
    unfold RrcTask.release_ue, mbind, lift, get, modify, ret.
    cbn [RrcTask.ue_connections RrcTask.set_ue_connections].
    rewrite lookup_delete_eq. reflexivity.
  - rewrite task_setup_request. cbn [fst RrcTask.ue_connections
      RrcTask.set_ue_connections]. apply lookup_insert_eq.
Qed.

Lemma rrc_task_unknown_and_release_witness :
  let task := RrcTask.new 1 in
  RrcTask.release_ue 7 task = (task, Ok false) /\
  (RrcTask.release_ue 7
     (RrcTask.handle_rrc_message 7 ["001"%byte; "001"%byte] task).1).2
  = Ok true.
Proof.
  intros task. split.
  - apply (rrc_task_unknown_and_release task 7 "001"%byte []). reflexivity.
  - destruct (rrc_task_unknown_and_release
                (RrcTask.handle_rrc_message 7 ["001"%byte; "001"%byte] task).1
                7 "001"%byte []) as (_ & H & _).
    apply (H (RrcStateMachine.mk "idle" false false)). reflexivity.
Defined.

(** X20.  An uplink information transfer is passed through untouched: the
    task returns the payload of the RRC message as it is, that is the
    dedicated-NAS element [39 len nas] and not the bare NAS message, and
    neither looks at the UE table nor changes it. *)
Theorem rrc_task_uplink_pass_through task ue_id (nas : bytes) :
  0 < len nas < 256 ->
  exists n wire,
    Z_of_byte n = len nas /\
    RrcUlInformationTransfer.encode (RrcUlInformationTransfer.mk nas)
    = Ok ("057"%byte :: n :: nas) /\
    RrcMessage.encode
      (RrcMessage.mk 0 RRC_UL_INFORMATION_TRANSFER ("057"%byte :: n :: nas))
    = Ok wire /\
    RrcTask.handle_rrc_message ue_id wire task
    = (task, Ok (Some ("057"%byte :: n :: nas))).
Proof.
  intros Hlen.
  destruct (byte_of_Z_in_range (len nas)) as (n & En & Vn); [lia|].
  exists n. eexists. split; [exact Vn|].
  assert (RrcUlInformationTransfer.encode (RrcUlInformationTransfer.mk nas)
          = Ok ("057"%byte :: n :: nas)) as E.
  { unfold RrcUlInformationTransfer.encode. simpl.
    destruct nas as [|x nas']; [unfold len in Hlen; simpl in Hlen; lia|].
    rewrite En. reflexivity. }
  split; [exact E|]. split; [reflexivity|]. reflexivity.
Qed.

Lemma rrc_task_uplink_pass_through_witness :
  RrcTask.handle_rrc_message 7
    ["001"%byte; "012"%byte; "057"%byte; "002"%byte; "000"%byte; "A"%byte]
    (RrcTask.new 1)
  = (RrcTask.new 1, Ok (Some ["057"%byte; "002"%byte; "000"%byte; "A"%byte])).
Proof.
  destruct (rrc_task_uplink_pass_through (RrcTask.new 1) 7
              ["000"%byte; "A"%byte]) as (n & wire & Vn & _ & Ew & H);
    [unfold len; simpl; lia|].
  rewrite (Z_of_byte_inj n "002"%byte Vn) in Ew, H.
  vm_compute in Ew. injection Ew as <-. exact H.
Defined.

End RrcTaskFacts.

(** ** More on the UE entity *)

Lemma rrc_decode_tid_range (data : bytes) (msg : RrcMessage.t) :
  RrcMessage.decode data = Ok msg ->
  0 <= RrcMessage.rrc_transaction_id msg <= 3.
Proof.
  unfold RrcMessage.decode.
  destruct data as [|b0 [|b1 rest]]; try (intros [= <-]; simpl; lia).
  destruct (Rrc.of_value (Z_of_byte b1)); [|discriminate].
  intros [= <-]. cbn [RrcMessage.rrc_transaction_id].
  pose proof (Z.land_ones (Z.shiftr (Z_of_byte b0) 2) 2 ltac:(lia)) as E.
  change (Z.ones 2) with 3 in E. rewrite E.
  pose proof (Z.mod_pos_bound (Z.shiftr (Z_of_byte b0) 2) (2 ^ 2) eq_refl).
  change (2 ^ 2) with 4 in *. lia.
Qed.

(** X21.  How the UE dispatches a decoded RRC message outside the SETUP
    case.  When RRC-connected: a RECONFIGURATION is answered by
    RECONFIGURATION_COMPLETE with the same transaction identifier and
    changes nothing; a DL information transfer hands its payload to the NAS
    callback when one is installed, and is dropped otherwise; a RELEASE puts
    RRC and CM in idle, MM in DEREGISTERED and forgets the gNB.  Every other
    pair of state and message, in particular everything received in
    RRC_INACTIVE and a RELEASE or RECONFIGURATION received when idle, leaves
    the UE unchanged and is not answered. *)
Theorem ue_rrc_dispatch
    (ue : UeSimulation.t) (data : bytes) (msg : RrcMessage.t) :
  RrcMessage.decode data = Ok msg ->
  (UeSimulation.rrc_state ue = RRC_CONNECTED ->
   RrcMessage.message_type msg = RRC_RECONFIGURATION ->
   exists h,
     Z_of_byte h = 4 * RrcMessage.rrc_transaction_id msg + 1 /\
     UeSimulation.handle_rrc_message data ue
     = (ue, Ok (Some [h; "027"%byte]))) /\
  (UeSimulation.rrc_state ue = RRC_CONNECTED ->
   RrcMessage.message_type msg = RRC_DL_INFORMATION_TRANSFER ->
   UeSimulation.handle_rrc_message data ue
   = (match UeSimulation.on_nas_message ue with
      | Some log =>
          UeSimulation.set_on_nas_message
            (Some (log ++ [RrcMessage.payload msg])) ue
      | None => ue
      end, Ok None)) /\
  (UeSimulation.rrc_state ue = RRC_CONNECTED ->
   RrcMessage.message_type msg = RRC_RELEASE ->
   UeSimulation.handle_rrc_message data ue
   = (UeSimulation.set_connected_gnb_id None
        (UeSimulation.set_mm_state MM_DEREGISTERED
           (UeSimulation.set_cm_state CM_IDLE
              (UeSimulation.set_rrc_state RRC_IDLE ue))),
      Ok None)) /\
  (~ (UeSimulation.rrc_state ue = RRC_IDLE /\
      RrcMessage.message_type msg = RRC_SETUP) ->
   ~ (UeSimulation.rrc_state ue = RRC_CONNECTED /\
      (RrcMessage.message_type msg = RRC_RECONFIGURATION \/
       RrcMessage.message_type msg = RRC_DL_INFORMATION_TRANSFER \/
       RrcMessage.message_type msg = RRC_RELEASE)) ->
   UeSimulation.handle_rrc_message data ue = (ue, Ok None)).
Proof.
  intros Hdec. pose proof (rrc_decode_tid_range data msg Hdec) as Htid.
  unfold UeSimulation.handle_rrc_message, UeSimulation.send_nas,
    mbind, lift, get, modify, ret.
  rewrite Hdec. split; [|split; [|split]].
  - intros Hc Hty. rewrite Hc, Hty.
    rewrite decide_False by discriminate. rewrite decide_True by reflexivity.
    rewrite decide_True by reflexivity.
    destruct (rrc_header_byte _ Htid) as (h & Eh & _).
    exists h. split.
    + rewrite <- rrc_header_value. apply byte_of_Z_Some, Eh.
    + unfold RrcMessage.encode. simpl. rewrite Eh. reflexivity.
  - intros Hc Hty. rewrite Hc, Hty.
    rewrite decide_False by discriminate. rewrite decide_True by reflexivity.
    rewrite decide_False by discriminate. rewrite decide_True by reflexivity.
    destruct (UeSimulation.on_nas_message ue); reflexivity.
  - intros Hc Hty. rewrite Hc, Hty.
    rewrite decide_False by discriminate. rewrite decide_True by reflexivity.
    rewrite decide_False by discriminate. rewrite decide_False by discriminate.
    rewrite decide_True by reflexivity. reflexivity.
  - intros N1 N2.
    destruct (decide (UeSimulation.rrc_state ue = RRC_IDLE)) as [Hi|Hi].
    { destruct (decide (RrcMessage.message_type msg = RRC_SETUP));
        [destruct N1; auto | reflexivity]. }
    destruct (decide (UeSimulation.rrc_state ue = RRC_CONNECTED)) as [Hc|Hc];
      [|reflexivity].
    destruct (decide (RrcMessage.message_type msg = RRC_RECONFIGURATION));
      [destruct N2; auto|].
    destruct (decide (RrcMessage.message_type msg
                      = RRC_DL_INFORMATION_TRANSFER));
      [destruct N2; auto|].
    destruct (decide (RrcMessage.message_type msg = RRC_RELEASE));
      [destruct N2; auto|].
    reflexivity.
Qed.

Lemma ue_rrc_dispatch_witness :
  exists ue0,
    UeSimulation.new UeConfig.default "ue1" = Ok ue0 /\
    let ue := UeSimulation.set_rrc_state RRC_CONNECTED ue0 in
    UeSimulation.rrc_state
      (UeSimulation.handle_rrc_message ["001"%byte; "006"%byte] ue).1
    = RRC_IDLE /\
    UeSimulation.handle_rrc_message ["001"%byte; "006"%byte] ue0
    = (ue0, Ok None).
Proof.
  destruct (UeSimulation.new UeConfig.default "ue1") as [ue0|e] eqn:E;
    [|vm_compute in E; discriminate E].
  exists ue0. split; [reflexivity|].
  vm_compute in E. injection E as <-. intros ue.
  destruct (ue_rrc_dispatch ue ["001"%byte; "006"%byte]
              (RrcMessage.mk 0 RRC_RELEASE []) eq_refl) as (_ & _ & H & _).
  rewrite (H eq_refl eq_refl). split; [reflexivity|].
  match goal with |- UeSimulation.handle_rrc_message _ ?u = _ =>
    apply (ue_rrc_dispatch u ["001"%byte; "006"%byte]
             (RrcMessage.mk 0 RRC_RELEASE []) eq_refl)
  end; simpl; intros [H1 H2]; discriminate.
Defined.

(** X22.  The UE reacts to two NAS message types only.  Every other
    message that decodes, an AUTHENTICATION_REQUEST or a
    SECURITY_MODE_COMMAND for instance, leaves the UE unchanged and is not
    answered. *)
Theorem ue_ignores_other_nas_messages
    (ue : UeSimulation.t) (now : string) (data : bytes) (msg : NasMessage.t) :
  NasMessage.decode data = Ok msg ->
  NasMessage.message_type msg <> REGISTRATION_ACCEPT ->
  NasMessage.message_type msg <> PDU_SESSION_ESTABLISHMENT_ACCEPT ->
  UeSimulation.handle_nas_message now data ue = (ue, Ok None).
Proof.
  intros Hdec N1 N2.
  unfold UeSimulation.handle_nas_message, mbind, lift, ret.
  rewrite Hdec. rewrite decide_False by exact N1.
  rewrite decide_False by exact N2. reflexivity.
Qed.

Lemma ue_ignores_other_nas_messages_witness :
  exists ue0,
    UeSimulation.new UeConfig.default "ue1" = Ok ue0 /\
    UeSimulation.handle_nas_message "now" ["000"%byte; "V"%byte] ue0
    = (ue0, Ok None).
Proof.
  destruct (UeSimulation.new UeConfig.default "ue1") as [ue0|e] eqn:E;
    [|vm_compute in E; discriminate E].
  exists ue0. split; [reflexivity|].
  apply (ue_ignores_other_nas_messages ue0 "now" ["000"%byte; "V"%byte]
           (NasMessage.mk 0 AUTHENTICATION_REQUEST [] []));
    [reflexivity | discriminate | discriminate].
Defined.

(** ** The RRC connection establishment, end to end *)

(** The registration request is built from the configuration alone. *)
Lemma registration_request_depends_on_config (u u' : UeSimulation.t) :
  UeSimulation.config u = UeSimulation.config u' ->
  UeSimulation.create_registration_request u
  = UeSimulation.create_registration_request u'.
Proof.
  intros H. unfold UeSimulation.create_registration_request.
  rewrite H. reflexivity.
Qed.

(** X23.  The UE of [simulation] and the RRC task of the gNB complete the
    RRC connection establishment when each one's output is handed to the
    other: SETUP_REQUEST, SETUP, SETUP_COMPLETE, RECONFIGURATION,
    RECONFIGURATION_COMPLETE.  It needs an RRC callback on the UE, the UE
    idle, and a registration request that can be built and is shorter than
    256 bytes.  At the end the UE is RRC- and CM-connected, the task holds
    for this UE a state machine in state connected with both completion
    flags set, and the task's other entries are as they were. *)
Theorem rrc_connection_establishment
    (ue : UeSimulation.t) (task : RrcTask.t) (ue_id : Z)
    (token : bytes) (gnb : string) (log : list bytes) (nas : bytes) :
  UeSimulation.on_rrc_message ue = Some log ->
  UeSimulation.rrc_state ue = RRC_IDLE ->
  UeSimulation.create_registration_request ue = Ok nas ->
  len nas < 256 ->
  exists m1 ue1 m2 task1 ue2 m3 task2 m4 m5 task3,
    UeSimulation.start token gnb ue = (ue1, Ok tt) /\
    UeSimulation.on_rrc_message ue1 = Some (log ++ [m1]) /\
    RrcTask.handle_rrc_message ue_id m1 task = (task1, Ok (Some m2)) /\
    UeSimulation.handle_rrc_message m2 ue1 = (ue2, Ok (Some m3)) /\
    RrcTask.handle_rrc_message ue_id m3 task1 = (task2, Ok (Some m4)) /\
    UeSimulation.handle_rrc_message m4 ue2 = (ue2, Ok (Some m5)) /\
    RrcTask.handle_rrc_message ue_id m5 task2 = (task3, Ok None) /\
    UeSimulation.rrc_state ue2 = RRC_CONNECTED /\
    UeSimulation.cm_state ue2 = CM_CONNECTED /\
    UeSimulation.mm_state ue2 = MM_REGISTERED_INITIATED /\
    RrcTask.ue_connections task3 !! ue_id
    = Some (RrcStateMachine.mk "connected" true true) /\
    (forall j, j <> ue_id ->
       RrcTask.ue_connections task3 !! j = RrcTask.ue_connections task !! j).
Proof.
  intros Hcb Hidle Hreq Hlen.
  destruct (start_with_callback ue token gnb log Hcb)
    as (i0 & i1 & i2 & i3 & i4 & E1).
  set (m1 := ["001"%byte; "001"%byte; "000"%byte; "003"%byte;
              i0; i1; i2; i3; i4]) in E1.
  set (ue1 := UeSimulation.set_on_rrc_message _ _) in E1.
  pose proof (task_setup_request task ue_id "001"%byte
                ["000"%byte; "003"%byte; i0; i1; i2; i3; i4]) as E2.
  set (task1 := RrcTask.set_ue_connections _ task) in E2.
  set (rest2 := ["029"%byte; "001"%byte; "000"%byte; "036"%byte; "012"%byte;
                 "000"%byte; "004"%byte; "000"%byte; "064"%byte; "000"%byte;
                 "002"%byte; "002"%byte; "000"%byte]).
  assert (Hidle1 : UeSimulation.rrc_state ue1 = RRC_IDLE) by exact Hidle.
  set (ue2 := UeSimulation.set_cm_state CM_CONNECTED
                (UeSimulation.set_rrc_state RRC_CONNECTED ue1)).
  assert (Hreq2 : UeSimulation.create_registration_request ue2 = Ok nas).
  { rewrite <- Hreq. apply registration_request_depends_on_config.
    reflexivity. }
  destruct (setup_complete_embeds_request ue1 "001"%byte rest2 nas
              Hidle1 Hreq2 Hlen) as (blen & plain & Hb & Hnas & E3).
  pose proof (handle_setup_when_idle ue1 "001"%byte rest2 Hidle1) as E3'.
  cbv zeta in E3'. fold ue2 in E3'.
  rewrite E3' in E3. cbn [snd] in E3. rewrite E3 in E3'. clear E3.
  set (m3 := ["001"%byte; "009"%byte; "000"%byte; "001"%byte; "001"%byte;
              "057"%byte; blen] ++ nas) in E3'.
  assert (L1 : RrcTask.ue_connections task1 !! ue_id
               = Some RrcStateMachine.new)
    by (apply lookup_insert_eq).
  pose proof (task_setup_complete task1 ue_id "001"%byte
                (["000"%byte; "001"%byte; "001"%byte; "057"%byte; blen] ++ nas)
                _ L1) as E4.
  set (task2 := RrcTask.set_ue_connections _ task1) in E4.
  assert (Hc2 : UeSimulation.rrc_state ue2 = RRC_CONNECTED) by reflexivity.
  destruct (ue_rrc_dispatch ue2 ["001"%byte; "003"%byte; "001"%byte]
              (RrcMessage.mk 0 RRC_RECONFIGURATION ["001"%byte]) eq_refl)
    as [E5 _].
  destruct (E5 Hc2 eq_refl) as (h & Hh & E5'). clear E5.
  cbn [RrcMessage.rrc_transaction_id] in Hh.
  rewrite (Z_of_byte_inj h "001"%byte Hh) in E5'.
  assert (L2 : RrcTask.ue_connections task2 !! ue_id
               = Some (RrcStateMachine.set_setup_complete_received true
                         RrcStateMachine.new))
    by (apply lookup_insert_eq).
  pose proof (task_reconfiguration_complete task2 ue_id "001"%byte [] _ L2)
    as E6.
  set (task3 := RrcTask.set_ue_connections _ task2) in E6.
  exists m1, ue1, ("001"%byte :: "002"%byte :: rest2), task1, ue2, m3, task2,
    ["001"%byte; "003"%byte; "001"%byte], ["001"%byte; "027"%byte], task3.
  split; [exact E1|]. split; [reflexivity|]. split; [exact E2|].
  split; [exact E3'|]. split; [exact E4|]. split; [exact E5'|].
  split; [exact E6|]. split; [reflexivity|]. split; [reflexivity|].
  split; [reflexivity|]. split.
  - subst task3. cbn [RrcTask.set_ue_connections RrcTask.ue_connections].
    rewrite lookup_insert_eq. reflexivity.
  - intros j Hj. subst task3 task2 task1.
    cbn [RrcTask.set_ue_connections RrcTask.ue_connections].
    rewrite !lookup_insert_ne by congruence. reflexivity.
Qed.

Lemma rrc_connection_establishment_witness :
  let ue :=
    UeSimulation.mk
      (UeConfig.mk "imsi-001010000000001" "8baf473f2f8fd09487cccbd7097c6862"
         "8e27b6af0e692e750f32667a3b14605d" "8000" 0 "internet" 1 0x010203
         0 "" 1 "0000")
      "ue1" (UeState.new "ue1") MM_NULL MM_DEREGISTERED_NORMAL_SERVICE
      RRC_IDLE CM_IDLE SM_NULL None (UsimContext.mk "" [] [] [] 0)
      TimerManager.new (Some []) None None None in
  (exists nas,
     UeSimulation.create_registration_request ue = Ok nas /\ len nas < 256) /\
  exists ue2 m4 m5 task2 task3,
    UeSimulation.handle_rrc_message m4 ue2 = (ue2, Ok (Some m5)) /\
    RrcTask.handle_rrc_message 7 m5 task2 = (task3, Ok None) /\
    RrcTask.ue_connections task3 !! 7
    = Some (RrcStateMachine.mk "connected" true true).
Proof.
  intros ue. split.
  { eexists. split; vm_compute; reflexivity. }
  edestruct (rrc_connection_establishment ue (RrcTask.new 1) 7 [] "gnb" [])
    as (m1 & ue1 & m2 & task1 & ue2 & m3 & task2 & m4 & m5 & task3 &
        _ & _ & _ & _ & _ & E5 & E6 & _ & _ & _ & L & _);
    [reflexivity | reflexivity | vm_compute; reflexivity
    | vm_compute; reflexivity |].
  exists ue2, m4, m5, task2, task3.
  split; [exact E5|]. split; [exact E6 | exact L].
Defined.

(** ** Errors of the registration request *)

Lemma int_digits_raises (s : string) (acc : Z) (e : exn) :
  int_digits acc s = Raise e -> e = ValueError.
Proof.
  revert acc. induction s as [|c r IH]; intros acc; cbn [int_digits].
  - discriminate.
  - destruct (digitval c); [apply IH | congruence].
Qed.

Lemma int_of_str_raises (s : string) (e : exn) :
  int_of_str s = Raise e -> e = ValueError.
Proof.
  destruct s; cbn [int_of_str]; [congruence | apply int_digits_raises].
Qed.

Lemma bytes_of_ints_raises (l : list Z) (e : exn) :
  bytes_of_ints l = Raise e -> e = ValueError.
Proof.
  induction l as [|z l IH]; cbn [bytes_of_ints]; [discriminate|].
  destruct (byte_of_Z z); [|congruence].
  destruct (bytes_of_ints l); cbn [Py.bind]; [discriminate|].
  intros [= <-]. apply IH. reflexivity.
Qed.

Lemma supi_groups_raises (s : string) (e : exn) :
  UeSimulation.supi_groups s = Raise e -> e = ValueError.
Proof.
  remember (String.length s) as n eqn:Hn. revert s Hn.
  induction n as [n IH] using lt_wf_ind. intros s Hn.
  destruct s as [|a [|b [|c rest]]]; try discriminate.
  cbn [UeSimulation.supi_groups].
  destruct (int_of_str _) as [k|e1] eqn:E1; cbn [Py.bind].
  2: { intros [= <-]. eapply int_of_str_raises, E1. }
  destruct (bytes_of_ints [k]) as [x|e2] eqn:E2; cbn [Py.bind].
  2: { intros [= <-]. eapply bytes_of_ints_raises, E2. }
  destruct (UeSimulation.supi_groups rest) as [r|e3] eqn:E3; cbn [Py.bind];
    [discriminate|].
  intros [= <-].
  apply (IH (String.length rest)) with (s := rest);
    [subst n; simpl; lia | reflexivity | exact E3].
Qed.

(** A digit group that is not a number below 256, at a position that is a
    multiple of three, makes the loop over the groups raise. *)
Lemma supi_groups_bad_group (k : nat) :
  forall (pre : string) (a b c : ascii) (rest : string),
  String.length pre = (3 * k)%nat ->
  (forall n,
     int_of_str (String a (String b (String c EmptyString))) = Ok n ->
     255 < n) ->
  UeSimulation.supi_groups (pre ++ String a (String b (String c rest)))
  = Raise ValueError.
Proof.
  induction k as [|k IH]; intros pre a b c rest Hlen Hbad.
  - destruct pre; [|discriminate Hlen].
    change (UeSimulation.supi_groups (String a (String b (String c rest)))
            = Raise ValueError).
    cbn [UeSimulation.supi_groups].
    destruct (int_of_str _) as [n|e] eqn:E; cbn [Py.bind].
    + rewrite bytes_of_ints_bad; [reflexivity|].
      constructor. specialize (Hbad n eq_refl). lia.
    + f_equal. eapply int_of_str_raises, E.
  - destruct pre as [|x [|y [|z pre']]]; try (simpl in Hlen; lia).
    change (UeSimulation.supi_groups
              (String x (String y (String z
                 (pre' ++ String a (String b (String c rest))))))
            = Raise ValueError).
    cbn [UeSimulation.supi_groups].
    rewrite (IH pre' a b c rest) by (simpl in Hlen; lia || exact Hbad).
    destruct (int_of_str (String x (String y (String z EmptyString))))
      as [n|e] eqn:E; cbn [Py.bind].
    + destruct (bytes_of_ints [n]) as [w|e] eqn:E2; cbn [Py.bind];
        [reflexivity|].
      f_equal. eapply bytes_of_ints_raises, E2.
    + f_equal. eapply int_of_str_raises, E.
Qed.

Lemma split_without_separator (sep : ascii) (s : string) :
  Forall (fun ch => ch <> sep) (list_ascii_of_string s) ->
  split sep s = [s].
Proof.
  induction s as [|ch r IH]; cbn [list_ascii_of_string split];
    [reflexivity|].
  intros H. apply Forall_cons in H as [Hc Hr].
  rewrite (proj2 (Ascii.eqb_neq ch sep) Hc), (IH Hr). reflexivity.
Qed.

(** X24.  The two ways in which [create_registration_request] fails on the
    IMSI.  If the part of the IMSI after the first dash has, at a position
    that is a multiple of three, a group of three digits whose value is
    above 255, the request raises [ValueError], whatever precedes and
    follows the group and whatever the rest of the configuration is.  If
    the IMSI has no dash at all, it raises [IndexError]. *)
Theorem registration_request_errors (ue : UeSimulation.t) :
  (forall (k : nat) (pre : string) (a b c : ascii) (rest : string) (n : Z),
     index (split "-" (UeConfig.imsi (UeSimulation.config ue))) 1
     = Ok (String.append pre (String a (String b (String c rest)))) ->
     String.length pre = (3 * k)%nat ->
     int_of_str (String a (String b (String c EmptyString))) = Ok n ->
     255 < n ->
     UeSimulation.create_registration_request ue = Raise ValueError) /\
  (Forall (fun ch => ch <> "-"%char)
     (list_ascii_of_string (UeConfig.imsi (UeSimulation.config ue))) ->
   UeSimulation.create_registration_request ue = Raise IndexError).
Proof.
  split.
  - intros k pre a b c rest n Hidx Hlen Hn Hgt.
    assert (Hbad : forall n0,
              int_of_str (String a (String b (String c EmptyString))) = Ok n0
              -> 255 < n0)
      by (intros n0 H0; rewrite Hn in H0; injection H0 as <-; exact Hgt).
    unfold UeSimulation.create_registration_request.
    cbn [bytes_of_ints Py.bind].
    change (byte_of_Z 128) with (Some "128"%byte).
    change (byte_of_Z 224) with (Some "224"%byte).
    change (byte_of_Z 0) with (Some "000"%byte).
    change (byte_of_Z 1) with (Some "001"%byte).
    cbn [Py.bind]. rewrite Hidx. cbn [Py.bind].
    rewrite (supi_groups_bad_group k pre a b c rest Hlen Hbad). reflexivity.
  - intros Hno. unfold UeSimulation.create_registration_request.
    rewrite (split_without_separator _ _ Hno). reflexivity.
Qed.

Lemma registration_request_errors_witness :
  (forall ue0,
     UeSimulation.new UeConfig.default "ue1" = Ok ue0 ->
     UeSimulation.create_registration_request ue0 = Raise ValueError) /\
  (forall ue0,
     UeSimulation.new
       (UeConfig.mk "208930000000001" "8baf473f2f8fd09487cccbd7097c6862"
          "8e27b6af0e692e750f32667a3b14605d" "8000" 0 "internet" 1 0x010203
          0 "" 1 "0000") "ue1" = Ok ue0 ->
     UeSimulation.create_registration_request ue0 = Raise IndexError).
Proof.
  split; intros ue0 E; vm_compute in E; injection E as <-.
  - match goal with |- UeSimulation.create_registration_request ?u = _ =>
      apply (proj1 (registration_request_errors u) 1%nat "208"%string
               "9"%char "3"%char "0"%char "000000001"%string 930)
    end; reflexivity.
  - match goal with |- UeSimulation.create_registration_request ?u = _ =>
      apply (proj2 (registration_request_errors u))
    end.
    cbn [UeSimulation.config UeConfig.imsi list_ascii_of_string].
    repeat (constructor; [discriminate|]). constructor.
Defined.

(** ** The identity of the setup request *)

Lemma land_low_bits (x w : Z) (m : Z) :
  0 <= w -> m = Z.ones w -> Z.land x m = x mod 2 ^ w.
Proof. intros Hw ->. apply Z.land_ones, Hw. Qed.

(** X25.  [RrcSetupRequest.encode] never raises and always gives seven
    bytes: a zero byte, the establishment cause, and five identity bytes.
    Read as a big-endian number the identity is the number held by the last
    five bytes of [ue_id], or of the random token when [ue_id] is empty,
    reduced modulo 2^39: the top bit of a five-byte identity is dropped. *)
Theorem setup_request_identity
    (token : bytes) (request : RrcSetupRequest.t) :
  exists c i0 i1 i2 i3 i4,
    RrcSetupRequest.encode token request
    = Ok ["000"%byte; c; i0; i1; i2; i3; i4] /\
    Z_of_byte c
    = cause_value (RrcSetupRequest.establishment_cause request) /\
    from_bytes_big [i0; i1; i2; i3; i4]
    = from_bytes_big
        (last_n 5 (match RrcSetupRequest.ue_id request with
                   | [] => token
                   | _ => RrcSetupRequest.ue_id request
                   end)) mod 2 ^ 39.
Proof.
  unfold RrcSetupRequest.encode.
  set (src := match RrcSetupRequest.ue_id request with
              | [] => token
              | _ => RrcSetupRequest.ue_id request
              end).
  set (x := from_bytes_big (last_n 5 src)).
  rewrite (land_low_bits x 39 549755813887) by (lia || reflexivity).
  set (bits := x mod 2 ^ 39).
  assert (Hbits : 0 <= bits < 2 ^ 39) by (apply Z.mod_pos_bound; reflexivity).
  assert (Hc : Z.land (Z.land (cause_value
                 (RrcSetupRequest.establishment_cause request)) 15) 15
               = cause_value (RrcSetupRequest.establishment_cause request))
    by (destruct (RrcSetupRequest.establishment_cause request); reflexivity).
  rewrite Hc.
  rewrite (land_low_bits (Z.shiftr bits 32) 7 127) by (lia || reflexivity).
  rewrite (land_low_bits (Z.shiftr bits 24) 8 255) by (lia || reflexivity).
  rewrite (land_low_bits (Z.shiftr bits 16) 8 255) by (lia || reflexivity).
  rewrite (land_low_bits (Z.shiftr bits 8) 8 255) by (lia || reflexivity).
  rewrite (land_low_bits bits 8 255) by (lia || reflexivity).
  rewrite !Z.shiftr_div_pow2 by lia.
  change (2 ^ 39) with 549755813888 in Hbits.
  change (2 ^ 32) with 4294967296. change (2 ^ 24) with 16777216.
  change (2 ^ 16) with 65536. change (2 ^ 8) with 256. change (2 ^ 7) with 128.
  destruct (byte_of_Z_in_range
              (cause_value (RrcSetupRequest.establishment_cause request)))
    as (c & Ec & Vc);
    [destruct (RrcSetupRequest.establishment_cause request); simpl; lia|].
  destruct (byte_of_Z_in_range ((bits / 4294967296) mod 128))
    as (i0 & E0 & V0); [lia_div|].
  destruct (byte_of_Z_in_range ((bits / 16777216) mod 256))
    as (i1 & E1 & V1); [lia_div|].
  destruct (byte_of_Z_in_range ((bits / 65536) mod 256))
    as (i2 & E2 & V2); [lia_div|].
  destruct (byte_of_Z_in_range ((bits / 256) mod 256))
    as (i3 & E3 & V3); [lia_div|].
  destruct (byte_of_Z_in_range (bits mod 256))
    as (i4 & E4 & V4); [lia_div|].
  exists c, i0, i1, i2, i3, i4.
  cbn [bytes_of_ints Py.bind].
  change (byte_of_Z 0) with (Some "000"%byte).
  rewrite Ec, E0, E1, E2, E3, E4. cbn [Py.bind app].
  split; [reflexivity|]. split; [exact Vc|].
  unfold from_bytes_big at 1. cbn [fold_left].
  rewrite V0, V1, V2, V3, V4.
  match goal with |- ?l = _ => change (l = bits) end.
  clearbody bits. clear -Hbits. lia_div.
Qed.

(** ** NGAP messages *)

Section NgapFacts.

Import Ngap.

Variables (id : Z) (nas loc : bytes) (cause : Z).

(** X26.  The three NGAP encoders carry a NAS PDU shorter than 256 bytes
    unchanged, after an eight-byte header whose last byte is the length of
    the PDU.  InitialUEMessage and DownlinkNASTransport write the two low
    bytes of the NGAP identifier, low byte first; UplinkNASTransport writes
    zeros there whatever the identifier is.  The user location and the
    establishment cause are not encoded. *)
Theorem ngap_encoders_embed_nas :
  len nas < 256 ->
  exists lo hi l,
    Z_of_byte lo = id mod 256 /\
    Z_of_byte hi = (id / 256) mod 256 /\
    Z_of_byte l = len nas /\
    InitialUeMessage.encode (InitialUeMessage.mk id nas loc cause)
    = Ok (["000"%byte; "085"%byte; lo; hi; "000"%byte; "000"%byte;
           "056"%byte; l] ++ nas ++
          ["167"%byte; "007"%byte; "000"%byte; "001"%byte; "008"%byte;
           "134"%byte; "147"%byte; "000"%byte; "001"%byte]) /\
    UplinkNasTransport.encode (UplinkNasTransport.mk id nas loc)
    = Ok (["000"%byte; "074"%byte; "000"%byte; "000"%byte; "000"%byte;
           "000"%byte; "056"%byte; l] ++ nas ++
          ["167"%byte; "007"%byte; "000"%byte; "001"%byte; "008"%byte;
           "134"%byte; "147"%byte; "000"%byte; "001"%byte]) /\
    DownlinkNasTransport.encode (DownlinkNasTransport.mk id nas)
    = Ok (["000"%byte; "012"%byte; lo; hi; "000"%byte; "000"%byte;
           "056"%byte; l] ++ nas).
Proof.
  intros Hlen.
  assert (Hl : 0 <= len nas < 256) by (unfold len in *; lia).
  destruct (byte_of_Z_in_range (Z.land id 255)) as (lo & Elo & Vlo).
  { rewrite (land_low_bits id 8 255) by (lia || reflexivity).
    apply Z.mod_pos_bound. reflexivity. }
  destruct (byte_of_Z_in_range (Z.land (Z.shiftr id 8) 255))
    as (hi & Ehi & Vhi).
  { rewrite (land_low_bits (Z.shiftr id 8) 8 255) by (lia || reflexivity).
    apply Z.mod_pos_bound. reflexivity. }
  destruct (byte_of_Z_in_range (len nas) Hl) as (l & El & Vl).
  exists lo, hi, l.
  split. { rewrite Vlo, (land_low_bits id 8 255) by (lia || reflexivity).
           reflexivity. }
  split. { rewrite Vhi, (land_low_bits (Z.shiftr id 8) 8 255)
             by (lia || reflexivity).
           rewrite Z.shiftr_div_pow2 by lia. reflexivity. }
  split; [exact Vl|].
  unfold InitialUeMessage.encode, UplinkNasTransport.encode,
    DownlinkNasTransport.encode.
  cbn [InitialUeMessage.ran_ue_ngap_id InitialUeMessage.nas_pdu
       UplinkNasTransport.nas_pdu DownlinkNasTransport.nas_pdu
       DownlinkNasTransport.ue_associated_ngap_id].
  cbn [bytes_of_ints]. rewrite Elo, Ehi, El.
  split; [reflexivity|]. split; reflexivity.
Qed.

(** X27.  A NAS PDU of 256 bytes or more cannot be encoded: its length
    does not fit the single length byte and each of the three encoders
    raises [ValueError]. *)
Theorem ngap_encoders_reject_long_nas :
  256 <= len nas ->
  InitialUeMessage.encode (InitialUeMessage.mk id nas loc cause)
  = Raise ValueError /\
  UplinkNasTransport.encode (UplinkNasTransport.mk id nas loc)
  = Raise ValueError /\
  DownlinkNasTransport.encode (DownlinkNasTransport.mk id nas)
  = Raise ValueError.
Proof.
  intros Hlen.
  assert (El : byte_of_Z (len nas) = None)
    by (apply byte_of_Z_out_of_range; lia).
  destruct (byte_of_Z_land_ones id 8) as (lo & Elo); [lia|].
  destruct (byte_of_Z_land_ones (Z.shiftr id 8) 8) as (hi & Ehi); [lia|].
  change (Z.ones 8) with 255 in Elo, Ehi.
  unfold InitialUeMessage.encode, UplinkNasTransport.encode,
    DownlinkNasTransport.encode.
  cbn [InitialUeMessage.ran_ue_ngap_id InitialUeMessage.nas_pdu
       UplinkNasTransport.nas_pdu DownlinkNasTransport.nas_pdu
       DownlinkNasTransport.ue_associated_ngap_id].
  cbn [bytes_of_ints]. rewrite Elo, Ehi, El.
  split; [reflexivity|]. split; reflexivity.
Qed.

End NgapFacts.

Lemma ngap_encoders_embed_nas_witness :
  len ["126"%byte; "000"%byte; "065"%byte] < 256 /\
  Ngap.UplinkNasTransport.encode
    (Ngap.UplinkNasTransport.mk 70000 ["126"%byte; "000"%byte; "065"%byte] [])
  = Ok (["000"%byte; "074"%byte; "000"%byte; "000"%byte; "000"%byte;
         "000"%byte; "056"%byte; "003"%byte] ++
        ["126"%byte; "000"%byte; "065"%byte] ++
        ["167"%byte; "007"%byte; "000"%byte; "001"%byte; "008"%byte;
         "134"%byte; "147"%byte; "000"%byte; "001"%byte]).
Proof.
  split; [reflexivity|].
  destruct (ngap_encoders_embed_nas 70000
              ["126"%byte; "000"%byte; "065"%byte] [] 0 eq_refl)
    as (lo & hi & l & _ & _ & Vl & _ & E & _).
  rewrite (Z_of_byte_inj l "003"%byte Vl) in E. exact E.
Defined.

Lemma ngap_encoders_reject_long_nas_witness :
  256 <= len (replicate 256 "000"%byte) /\
  Ngap.DownlinkNasTransport.encode
    (Ngap.DownlinkNasTransport.mk 1 (replicate 256 "000"%byte))
  = Raise ValueError.
Proof.
  split; [unfold len; rewrite length_replicate; lia|].
  apply (ngap_encoders_reject_long_nas 1 (replicate 256 "000"%byte) [] 0).
  unfold len. rewrite length_replicate. lia.
Defined.

(** ** More on the gNB *)


Lemma len_map_to_list_insert_new
    (m : gmap string UeSimulation.t) (k : string) (ue : UeSimulation.t) :
  m !! k = None -> len (map_to_list (<[k := ue]> m)) = len (map_to_list m) + 1.
Proof.
  intros H. unfold len. rewrite !length_map_to_list.
  rewrite map_size_insert_None by exact H. lia.
Qed.

Lemma len_map_to_list_insert_known
    (m : gmap string UeSimulation.t) (k : string) (ue ue' : UeSimulation.t) :
  m !! k = Some ue -> len (map_to_list (<[k := ue']> m)) = len (map_to_list m).
Proof.
  intros H. unfold len. rewrite !length_map_to_list.
  rewrite map_size_insert_Some by (rewrite H; eauto). reflexivity.
Qed.

(** X29.  The counter [total_ues] of the metrics follows the UE table: if
    it equals the number of UEs before an RRC, NAS or NGAP message is
    handled or a state is read, it does so afterwards, also when the UE's
    handler raised.  It holds of a new gNB, and under it the [total_ues] of
    [get_metrics], which is recomputed from the table, is the counter. *)
Theorem total_ues_follows_table
    (g : GnbSimulation.t) (ue_id now : string) (data : bytes) :
  let counted (g : GnbSimulation.t) :=
    Metrics.total_ues (GnbSimulation.metrics g)
    = len (map_to_list (GnbSimulation.ues g)) in
  (forall cfg gid, counted (GnbSimulation.new cfg gid)) /\
  (counted g ->
   counted (GnbSimulation.handle_ue_rrc ue_id data g).1 /\
   counted (GnbSimulation.handle_ue_nas now ue_id data g).1 /\
   counted (GnbSimulation.handle_ngap_message data g).1 /\
   counted (GnbSimulation.get_state g).1 /\
   counted (GnbSimulation.get_ue_states g).1 /\
   MetricsReport.total_ues (GnbSimulation.get_metrics g)
   = Metrics.total_ues (GnbSimulation.metrics g)).
Proof.
  intros counted. subst counted. cbv beta. split; [reflexivity|].
  intros Hinv. destruct g as [cfg gid st ues gs ns amf mt].
  cbn [GnbSimulation.metrics GnbSimulation.ues] in Hinv.
  split; [|split; [|split; [|split; [|split]]]].
  - unfold GnbSimulation.handle_ue_rrc, GnbSimulation.call_ue,
      mbind, modify, lift, get, ret.
    cbn [GnbSimulation.count_message GnbSimulation.set_metrics
         GnbSimulation.ues GnbSimulation.metrics].
    destruct (ues !! ue_id) as [ue|] eqn:Hk.
    + destruct (UeSimulation.handle_rrc_message data ue) as [ue' [resp|e]];
        cbn [fst GnbSimulation.ues GnbSimulation.set_ues
             GnbSimulation.count_message GnbSimulation.set_metrics
             GnbSimulation.metrics Metrics.set_messages_exchanged
             Metrics.total_ues];
        rewrite (len_map_to_list_insert_known ues ue_id ue ue' Hk);
        exact Hinv.
    + destruct (new_default_ue ue_id) as [usim E]. rewrite E.
      match goal with
      | |- context [UeSimulation.handle_rrc_message data ?u] =>
          set (ue0 := u);
          destruct (UeSimulation.handle_rrc_message data ue0)
            as [ue' [resp|e]]
      end;
        cbn [fst GnbSimulation.ues GnbSimulation.set_ues
             GnbSimulation.count_message
             GnbSimulation.count_ue GnbSimulation.set_metrics
             GnbSimulation.metrics Metrics.set_messages_exchanged
             Metrics.set_total_ues Metrics.total_ues];
        rewrite insert_insert_eq;
        rewrite (len_map_to_list_insert_new ues ue_id ue' Hk);
        rewrite Hinv; reflexivity.
  - unfold GnbSimulation.handle_ue_nas, GnbSimulation.call_ue,
      mbind, modify, lift, get, ret.
    cbn [GnbSimulation.count_message GnbSimulation.set_metrics
         GnbSimulation.ues GnbSimulation.metrics].
    destruct (ues !! ue_id) as [ue|] eqn:Hk; [|exact Hinv].
    destruct (UeSimulation.handle_nas_message now data ue)
      as [ue' [resp|e]];
      cbn [fst GnbSimulation.ues GnbSimulation.set_ues
           GnbSimulation.count_message GnbSimulation.set_metrics
           GnbSimulation.metrics Metrics.set_messages_exchanged
           Metrics.total_ues];
      rewrite (len_map_to_list_insert_known ues ue_id ue ue' Hk);
      exact Hinv.
  - exact Hinv.
  - exact Hinv.
  - unfold GnbSimulation.get_ue_states.
    cbn [fst GnbSimulation.set_ues GnbSimulation.ues GnbSimulation.metrics].
    rewrite Hinv. unfold len. rewrite !length_map_to_list.
    rewrite map_size_fmap. reflexivity.
  - symmetry. exact Hinv.
Qed.

Lemma total_ues_follows_table_witness :
  let g := GnbSimulation.new GnbConfig.default "gnb1" in
  let g' := (GnbSimulation.handle_ue_rrc "ue1"
               ["001"%byte; "002"%byte] g).1 in
  Metrics.total_ues (GnbSimulation.metrics g)
  = len (map_to_list (GnbSimulation.ues g)) /\
  Metrics.total_ues (GnbSimulation.metrics g')
  = len (map_to_list (GnbSimulation.ues g')).
Proof.
  intros g g'. split; [reflexivity|].
  apply (proj2 (total_ues_follows_table g "ue1" "now"
                  ["001"%byte; "002"%byte])).
  reflexivity.
Defined.

Lemma filter_length_Permutation {A} (f : A -> bool) (l l' : list A) :
  l ≡ₚ l' -> length (List.filter f l) = length (List.filter f l').
Proof.
  induction 1 as [|x l l' _ IH|x y l|l l' l'' _ IH1 _ IH2]; cbn [List.filter].
  - reflexivity.
  - destruct (f x); cbn [length]; congruence.
  - destruct (f x), (f y); reflexivity.
  - congruence.
Qed.

Lemma connected_count_insert_new
    (g : GnbSimulation.t) (k : string) (ue : UeSimulation.t) :
  GnbSimulation.ues g !! k = None ->
  GnbSimulation.connected_count
    (GnbSimulation.set_ues (<[k := ue]> (GnbSimulation.ues g)) g)
  = GnbSimulation.connected_count g
    + (if bool_decide (UeSimulation.rrc_state ue = RRC_CONNECTED)
       then 1 else 0).
Proof.
  intros Hk. unfold GnbSimulation.connected_count, len.
  cbn [GnbSimulation.set_ues GnbSimulation.ues].
  rewrite (filter_length_Permutation _ _
             ((k, ue) :: map_to_list (GnbSimulation.ues g)).*2).
  2: { apply fmap_Permutation, map_to_list_insert, Hk. }
  cbn [fmap list_fmap snd List.filter].
  destruct (bool_decide _); cbn [length]; lia.
Qed.

(** X30.  The first SETUP that the gNB receives for an unknown UE fails,
    and leaves a trace.  The gNB creates the UE with the default
    configuration, whose IMSI has the digit group 930, so the UE's handler
    raises [ValueError] after it has gone RRC- and CM-connected.  The
    exception reaches the caller of [handle_ue_rrc], and the gNB is left
    with one more UE, one more UE counted as connected by [get_state], and
    one more message counted. *)
Theorem gnb_setup_first_contact_raises
    (g : GnbSimulation.t) (ue_id : string) (b0 : byte) (rest : bytes) :
  GnbSimulation.ues g !! ue_id = None ->
  let out :=
    GnbSimulation.handle_ue_rrc ue_id (b0 :: "002"%byte :: rest) g in
  out.2 = Raise ValueError /\
  (exists ue,
     GnbSimulation.ues out.1 !! ue_id = Some ue /\
     UeSimulation.rrc_state ue = RRC_CONNECTED /\
     UeSimulation.cm_state ue = CM_CONNECTED) /\
  GnbState.connected_ues (GnbSimulation.get_state out.1).2
  = GnbSimulation.connected_count g + 1 /\
  Metrics.total_ues (GnbSimulation.metrics out.1)
  = Metrics.total_ues (GnbSimulation.metrics g) + 1 /\
  Metrics.messages_exchanged (GnbSimulation.metrics out.1)
  = Metrics.messages_exchanged (GnbSimulation.metrics g) + 1.
Proof.
  intros Hk out. subst out.
  destruct (new_default_ue ue_id) as [usim E].
  set (ue0 := UeSimulation.mk _ _ _ _ _ _ _ _ _ _ _ _ _ _ _) in E.
  pose proof (handle_setup_when_idle ue0 b0 rest eq_refl) as H.
  cbv zeta in H.
  set (ue1 := UeSimulation.set_cm_state CM_CONNECTED
                (UeSimulation.set_rrc_state RRC_CONNECTED ue0)) in H.
  rewrite (default_imsi_request_raises ue1 eq_refl) in H.
  cbn [Py.bind] in H.
  assert (Hout : GnbSimulation.handle_ue_rrc ue_id
                   (b0 :: "002"%byte :: rest) g
                 = (GnbSimulation.set_ues
                      (<[ue_id := ue1]> (GnbSimulation.ues g))
                      (GnbSimulation.count_ue (GnbSimulation.count_message g)),
                    Raise ValueError)).
  { unfold GnbSimulation.handle_ue_rrc, GnbSimulation.call_ue,
      mbind, modify, lift, get, ret.
    destruct g as [cfg gid st ues gs ns amf mt].
    cbn [GnbSimulation.ues] in Hk.
    cbn [GnbSimulation.count_message GnbSimulation.set_metrics
         GnbSimulation.ues GnbSimulation.metrics].
    rewrite Hk, E, H.
    cbn [GnbSimulation.ues GnbSimulation.set_ues GnbSimulation.count_ue
         GnbSimulation.set_metrics GnbSimulation.metrics].
    rewrite insert_insert_eq. reflexivity. }
  rewrite Hout. cbn [fst snd]. split; [reflexivity|]. split.
  { exists ue1. cbn [GnbSimulation.set_ues GnbSimulation.ues].
    rewrite lookup_insert_eq. repeat split. }
  split.
  { pose proof (connected_count_insert_new
                  (GnbSimulation.count_ue (GnbSimulation.count_message g))
                  ue_id ue1 Hk) as C.
    exact C. }
  split; reflexivity.
Qed.

Lemma gnb_setup_first_contact_raises_witness :
  let g := GnbSimulation.new GnbConfig.default "gnb1" in
  let out := GnbSimulation.handle_ue_rrc "ue1" ["001"%byte; "002"%byte] g in
  out.2 = Raise ValueError /\
  GnbState.connected_ues (GnbSimulation.get_state out.1).2 = 1.
Proof.
  intros g out.
  destruct (gnb_setup_first_contact_raises g "ue1" "001"%byte [] eq_refl)
    as (H1 & _ & H2 & _).
  split; [exact H1 | exact H2].
Defined.
